(** * z80pack: CPU core bookkeeping (simcore.c), flag tables (simglb.c)
      and the front-panel power switch (simctl.c)

    A shallow embedding of the parts of the Z80/8080 simulator that set up,
    reset, switch and schedule the CPU, together with the precomputed flag
    tables, and the properties the design document states about them.
    Further properties cover the other switches of the two front panels
    and, of the ICE debugger, the fill, move, breakpoint and register
    commands.

    Conventions.  C integers are [Z]; an [int] holding a flag byte keeps the
    bit operators of C ([Z.land], [Z.lor], [Z.lnot] agree with two's
    complement [&], [|], [~]).  The global variables of simglb.c are the
    fields of one record; a C procedure is a function from record to record.
    Constants whose header is not part of the sources at hand (CPU model
    tags, run states, error codes, panel switch positions) are section
    variables. *)

From Stdlib Require Import ZArith List Bool Lia Ascii String.
Import ListNotations.
Local Open Scope Z_scope.

(** ** Flag bits *)

(** Modelled from the spec: the header defining the flag masks (simdefs.h)
    is not among the sources.  The design document lists the bits of F from
    bit 7 down to bit 0 as S, Z, Y (undocumented bit 5), H, X (undocumented
    bit 3), P/V, N, C. *)
Definition S_FLAG : Z := 128.
Definition Z_FLAG : Z := 64.
Definition Y_FLAG : Z := 32.
Definition H_FLAG : Z := 16.
Definition X_FLAG : Z := 8.
Definition P_FLAG : Z := 4.
Definition N_FLAG : Z := 2.
Definition C_FLAG : Z := 1.

(** [F & mask ? 1 : 0] *)
Definition flag_set (mask f : Z) : bool := negb (Z.land f mask =? 0).

(** Number of one bits of a non-negative integer. *)
Fixpoint popcount_pos (p : positive) : nat :=
  match p with
  | xH => 1
  | xO q => popcount_pos q
  | xI q => S (popcount_pos q)
  end.

Definition popcount (z : Z) : nat :=
  match z with
  | Zpos p => popcount_pos p
  | _ => 0%nat
  end.

(** ** Precomputed tables (simglb.c) *)

(** [t[i]] for a [const BYTE t[256]]. *)
Definition tbl (t : list Z) (i : Z) : Z := nth (Z.to_nat i) t 0.

(** [const char parity[256]]: 0 for an even, 1 for an odd number of ones. *)
Definition parity : list Z :=
  [
  (*00*) 0; 1; 1; 0; 1; 0; 0; 1;
  (*08*) 1; 0; 0; 1; 0; 1; 1; 0;
  (*10*) 1; 0; 0; 1; 0; 1; 1; 0;
  (*18*) 0; 1; 1; 0; 1; 0; 0; 1;
  (*20*) 1; 0; 0; 1; 0; 1; 1; 0;
  (*28*) 0; 1; 1; 0; 1; 0; 0; 1;
  (*30*) 0; 1; 1; 0; 1; 0; 0; 1;
  (*38*) 1; 0; 0; 1; 0; 1; 1; 0;
  (*40*) 1; 0; 0; 1; 0; 1; 1; 0;
  (*48*) 0; 1; 1; 0; 1; 0; 0; 1;
  (*50*) 0; 1; 1; 0; 1; 0; 0; 1;
  (*58*) 1; 0; 0; 1; 0; 1; 1; 0;
  (*60*) 0; 1; 1; 0; 1; 0; 0; 1;
  (*68*) 1; 0; 0; 1; 0; 1; 1; 0;
  (*70*) 1; 0; 0; 1; 0; 1; 1; 0;
  (*78*) 0; 1; 1; 0; 1; 0; 0; 1;
  (*80*) 1; 0; 0; 1; 0; 1; 1; 0;
  (*88*) 0; 1; 1; 0; 1; 0; 0; 1;
  (*90*) 0; 1; 1; 0; 1; 0; 0; 1;
  (*98*) 1; 0; 0; 1; 0; 1; 1; 0;
  (*a0*) 0; 1; 1; 0; 1; 0; 0; 1;
  (*a8*) 1; 0; 0; 1; 0; 1; 1; 0;
  (*b0*) 1; 0; 0; 1; 0; 1; 1; 0;
  (*b8*) 0; 1; 1; 0; 1; 0; 0; 1;
  (*c0*) 0; 1; 1; 0; 1; 0; 0; 1;
  (*c8*) 1; 0; 0; 1; 0; 1; 1; 0;
  (*d0*) 1; 0; 0; 1; 0; 1; 1; 0;
  (*d8*) 0; 1; 1; 0; 1; 0; 0; 1;
  (*e0*) 1; 0; 0; 1; 0; 1; 1; 0;
  (*e8*) 0; 1; 1; 0; 1; 0; 0; 1;
  (*f0*) 0; 1; 1; 0; 1; 0; 0; 1;
  (*f8*) 1; 0; 0; 1; 0; 1; 1; 0
  ].

Section FlagTables.

(* #define _ 0, S S_FLAG, Z Z_FLAG, Y Y_FLAG, X X_FLAG, P P_FLAG *)
Let o := 0.
Let fS := S_FLAG.
Let fZ := Z_FLAG.
Let fY := Y_FLAG.
Let fX := X_FLAG.
Let fP := P_FLAG.
Local Infix "|" := Z.lor (at level 40, left associativity).

(** Sign and zero (compiled with the Z80). *)
Definition sz_flags : list Z :=
  [
  (*00*) fZ; o;  o;  o;  o;  o;  o;  o;
  (*08*) o;  o;  o;  o;  o;  o;  o;  o;
  (*10*) o;  o;  o;  o;  o;  o;  o;  o;
  (*18*) o;  o;  o;  o;  o;  o;  o;  o;
  (*20*) o;  o;  o;  o;  o;  o;  o;  o;
  (*28*) o;  o;  o;  o;  o;  o;  o;  o;
  (*30*) o;  o;  o;  o;  o;  o;  o;  o;
  (*38*) o;  o;  o;  o;  o;  o;  o;  o;
  (*40*) o;  o;  o;  o;  o;  o;  o;  o;
  (*48*) o;  o;  o;  o;  o;  o;  o;  o;
  (*50*) o;  o;  o;  o;  o;  o;  o;  o;
  (*58*) o;  o;  o;  o;  o;  o;  o;  o;
  (*60*) o;  o;  o;  o;  o;  o;  o;  o;
  (*68*) o;  o;  o;  o;  o;  o;  o;  o;
  (*70*) o;  o;  o;  o;  o;  o;  o;  o;
  (*78*) o;  o;  o;  o;  o;  o;  o;  o;
  (*80*) fS; fS; fS; fS; fS; fS; fS; fS;
  (*88*) fS; fS; fS; fS; fS; fS; fS; fS;
  (*90*) fS; fS; fS; fS; fS; fS; fS; fS;
  (*98*) fS; fS; fS; fS; fS; fS; fS; fS;
  (*a0*) fS; fS; fS; fS; fS; fS; fS; fS;
  (*a8*) fS; fS; fS; fS; fS; fS; fS; fS;
  (*b0*) fS; fS; fS; fS; fS; fS; fS; fS;
  (*b8*) fS; fS; fS; fS; fS; fS; fS; fS;
  (*c0*) fS; fS; fS; fS; fS; fS; fS; fS;
  (*c8*) fS; fS; fS; fS; fS; fS; fS; fS;
  (*d0*) fS; fS; fS; fS; fS; fS; fS; fS;
  (*d8*) fS; fS; fS; fS; fS; fS; fS; fS;
  (*e0*) fS; fS; fS; fS; fS; fS; fS; fS;
  (*e8*) fS; fS; fS; fS; fS; fS; fS; fS;
  (*f0*) fS; fS; fS; fS; fS; fS; fS; fS;
  (*f8*) fS; fS; fS; fS; fS; fS; fS; fS
  ].

(** Sign, zero and parity. *)
Definition szp_flags : list Z :=
  [
  (*00*) fZ|fP; o;     o;     fP;    o;     fP;    fP;    o;
  (*08*) o;     fP;    fP;    o;     fP;    o;     o;     fP;
  (*10*) o;     fP;    fP;    o;     fP;    o;     o;     fP;
  (*18*) fP;    o;     o;     fP;    o;     fP;    fP;    o;
  (*20*) o;     fP;    fP;    o;     fP;    o;     o;     fP;
  (*28*) fP;    o;     o;     fP;    o;     fP;    fP;    o;
  (*30*) fP;    o;     o;     fP;    o;     fP;    fP;    o;
  (*38*) o;     fP;    fP;    o;     fP;    o;     o;     fP;
  (*40*) o;     fP;    fP;    o;     fP;    o;     o;     fP;
  (*48*) fP;    o;     o;     fP;    o;     fP;    fP;    o;
  (*50*) fP;    o;     o;     fP;    o;     fP;    fP;    o;
  (*58*) o;     fP;    fP;    o;     fP;    o;     o;     fP;
  (*60*) fP;    o;     o;     fP;    o;     fP;    fP;    o;
  (*68*) o;     fP;    fP;    o;     fP;    o;     o;     fP;
  (*70*) o;     fP;    fP;    o;     fP;    o;     o;     fP;
  (*78*) fP;    o;     o;     fP;    o;     fP;    fP;    o;
  (*80*) fS;    fS|fP; fS|fP; fS;    fS|fP; fS;    fS;    fS|fP;
  (*88*) fS|fP; fS;    fS;    fS|fP; fS;    fS|fP; fS|fP; fS;
  (*90*) fS|fP; fS;    fS;    fS|fP; fS;    fS|fP; fS|fP; fS;
  (*98*) fS;    fS|fP; fS|fP; fS;    fS|fP; fS;    fS;    fS|fP;
  (*a0*) fS|fP; fS;    fS;    fS|fP; fS;    fS|fP; fS|fP; fS;
  (*a8*) fS;    fS|fP; fS|fP; fS;    fS|fP; fS;    fS;    fS|fP;
  (*b0*) fS;    fS|fP; fS|fP; fS;    fS|fP; fS;    fS;    fS|fP;
  (*b8*) fS|fP; fS;    fS;    fS|fP; fS;    fS|fP; fS|fP; fS;
  (*c0*) fS|fP; fS;    fS;    fS|fP; fS;    fS|fP; fS|fP; fS;
  (*c8*) fS;    fS|fP; fS|fP; fS;    fS|fP; fS;    fS;    fS|fP;
  (*d0*) fS;    fS|fP; fS|fP; fS;    fS|fP; fS;    fS;    fS|fP;
  (*d8*) fS|fP; fS;    fS;    fS|fP; fS;    fS|fP; fS|fP; fS;
  (*e0*) fS;    fS|fP; fS|fP; fS;    fS|fP; fS;    fS;    fS|fP;
  (*e8*) fS|fP; fS;    fS;    fS|fP; fS;    fS|fP; fS|fP; fS;
  (*f0*) fS|fP; fS;    fS;    fS|fP; fS;    fS|fP; fS|fP; fS;
  (*f8*) fS;    fS|fP; fS|fP; fS;    fS|fP; fS;    fS;    fS|fP
  ].

(** Sign, zero, Y and X (UNDOC_FLAGS). *)
Definition szyx_flags : list Z :=
  [
  (*00*) fZ;       o;        o;        o;        o;        o;        o;        o;
  (*08*) fX;       fX;       fX;       fX;       fX;       fX;       fX;       fX;
  (*10*) o;        o;        o;        o;        o;        o;        o;        o;
  (*18*) fX;       fX;       fX;       fX;       fX;       fX;       fX;       fX;
  (*20*) fY;       fY;       fY;       fY;       fY;       fY;       fY;       fY;
  (*28*) fY|fX;    fY|fX;    fY|fX;    fY|fX;    fY|fX;    fY|fX;    fY|fX;    fY|fX;
  (*30*) fY;       fY;       fY;       fY;       fY;       fY;       fY;       fY;
  (*38*) fY|fX;    fY|fX;    fY|fX;    fY|fX;    fY|fX;    fY|fX;    fY|fX;    fY|fX;
  (*40*) o;        o;        o;        o;        o;        o;        o;        o;
  (*48*) fX;       fX;       fX;       fX;       fX;       fX;       fX;       fX;
  (*50*) o;        o;        o;        o;        o;        o;        o;        o;
  (*58*) fX;       fX;       fX;       fX;       fX;       fX;       fX;       fX;
  (*60*) fY;       fY;       fY;       fY;       fY;       fY;       fY;       fY;
  (*68*) fY|fX;    fY|fX;    fY|fX;    fY|fX;    fY|fX;    fY|fX;    fY|fX;    fY|fX;
  (*70*) fY;       fY;       fY;       fY;       fY;       fY;       fY;       fY;
  (*78*) fY|fX;    fY|fX;    fY|fX;    fY|fX;    fY|fX;    fY|fX;    fY|fX;    fY|fX;
  (*80*) fS;       fS;       fS;       fS;       fS;       fS;       fS;       fS;
  (*88*) fS|fX;    fS|fX;    fS|fX;    fS|fX;    fS|fX;    fS|fX;    fS|fX;    fS|fX;
  (*90*) fS;       fS;       fS;       fS;       fS;       fS;       fS;       fS;
  (*98*) fS|fX;    fS|fX;    fS|fX;    fS|fX;    fS|fX;    fS|fX;    fS|fX;    fS|fX;
  (*a0*) fS|fY;    fS|fY;    fS|fY;    fS|fY;    fS|fY;    fS|fY;    fS|fY;    fS|fY;
  (*a8*) fS|fY|fX; fS|fY|fX; fS|fY|fX; fS|fY|fX; fS|fY|fX; fS|fY|fX; fS|fY|fX; fS|fY|fX;
  (*b0*) fS|fY;    fS|fY;    fS|fY;    fS|fY;    fS|fY;    fS|fY;    fS|fY;    fS|fY;
  (*b8*) fS|fY|fX; fS|fY|fX; fS|fY|fX; fS|fY|fX; fS|fY|fX; fS|fY|fX; fS|fY|fX; fS|fY|fX;
  (*c0*) fS;       fS;       fS;       fS;       fS;       fS;       fS;       fS;
  (*c8*) fS|fX;    fS|fX;    fS|fX;    fS|fX;    fS|fX;    fS|fX;    fS|fX;    fS|fX;
  (*d0*) fS;       fS;       fS;       fS;       fS;       fS;       fS;       fS;
  (*d8*) fS|fX;    fS|fX;    fS|fX;    fS|fX;    fS|fX;    fS|fX;    fS|fX;    fS|fX;
  (*e0*) fS|fY;    fS|fY;    fS|fY;    fS|fY;    fS|fY;    fS|fY;    fS|fY;    fS|fY;
  (*e8*) fS|fY|fX; fS|fY|fX; fS|fY|fX; fS|fY|fX; fS|fY|fX; fS|fY|fX; fS|fY|fX; fS|fY|fX;
  (*f0*) fS|fY;    fS|fY;    fS|fY;    fS|fY;    fS|fY;    fS|fY;    fS|fY;    fS|fY;
  (*f8*) fS|fY|fX; fS|fY|fX; fS|fY|fX; fS|fY|fX; fS|fY|fX; fS|fY|fX; fS|fY|fX; fS|fY|fX
  ].

(** Sign, zero, Y, X and parity (UNDOC_FLAGS). *)
Definition szyxp_flags : list Z :=
  [
  (*00*) fZ|fP;       o;           o;           fP;          o;           fP;          fP;          o;
  (*08*) fX;          fX|fP;       fX|fP;       fX;          fX|fP;       fX;          fX;          fX|fP;
  (*10*) o;           fP;          fP;          o;           fP;          o;           o;           fP;
  (*18*) fX|fP;       fX;          fX;          fX|fP;       fX;          fX|fP;       fX|fP;       fX;
  (*20*) fY;          fY|fP;       fY|fP;       fY;          fY|fP;       fY;          fY;          fY|fP;
  (*28*) fY|fX|fP;    fY|fX;       fY|fX;       fY|fX|fP;    fY|fX;       fY|fX|fP;    fY|fX|fP;    fY|fX;
  (*30*) fY|fP;       fY;          fY;          fY|fP;       fY;          fY|fP;       fY|fP;       fY;
  (*38*) fY|fX;       fY|fX|fP;    fY|fX|fP;    fY|fX;       fY|fX|fP;    fY|fX;       fY|fX;       fY|fX|fP;
  (*40*) o;           fP;          fP;          o;           fP;          o;           o;           fP;
  (*48*) fX|fP;       fX;          fX;          fX|fP;       fX;          fX|fP;       fX|fP;       fX;
  (*50*) fP;          o;           o;           fP;          o;           fP;          fP;          o;
  (*58*) fX;          fX|fP;       fX|fP;       fX;          fX|fP;       fX;          fX;          fX|fP;
  (*60*) fY|fP;       fY;          fY;          fY|fP;       fY;          fY|fP;       fY|fP;       fY;
  (*68*) fY|fX;       fY|fX|fP;    fY|fX|fP;    fY|fX;       fY|fX|fP;    fY|fX;       fY|fX;       fY|fX|fP;
  (*70*) fY;          fY|fP;       fY|fP;       fY;          fY|fP;       fY;          fY;          fY|fP;
  (*78*) fY|fX|fP;    fY|fX;       fY|fX;       fY|fX|fP;    fY|fX;       fY|fX|fP;    fY|fX|fP;    fY|fX;
  (*80*) fS;          fS|fP;       fS|fP;       fS;          fS|fP;       fS;          fS;          fS|fP;
  (*88*) fS|fX|fP;    fS|fX;       fS|fX;       fS|fX|fP;    fS|fX;       fS|fX|fP;    fS|fX|fP;    fS|fX;
  (*90*) fS|fP;       fS;          fS;          fS|fP;       fS;          fS|fP;       fS|fP;       fS;
  (*98*) fS|fX;       fS|fX|fP;    fS|fX|fP;    fS|fX;       fS|fX|fP;    fS|fX;       fS|fX;       fS|fX|fP;
  (*a0*) fS|fY|fP;    fS|fY;       fS|fY;       fS|fY|fP;    fS|fY;       fS|fY|fP;    fS|fY|fP;    fS|fY;
  (*a8*) fS|fY|fX;    fS|fY|fX|fP; fS|fY|fX|fP; fS|fY|fX;    fS|fY|fX|fP; fS|fY|fX;    fS|fY|fX;    fS|fY|fX|fP;
  (*b0*) fS|fY;       fS|fY|fP;    fS|fY|fP;    fS|fY;       fS|fY|fP;    fS|fY;       fS|fY;       fS|fY|fP;
  (*b8*) fS|fY|fX|fP; fS|fY|fX;    fS|fY|fX;    fS|fY|fX|fP; fS|fY|fX;    fS|fY|fX|fP; fS|fY|fX|fP; fS|fY|fX;
  (*c0*) fS|fP;       fS;          fS;          fS|fP;       fS;          fS|fP;       fS|fP;       fS;
  (*c8*) fS|fX;       fS|fX|fP;    fS|fX|fP;    fS|fX;       fS|fX|fP;    fS|fX;       fS|fX;       fS|fX|fP;
  (*d0*) fS;          fS|fP;       fS|fP;       fS;          fS|fP;       fS;          fS;          fS|fP;
  (*d8*) fS|fX|fP;    fS|fX;       fS|fX;       fS|fX|fP;    fS|fX;       fS|fX|fP;    fS|fX|fP;    fS|fX;
  (*e0*) fS|fY;       fS|fY|fP;    fS|fY|fP;    fS|fY;       fS|fY|fP;    fS|fY;       fS|fY;       fS|fY|fP;
  (*e8*) fS|fY|fX|fP; fS|fY|fX;    fS|fY|fX;    fS|fY|fX|fP; fS|fY|fX;    fS|fY|fX|fP; fS|fY|fX|fP; fS|fY|fX;
  (*f0*) fS|fY|fP;    fS|fY;       fS|fY;       fS|fY|fP;    fS|fY;       fS|fY|fP;    fS|fY|fP;    fS|fY;
  (*f8*) fS|fY|fX;    fS|fY|fX|fP; fS|fY|fX|fP; fS|fY|fX;    fS|fY|fX|fP; fS|fY|fX;    fS|fY|fX;    fS|fY|fX|fP
  ].

End FlagTables.

(** *** Row checks: what one entry of a table has to be *)

(** All values of a BYTE. *)
Definition bytes : list Z := map Z.of_nat (seq 0 256).

Definition SZP_FLAGS : Z := Z.lor (Z.lor S_FLAG Z_FLAG) P_FLAG.

Definition szp_row_ok (r : Z) : bool :=
  let e := tbl szp_flags r in
  Bool.eqb (flag_set Z_FLAG e) (r =? 0)
  && Bool.eqb (flag_set S_FLAG e) (Z.testbit r 7)
  && Bool.eqb (flag_set P_FLAG e) (Nat.even (popcount r))
  && (Z.land e (Z.lnot SZP_FLAGS) =? 0).

Definition yx_row_ok (t : list Z) (b : Z) : bool :=
  let e := tbl t b in
  Bool.eqb (flag_set Y_FLAG e) (Z.testbit b 5)
  && Bool.eqb (flag_set X_FLAG e) (Z.testbit b 3).

Definition parity_row_ok (r : Z) : bool :=
  tbl parity r =? Z.of_nat (popcount r) mod 2.

(** What the tables hold, computed from the index the way the executors do
    without FLAG_TABLES: Z for a zero result, S its bit 7, P for
    [parity[r] == 0], Y and X its bits 5 and 3. *)
Definition sz_of (r : Z) : Z :=
  Z.lor (if r =? 0 then Z_FLAG else 0) (Z.land r S_FLAG).

Definition p_of (r : Z) : Z := if tbl parity r =? 0 then P_FLAG else 0.

Definition yx_of (r : Z) : Z := Z.land r (Z.lor Y_FLAG X_FLAG).

Definition tables_row_ok (r : Z) : bool :=
  (tbl sz_flags r =? sz_of r)
  && (tbl szp_flags r =? Z.lor (sz_of r) (p_of r))
  && (tbl szyx_flags r =? Z.lor (sz_of r) (yx_of r))
  && (tbl szyxp_flags r =? Z.lor (Z.lor (sz_of r) (yx_of r)) (p_of r)).

(** ** Global state of the simulator (simglb.c) *)

(** Sequencing of procedures on a state: [c1 ;; c2] runs [c1], then [c2]. *)
Definition seq_cmd {X : Type} (c1 c2 : X -> X) : X -> X := fun x => c2 (c1 x).
Infix ";;" := seq_cmd (at level 61, left associativity).

(** [#ifdef]-guarded code and [if] statements. *)
Definition when {X : Type} (b : bool) (c : X -> X) : X -> X :=
  fun x => if b then c x else x.
Definition ifc {X : Type} (cond : X -> bool) (c : X -> X) : X -> X :=
  fun x => if cond x then c x else x.
Definition skip {X : Type} : X -> X := fun x => x.

(** Builds the assignment to the field [proj] of a record from its
    eta-expansion [eta]. *)
Ltac setter eta proj :=
  let v := fresh "v" in
  let s := fresh "s" in
  intros v s;
  let e := eval cbv beta delta [eta] in (eta s) in
  match eval pattern (proj s) in e with
  | ?f _ => let r := eval cbv beta in (f v) in exact r
  end.

(** [BusDMA_t] is an enumeration of simdefs.h, a header that is not part of
    the sources; its values are C integers. *)
Definition BusDMA_t : Type := Z.

Record State : Type := mkState {
  cpu : Z;             (* int: type of CPU, either Z80 or 8080 *)
  A : Z; B : Z; C : Z; D : Z; E : Z; H : Z; L : Z;
                       (* BYTE, primary registers *)
  F : Z;               (* int: normally 8-Bit, but int is faster *)
  IX : Z; IY : Z;      (* WORD, Z80 index registers *)
  WZ : Z;              (* WORD, Z80 internal register *)
  modF : Z; pmodF : Z; (* int: current/previous instr manipulated F *)
  A_ : Z; B_ : Z; C_ : Z; D_ : Z; E_ : Z; H_ : Z; L_ : Z;
                       (* BYTE, Z80 alternate registers *)
  I : Z;               (* BYTE, Z80 interrupt register *)
  R : Z;               (* BYTE, Z80 refresh register (7-bit counter) *)
  R_ : Z;              (* BYTE, 8th bit of R (can be loaded with LD R,A) *)
  F_ : Z;              (* int *)
  PC : Z;              (* WORD, program counter *)
  SP : Z;              (* WORD, stack pointer *)
  IFF : Z;             (* BYTE, interrupt flags *)
  T : Z;               (* Tstates_t, CPU clock *)
  cpu_bus : Z;         (* BYTE, CPU bus status, for frontpanels *)
  m1_step : Z;         (* int: flag for waiting at M1 in single step *)
  io_port : Z;         (* BYTE, I/O port used *)
  io_data : Z;         (* BYTE, data on I/O port *)
  busy_loop_cnt : Z;   (* int: counter for I/O busy loop detection *)
  cpu_state : Z;       (* BYTE, state of CPU emulation *)
  cpu_error : Z;       (* int: error status of CPU emulation *)
  int_mode : Z;        (* int: CPU interrupt mode (IM 0, IM 1, IM 2) *)
  int_nmi : Z;         (* int: non-maskable interrupt request *)
  int_int : Z;         (* int: interrupt request *)
  int_data : Z;        (* int: data from interrupting device on data bus *)
  int_protection : Z;  (* int: to delay interrupts after EI *)
  bus_request : Z;     (* BYTE, request address/data bus from CPU *)
  bus_mode : BusDMA_t; (* current bus mode for DMA *)
  dma_bus_master : option (Z -> Z); (* DMA bus master call back, NULL is None *)
  tmax : Z;            (* int: max t-states to execute in 10ms *)
  cpu_needed : Z       (* int: don't adjust CPU freq if needed *)
}.

Definition eta_State (s : State) : State :=
  mkState (cpu s) (A s) (B s) (C s) (D s) (E s) (H s) (L s) (F s)
    (IX s) (IY s) (WZ s) (modF s) (pmodF s)
    (A_ s) (B_ s) (C_ s) (D_ s) (E_ s) (H_ s) (L_ s)
    (I s) (R s) (R_ s) (F_ s) (PC s) (SP s) (IFF s) (T s)
    (cpu_bus s) (m1_step s) (io_port s) (io_data s) (busy_loop_cnt s)
    (cpu_state s) (cpu_error s)
    (int_mode s) (int_nmi s) (int_int s) (int_data s) (int_protection s)
    (bus_request s) (bus_mode s) (dma_bus_master s) (tmax s) (cpu_needed s).

(** Assignments [x = v]. *)
Definition set_cpu : Z -> State -> State := ltac:(setter eta_State cpu).
Definition set_A : Z -> State -> State := ltac:(setter eta_State A).
Definition set_B : Z -> State -> State := ltac:(setter eta_State B).
Definition set_C : Z -> State -> State := ltac:(setter eta_State C).
Definition set_D : Z -> State -> State := ltac:(setter eta_State D).
Definition set_E : Z -> State -> State := ltac:(setter eta_State E).
Definition set_H : Z -> State -> State := ltac:(setter eta_State H).
Definition set_L : Z -> State -> State := ltac:(setter eta_State L).
Definition set_F : Z -> State -> State := ltac:(setter eta_State F).
Definition set_IX : Z -> State -> State := ltac:(setter eta_State IX).
Definition set_IY : Z -> State -> State := ltac:(setter eta_State IY).
Definition set_WZ : Z -> State -> State := ltac:(setter eta_State WZ).
Definition set_A_ : Z -> State -> State := ltac:(setter eta_State A_).
Definition set_B_ : Z -> State -> State := ltac:(setter eta_State B_).
Definition set_C_ : Z -> State -> State := ltac:(setter eta_State C_).
Definition set_D_ : Z -> State -> State := ltac:(setter eta_State D_).
Definition set_E_ : Z -> State -> State := ltac:(setter eta_State E_).
Definition set_H_ : Z -> State -> State := ltac:(setter eta_State H_).
Definition set_L_ : Z -> State -> State := ltac:(setter eta_State L_).
Definition set_F_ : Z -> State -> State := ltac:(setter eta_State F_).
Definition set_I : Z -> State -> State := ltac:(setter eta_State I).
Definition set_R : Z -> State -> State := ltac:(setter eta_State R).
Definition set_R_ : Z -> State -> State := ltac:(setter eta_State R_).
Definition set_PC : Z -> State -> State := ltac:(setter eta_State PC).
Definition set_SP : Z -> State -> State := ltac:(setter eta_State SP).
Definition set_IFF : Z -> State -> State := ltac:(setter eta_State IFF).
Definition set_cpu_bus : Z -> State -> State :=
  ltac:(setter eta_State cpu_bus).
Definition set_cpu_state : Z -> State -> State :=
  ltac:(setter eta_State cpu_state).
Definition set_cpu_error : Z -> State -> State :=
  ltac:(setter eta_State cpu_error).
Definition set_int_mode : Z -> State -> State :=
  ltac:(setter eta_State int_mode).
Definition set_int_nmi : Z -> State -> State :=
  ltac:(setter eta_State int_nmi).
Definition set_int_int : Z -> State -> State :=
  ltac:(setter eta_State int_int).
Definition set_int_data : Z -> State -> State :=
  ltac:(setter eta_State int_data).
Definition set_int_protection : Z -> State -> State :=
  ltac:(setter eta_State int_protection).
Definition set_bus_request : Z -> State -> State :=
  ltac:(setter eta_State bus_request).
Definition set_bus_mode : BusDMA_t -> State -> State :=
  ltac:(setter eta_State bus_mode).
Definition set_dma_bus_master : option (Z -> Z) -> State -> State :=
  ltac:(setter eta_State dma_bus_master).


(** [x op= ...]: an assignment whose right-hand side reads the old value. *)
Definition upd_F (g : Z -> Z) : State -> State := fun s => set_F (g (F s)) s.

(** ** State of a front-panel machine (simctl.c) *)

(** What a callback writes to the terminal. *)
Inductive term_event : Type :=
  | TputClear               (* system("tput clear") *)
  | Puts (line : string).   (* puts(line) *)

Record Panel : Type := mkPanel {
  core : State;          (* the globals of simglb.c *)
  fp_led_address : Z;    (* WORD, lights for address bus *)
  fp_led_data : Z;       (* BYTE, lights for data bus *)
  fp_led_output : Z;     (* BYTE, inverted programmed output *)
  f_flag : Z;            (* int: flag for -f option *)
  fp_led_wait : Z;       (* static BYTE *)
  fp_led_speed : Z;      (* static BYTE *)
  cpu_switch : Z;        (* static int *)
  reset : Z;             (* static int *)
  power : Z;             (* static int *)
  console : list term_event  (* terminal output so far, latest first *)
}.

Definition eta_Panel (p : Panel) : Panel :=
  mkPanel (core p) (fp_led_address p) (fp_led_data p) (fp_led_output p)
    (f_flag p) (fp_led_wait p) (fp_led_speed p) (cpu_switch p) (reset p)
    (power p) (console p).

Definition set_core : State -> Panel -> Panel := ltac:(setter eta_Panel core).
Definition set_fp_led_address : Z -> Panel -> Panel :=
  ltac:(setter eta_Panel fp_led_address).
Definition set_fp_led_data : Z -> Panel -> Panel :=
  ltac:(setter eta_Panel fp_led_data).
Definition set_fp_led_output : Z -> Panel -> Panel :=
  ltac:(setter eta_Panel fp_led_output).
Definition set_fp_led_wait : Z -> Panel -> Panel :=
  ltac:(setter eta_Panel fp_led_wait).
Definition set_fp_led_speed : Z -> Panel -> Panel :=
  ltac:(setter eta_Panel fp_led_speed).
Definition set_cpu_switch : Z -> Panel -> Panel :=
  ltac:(setter eta_Panel cpu_switch).
Definition set_power : Z -> Panel -> Panel := ltac:(setter eta_Panel power).
Definition set_console : list term_event -> Panel -> Panel :=
  ltac:(setter eta_Panel console).

(** A procedure of the core run on the globals of a panel machine. *)
Definition on_core (c : State -> State) : Panel -> Panel :=
  fun p => set_core (c (core p)) p.
Definition emit (e : term_event) : Panel -> Panel :=
  fun p => set_console (e :: console p) p.

(** The argument of [puts] in [power_clicked]: three times CR LF. *)
Definition crlf3 : string :=
  let cr := "013"%char in
  let lf := "010"%char in
  String cr (String lf (String cr (String lf (String cr (String lf
    EmptyString))))).

(** [F &= ~(Y_FLAG | X_FLAG); F |= N_FLAG;] as a function of the old F. *)
Definition force_8080 (f : Z) : Z :=
  Z.lor (Z.land f (Z.lnot (Z.lor Y_FLAG X_FLAG))) N_FLAG.

(** The globals as the C runtime initialises them at program start: zero,
    except [cpu = DEF_CPU] and [int_data = -1]. *)
Definition initial_globals (DEF_CPU : Z) : State :=
  mkState DEF_CPU 0 0 0 0 0 0 0 0 0 0 0 0 0 0 0 0 0 0 0 0 0 0 0 0 0 0 0 0
    0 0 0 0 0 0 0 0 0 0 (-1) 0 0 0 None 0 0.

(** ** Characters, strings and [int] arithmetic of C *)

(** A [char *] is a [string]; its end stands for the terminating NUL. *)
Definition char_code (c : ascii) : Z := Z.of_N (N_of_ascii c).

(** <ctype.h> in the "C" locale, on [(unsigned char) c]. *)
Definition isdigit (c : ascii) : bool :=
  (48 <=? char_code c) && (char_code c <=? 57).

Definition isxdigit (c : ascii) : bool :=
  isdigit c
  || ((65 <=? char_code c) && (char_code c <=? 70))
  || ((97 <=? char_code c) && (char_code c <=? 102)).

Definition isspace (c : ascii) : bool :=
  (char_code c =? 32) || ((9 <=? char_code c) && (char_code c <=? 13)).

Definition toupper (c : ascii) : Z :=
  if (97 <=? char_code c) && (char_code c <=? 122)
  then char_code c - 32 else char_code c.

(** [int] has 32 bits on the hosts of the simulator.  Signed arithmetic
    whose result does not fit is undefined: [None]. *)
Definition INT_MAX : Z := 2147483647.
Definition INT_MIN : Z := -2147483648.

Definition int_result (z : Z) : option Z :=
  if (INT_MIN <=? z) && (z <=? INT_MAX) then Some z else None.

(** Conversion to [BYTE] (unsigned char) and [WORD] (unsigned short). *)
Definition to_BYTE (z : Z) : Z := z mod 256.
Definition to_WORD (z : Z) : Z := z mod 65536.

(** More of ctype.h in the C locale, for the debugger's command lines. *)
Definition iscntrl (c : ascii) : bool :=
  (char_code c <? 32) || (char_code c =? 127).

Definition ispunct (c : ascii) : bool :=
  ((33 <=? char_code c) && (char_code c <=? 47))
  || ((58 <=? char_code c) && (char_code c <=? 64))
  || ((91 <=? char_code c) && (char_code c <=? 96))
  || ((123 <=? char_code c) && (char_code c <=? 126)).

(** [*s] and [s + 1] for a C string: the terminator of the empty string is
    the character 0. *)
Definition head_char (s : string) : ascii :=
  match s with
  | EmptyString => Ascii.zero
  | String c _ => c
  end.

Definition tail (s : string) : string :=
  match s with
  | EmptyString => EmptyString
  | String _ rest => rest
  end.

(** The line feed, for format strings. *)
Definition nl : string := String (ascii_of_nat 10) EmptyString.

(** [while (isspace((unsigned char) *s)) s++;] *)
Fixpoint skip_spaces (s : string) : string :=
  match s with
  | EmptyString => EmptyString
  | String c rest => if isspace c then skip_spaces rest else s
  end.

(** stdlib.h [atoi]: white space, an optional sign, decimal digits; a value
    that does not fit an [int] is undefined. *)
Fixpoint decimal_loop (num : Z) (s : string) : Z :=
  match s with
  | EmptyString => num
  | String c rest =>
      if isdigit c then decimal_loop (num * 10 + (char_code c - 48)) rest
      else num
  end.

Definition atoi (s : string) : option Z :=
  let s1 := skip_spaces s in
  if char_code (head_char s1) =? 45 then                  (* '-' *)
    int_result (- decimal_loop 0 (tail s1))
  else if char_code (head_char s1) =? 43 then             (* '+' *)
    int_result (decimal_loop 0 (tail s1))
  else int_result (decimal_loop 0 s1).

(** string.h [strncmp(s1, s2, n) == 0]: the first [n] characters agree, or
    both strings end before. *)
Fixpoint strncmp_eq (s1 s2 : string) (n : nat) {struct n} : bool :=
  match n with
  | O => true
  | S n' =>
      match s1, s2 with
      | EmptyString, EmptyString => true
      | String c1 r1, String c2 r2 =>
          (char_code c1 =? char_code c2) && strncmp_eq r1 r2 n'
      | _, _ => false
      end
  end.

(** ** simcore.c: atoi for hexadecimal numbers *)

(** The [while] loop of [exatoi], from the current [num] and [str]. *)
Fixpoint exatoi_loop (num : Z) (str : string) : option Z :=
  match str with
  | EmptyString => Some num
  | String c rest =>
      if isxdigit c then
        match int_result (num * 16) with              (* num *= 16 *)
        | None => None
        | Some num16 =>
            match int_result
                    (if char_code c <=? 57                (* *str <= '9' *)
                     then num16 + (char_code c - 48)      (* *str - '0' *)
                     else num16 + (toupper c - 55))       (* ... - '7' *)
            with
            | None => None
            | Some num' => exatoi_loop num' rest          (* str++ *)
            end
        end
      else Some num
  end.

Definition exatoi (str : string) : option Z := exatoi_loop 0 str.

(** *** What [exatoi] is measured against *)

(** The hexadecimal digits a string starts with. *)
Fixpoint xdigits_prefix (str : string) : list ascii :=
  match str with
  | EmptyString => []
  | String c rest => if isxdigit c then c :: xdigits_prefix rest else []
  end.

(** The value of one digit: 0..9, then A..F or a..f for 10..15. *)
Definition hex_digit_value (c : ascii) : Z :=
  if isdigit c then char_code c - 48
  else if (65 <=? char_code c) && (char_code c <=? 70) then char_code c - 55
  else if (97 <=? char_code c) && (char_code c <=? 102) then char_code c - 87
  else 0.

(** The number a list of digits writes, most significant digit first. *)
Fixpoint hex_value (ds : list ascii) : Z :=
  match ds with
  | [] => 0
  | c :: rest =>
      hex_digit_value c * 16 ^ Z.of_nat (List.length rest) + hex_value rest
  end.

(** A string with its letters in upper case. *)
Fixpoint upper_case (str : string) : string :=
  match str with
  | EmptyString => EmptyString
  | String c rest =>
      String (ascii_of_N (Z.to_N (toupper c))) (upper_case rest)
  end.

Section Simulator.

(** *** Constants of headers that are not part of the sources *)

(** [BUS_DMA_NONE] of [BusDMA_t]. *)
Variable BUS_DMA_NONE : BusDMA_t.
(** CPU model tags, the values of [cpu]. *)
Variables Z80 I8080 : Z.
(** Values of [cpu_state]. *)
Variables STOPPED CONTIN_RUN SINGLE_STEP MODEL_SWITCH : Z.
(** Values of [cpu_error]. *)
Variables NONE POWEROFF : Z.
(** Bits of [cpu_bus]. *)
Variables CPU_WO CPU_M1 CPU_MEMR : Z.
(** Switch positions handed to front-panel callbacks (frontpanel.h). *)
Variables FP_SW_UP FP_SW_DOWN : Z.
(** Build-time switches of sim.h: [true] when the macro is defined. *)
Variables EXCLUDE_Z80 EXCLUDE_I8080 UNDOC_FLAGS : bool.

(** *** The C library's pseudo-random generator *)

(** [rand()] returns a value in [0, RAND_MAX] and advances a hidden state. *)
Variable RandSt : Type.
Variable rand : RandSt -> N * RandSt.

Definition World : Type := (State * RandSt)%type.

Definition lift (c : State -> State) : World -> World :=
  fun w => (c (fst w), snd w).

(** [x = rand() % m] *)
Definition rand_mod (m : Z) (set_x : Z -> State -> State) : World -> World :=
  fun w =>
    let rg := rand (snd w) in
    (set_x (Z.of_N (fst rg) mod m) (fst w), snd rg).

(** *** simcore.c *)

(** Initialize the CPU *)
Definition init_cpu : World -> World :=
  (* same for i8080 and Z80 *)
  lift (set_PC 0) ;;
  rand_mod 65536 set_SP ;;
  rand_mod 256 set_A ;;
  rand_mod 256 set_B ;;
  rand_mod 256 set_C ;;
  rand_mod 256 set_D ;;
  rand_mod 256 set_E ;;
  rand_mod 256 set_H ;;
  rand_mod 256 set_L ;;
  rand_mod 256 set_F ;;
  when (negb EXCLUDE_Z80)
    (lift (set_I 0) ;;
     rand_mod 256 set_A_ ;;
     rand_mod 256 set_B_ ;;
     rand_mod 256 set_C_ ;;
     rand_mod 256 set_D_ ;;
     rand_mod 256 set_E_ ;;
     rand_mod 256 set_H_ ;;
     rand_mod 256 set_L_ ;;
     rand_mod 256 set_F_ ;;
     rand_mod 65536 set_IX ;;
     rand_mod 65536 set_IY ;;
     when UNDOC_FLAGS (rand_mod 65536 set_WZ)) ;;
  when (negb EXCLUDE_I8080)
    (lift (ifc (fun s => cpu s =? I8080)
       (upd_F (fun f => Z.land f (Z.lnot (Z.lor Y_FLAG X_FLAG))) ;;
        upd_F (fun f => Z.lor f N_FLAG)))).

(** Reset the CPU *)
Definition reset_cpu : State -> State :=
  (* IFF = int_int = int_protection = 0 *)
  set_int_protection 0 ;; set_int_int 0 ;; set_IFF 0 ;;
  set_int_data (-1) ;;
  set_PC 0 ;;
  when (negb EXCLUDE_Z80)
    (set_I 0 ;;
     (* R_ = R = 0 *)
     set_R 0 ;; set_R_ 0 ;;
     (* int_nmi = int_mode = 0 *)
     set_int_mode 0 ;; set_int_nmi 0).

(** Switch the CPU model (compiled when neither model is excluded) *)
Definition switch_cpu (new_cpu : Z) : State -> State :=
  ifc (fun s => negb (cpu s =? new_cpu))
    ((* switch (new_cpu) *)
     (if new_cpu =? Z80 then skip
      else if new_cpu =? I8080 then
        upd_F (fun f => Z.land f (Z.lnot (Z.lor Y_FLAG X_FLAG))) ;;
        upd_F (fun f => Z.lor f N_FLAG)
      else skip) ;;
     set_cpu new_cpu ;;
     set_cpu_state MODEL_SWITCH).

(** The executors of the two models (simz80.c, sim8080.c) are external to
    simcore.c: [extern void cpu_z80(void), cpu_8080(void)].  A call either
    returns with the globals changed or does not return ([None]). *)
Variables cpu_z80 cpu_8080 : State -> option State.

(** [switch (cpu) { case Z80: cpu_z80(); ... case I8080: cpu_8080(); ... }] *)
Definition dispatch (s : State) : option State :=
  if negb EXCLUDE_Z80 && (cpu s =? Z80) then cpu_z80 s
  else if negb EXCLUDE_I8080 && (cpu s =? I8080) then cpu_8080 s
  else Some s.

(** The [for (;;)] of [run_cpu]; [fuel] bounds the number of rounds. *)
Fixpoint run_loop (fuel : nat) (s : State) : option State :=
  match fuel with
  | O => None
  | S fuel' =>
      match dispatch s with
      | None => None
      | Some s1 =>
          if cpu_state s1 =? MODEL_SWITCH
          then run_loop fuel' (set_cpu_state CONTIN_RUN s1)   (* continue *)
          else Some s1                                        (* break *)
      end
  end.

(** Run CPU *)
Definition run_cpu (fuel : nat) (s : State) : option State :=
  run_loop fuel (set_cpu_error NONE (set_cpu_state CONTIN_RUN s)).

(** Step CPU *)
Definition step_cpu (s : State) : option State :=
  option_map (set_cpu_state STOPPED)
    (dispatch (set_cpu_error NONE (set_cpu_state SINGLE_STEP s))).

(** Start a bus request cycle *)
Definition start_bus_request (mode : BusDMA_t) (bus_master : option (Z -> Z))
  : State -> State :=
  set_bus_mode mode ;;
  set_dma_bus_master bus_master ;;
  set_bus_request 1.

(** End a bus request cycle *)
Definition end_bus_request : State -> State :=
  set_bus_mode BUS_DMA_NONE ;;
  set_dma_bus_master None ;;
  set_bus_request 0.

(** [run_cpu] seen round by round: the state from which round [k] starts,
    when each of the first [k] calls of an executor returned with
    [cpu_state == MODEL_SWITCH]. *)
Fixpoint switched_rounds (k : nat) (s : State) : option State :=
  match k with
  | O => Some s
  | S k' =>
      match dispatch s with
      | None => None
      | Some s1 =>
          if cpu_state s1 =? MODEL_SWITCH
          then switched_rounds k' (set_cpu_state CONTIN_RUN s1)
          else None
      end
  end.

(** The value the [k]-th call of [rand()] returns, counting from 0. *)
Definition draw (k : nat) (g : RandSt) : Z :=
  Z.of_N (fst (rand (Nat.iter k (fun g' => snd (rand g')) g))).

(** *** simctl.c *)

(** What the callbacks see of their environment. *)
Variable fp_read : Z -> Z.      (* altairsim memory: BYTE fp_read(WORD) *)
Variable getmem : Z -> Z.       (* cromemcosim memory: BYTE getmem(WORD) *)
Variable isatty_stdout : bool.  (* isatty(1), isatty(fileno(stdout)) *)
Variable system_tput : Z.       (* what system("tput clear") returns *)

Definition incr_power : Panel -> Panel := fun p => set_power (power p + 1) p.
Definition decr_power : Panel -> Panel := fun p => set_power (power p - 1) p.

(** Callback for POWER switch, altairsim/srcsim/simctl.c *)
Definition power_clicked_altair (state val : Z) : Panel -> Panel :=
  if state =? FP_SW_DOWN then
    ifc (fun p => power p =? 0)           (* if (power) break; *)
      (incr_power ;;
       on_core (set_cpu_bus (Z.lor (Z.lor CPU_WO CPU_M1) CPU_MEMR)) ;;
       (fun p => set_fp_led_address (PC (core p)) p) ;;
       (fun p => set_fp_led_data (fp_read (PC (core p))) p) ;;
       set_fp_led_wait 1 ;;
       (if isatty_stdout then emit TputClear else emit (Puts crlf3)))
  else if state =? FP_SW_UP then
    ifc (fun p => negb (power p =? 0))    (* if (!power) break; *)
      (decr_power ;;
       set_cpu_switch 0 ;;
       on_core (set_cpu_state STOPPED) ;;
       on_core (set_cpu_error POWEROFF))
  else skip.

(** Callback for POWER switch, cromemcosim/srcsim/simctl.c *)
Definition power_clicked_cromemco (state val : Z) : Panel -> Panel :=
  if state =? FP_SW_UP then
    ifc (fun p => power p =? 0)           (* if (power) break; *)
      (incr_power ;;
       on_core (set_cpu_bus (Z.lor (Z.lor CPU_WO CPU_M1) CPU_MEMR)) ;;
       (fun p => set_fp_led_address (PC (core p)) p) ;;
       (fun p => set_fp_led_data (getmem (PC (core p))) p) ;;
       (fun p => set_fp_led_speed
                   (if (f_flag p =? 0) || (4 <=? f_flag p) then 1 else 0) p) ;;
       set_fp_led_wait 1 ;;
       set_fp_led_output 0 ;;
       (if negb isatty_stdout then emit (Puts crlf3)
        else emit TputClear ;;
             when (system_tput =? -1) (emit (Puts crlf3))))
  else if state =? FP_SW_DOWN then
    ifc (fun p => negb (power p =? 0))    (* if (!power) break; *)
      (decr_power ;;
       set_cpu_switch 0 ;;
       on_core (set_cpu_state STOPPED) ;;
       on_core (set_cpu_error POWEROFF))
  else skip.

(** Callback for quit (graphics window closed), the same in both files *)
Definition quit_callback : Panel -> Panel :=
  decr_power ;;
  set_cpu_switch 0 ;;
  on_core (set_cpu_state STOPPED) ;;
  on_core (set_cpu_error POWEROFF).

(** [mon()], operating the machine from the front panel:
    the guard of [while (cpu_error == NONE)]. *)
Definition fp_operating (p : Panel) : bool := cpu_error (core p) =? NONE.

(** The entry point of the CPU one round of that loop calls:
    [switch (cpu_switch) { case 1: if (!reset) run_cpu(); ... case 2:
    step_cpu(); ... }]. *)
Inductive cpu_call : Type := CallRun | CallStep | CallNone.

Definition cpu_switch_call (p : Panel) : cpu_call :=
  if cpu_switch p =? 1 then (if reset p =? 0 then CallRun else CallNone)
  else if cpu_switch p =? 2 then CallStep
  else CallNone.

(** Report CPU error, simcore.c: for a [cpu_error] other than NONE it writes
    a line to the log, chosen by [cpu_error]; it assigns no global. *)
Definition report_cpu_error : State -> State := skip.

(** [switch (cpu) { case Z80: cpu_z80(); break; case I8080: cpu_8080();
    break; }] of altairsim/srcsim/simctl.c, which has no build switches. *)
Definition dispatch_altair (s : State) : option State :=
  if cpu s =? Z80 then cpu_z80 s
  else if cpu s =? I8080 then cpu_8080 s
  else Some s.

(** Run CPU, altairsim/srcsim/simctl.c: the entry point the Altair's
    operating loop calls; one executor call, without the loop of
    simcore.c's [run_cpu]. *)
Definition run_cpu_altair (s : State) : option State :=
  option_map report_cpu_error
    (dispatch_altair (set_cpu_error NONE (set_cpu_state CONTIN_RUN s))).

(** The handlers that switch the machine off: the POWER switch of the
    Altair moved up, the one of the Cromemco moved down, and the quit
    callback of both. *)
Definition power_off_handlers (val : Z) : list (Panel -> Panel) :=
  [power_clicked_altair FP_SW_UP val;
   power_clicked_cromemco FP_SW_DOWN val;
   quit_callback].

(** What a handler of the panel writes to the globals of the CPU, the
    panel's own variables being those of [p]. *)
Definition on_globals (h : Panel -> Panel) (p : Panel) : State -> State :=
  fun s => core (h (set_core s p)).

(** Modelled from the spec: the executors [cpu_z80] and [cpu_8080] are not
    part of the sources.  The design document: "run() - runs until
    cpu_state <> ContinRun.  Each iteration executes one instruction via
    the current model's executor", and "run() polls cpu_state at each
    instruction boundary; setting it to Stopped from any source (signal
    handler, UI thread) causes run() to return at the next boundary".
    [instr] is one instruction; [other n] is what the other threads have
    written to the globals when the executor reaches the boundary after its
    instruction number [n], counted from 0; [fuel] bounds the number of
    instructions. *)
Fixpoint polling_executor (instr : State -> State)
    (other : nat -> State -> State) (fuel : nat) (s : State)
  : option State :=
  match fuel with
  | O => None
  | S fuel' =>
      let s1 := other O (instr s) in
      if cpu_state s1 =? CONTIN_RUN
      then polling_executor instr (fun n => other (S n)) fuel' s1
      else Some s1
  end.

(** Modelled from the spec: the globals of such a run as instruction number
    [k] ends, before the other threads' writes of that boundary. *)
Fixpoint at_boundary (instr : State -> State)
    (other : nat -> State -> State) (k : nat) (s : State) : State :=
  match k with
  | O => instr s
  | S k' => at_boundary instr (fun n => other (S n)) k' (other O (instr s))
  end.

(** *** The forced flag bits of the 8080 *)

(** [N = 1, Y = 0, X = 0] in a flag byte. *)
Definition flags_8080_forced (f : Z) : bool :=
  flag_set N_FLAG f && negb (flag_set Y_FLAG f) && negb (flag_set X_FLAG f).

(** *** Frames: putting back the fields a procedure may write *)

Definition restore_switch (s s1 : State) : State :=
  set_cpu_state (cpu_state s) (set_cpu (cpu s) (set_F (F s) s1)).

Definition restore_bus (s s1 : State) : State :=
  set_bus_request (bus_request s)
    (set_dma_bus_master (dma_bus_master s) (set_bus_mode (bus_mode s) s1)).

(** *** simctl.c: the other callbacks of the front panel *)

(** More constants of headers that are not part of the sources. *)
Variable FP_SW_CENTER : Z.           (* frontpanel.h *)
Variable CPU_HLTA : Z.               (* bit of [cpu_bus] *)
Variable RESET : Z.                  (* bit of [cpu_state] *)
Variables MEM_RW MEM_RO MEM_WPROT : Z.  (* page attributes, memory.h *)
Variable HAS_BANKED_ROM : bool.      (* build-time switch *)

(** Modelled from the spec: the memory modules (memory.h) are not part of
    the sources.  The design document gives the memory bus as a 64 KiB
    address space with [read(addr) -> byte] and [write(addr, byte)]; the
    code calls them [getmem(addr)] (Altair front panel: [fp_read(addr)]) and
    [putmem(addr, data)].  What a write does to the memory is left to the
    module: [mem_write]. *)
Variable Mem : Type.
Variable mem_read : Mem -> Z -> Z.
Variable mem_write : Z -> Z -> Mem -> Mem.

Definition read_byte (m : Mem) (addr : Z) : Z := mem_read m (to_WORD addr).
Definition write_byte (addr data : Z) (m : Mem) : Mem :=
  mem_write (to_WORD addr) (to_BYTE data) m.

(** [a[i] = v] on an array held as a list. *)
Fixpoint list_set {X : Type} (l : list X) (i : nat) (v : X) : list X :=
  match l, i with
  | [], _ => []
  | _ :: rest, O => v :: rest
  | x :: rest, S i' => x :: list_set rest i' v
  end.

(** A machine with a front panel: the panel and CPU globals, the address
    switches, the memory and, on the Altair, the page table [p_tab] with the
    PROTECT light [mem_wp] and the boot address. *)
Record Machine : Type := mkMachine {
  panel : Panel;
  address_switch : Z;      (* WORD, address and programmed input switches *)
  memory : Mem;
  p_tab : list Z;          (* Altair: int p_tab[256], attribute of each page *)
  mem_wp : Z;              (* Altair: BYTE, write protect violation light *)
  boot_switch : Z;         (* Altair: int, boot address for switch *)
  boot_switch_tab : list Z;  (* Cromemco: WORD boot_switch[], per -M config *)
  M_flag : Z               (* int: flag for -M option *)
}.

Definition eta_Machine (m : Machine) : Machine :=
  mkMachine (panel m) (address_switch m) (memory m) (p_tab m) (mem_wp m)
    (boot_switch m) (boot_switch_tab m) (M_flag m).

Definition set_panel : Panel -> Machine -> Machine :=
  ltac:(setter eta_Machine panel).
Definition set_memory : Mem -> Machine -> Machine :=
  ltac:(setter eta_Machine memory).
Definition set_p_tab : list Z -> Machine -> Machine :=
  ltac:(setter eta_Machine p_tab).
Definition set_mem_wp : Z -> Machine -> Machine :=
  ltac:(setter eta_Machine mem_wp).
Definition set_reset : Z -> Panel -> Panel := ltac:(setter eta_Panel reset).
Definition set_m1_step : Z -> State -> State :=
  ltac:(setter eta_State m1_step).

Definition on_panel (c : Panel -> Panel) : Machine -> Machine :=
  fun m => set_panel (c (panel m)) m.
Definition on_cpu (c : State -> State) : Machine -> Machine :=
  on_panel (on_core c).
Definition on_memory (c : Mem -> Mem) : Machine -> Machine :=
  fun m => set_memory (c (memory m)) m.

(** The globals a callback reads. *)
Definition cpu_of (m : Machine) : State := core (panel m).
Definition powered (m : Machine) : bool := negb (power (panel m) =? 0).
Definition running (p : Panel) : bool := cpu_state (core p) =? CONTIN_RUN.
(** [(cpu_state == CONTIN_RUN) || (cpu_bus & CPU_HLTA)] *)
Definition running_or_halted (m : Machine) : bool :=
  (cpu_state (cpu_of m) =? CONTIN_RUN)
  || negb (Z.land (cpu_bus (cpu_of m)) CPU_HLTA =? 0).
(** [(p_tab[PC >> 8] == MEM_RO) || (p_tab[PC >> 8] == MEM_WPROT)] *)
Definition page_of_PC (m : Machine) : Z := Z.shiftr (PC (cpu_of m)) 8.
Definition page_protected (m : Machine) : bool :=
  (tbl (p_tab m) (page_of_PC m) =? MEM_RO)
  || (tbl (p_tab m) (page_of_PC m) =? MEM_WPROT).
(** [if (...) mem_wp = 1; else mem_wp = 0;] *)
Definition update_mem_wp : Machine -> Machine :=
  fun m => set_mem_wp (if page_protected m then 1 else 0) m.

(** Callback for RUN/STOP switch, altairsim *)
Definition run_clicked_altair (state val : Z) : Panel -> Panel :=
  ifc (fun p => negb (power p =? 0))            (* if (!power) return; *)
    (if state =? FP_SW_DOWN then
       ifc (fun p => negb (running p))
         (on_core (set_cpu_state CONTIN_RUN) ;;
          set_fp_led_wait 0 ;;
          set_cpu_switch 1)
     else if state =? FP_SW_UP then
       ifc running
         (on_core (set_cpu_state STOPPED) ;;
          set_fp_led_wait 1 ;;
          set_cpu_switch 0)
     else skip).

(** Callback for RUN/STOP switch, cromemcosim *)
Definition run_clicked_cromemco (state val : Z) : Panel -> Panel :=
  ifc (fun p => negb (power p =? 0))
    (if state =? FP_SW_UP then
       ifc (fun p => negb (running p))
         (on_core (set_cpu_state CONTIN_RUN) ;;
          set_fp_led_wait 0 ;;
          set_cpu_switch 1)
     else if state =? FP_SW_DOWN then
       ifc running
         (on_core (set_cpu_state STOPPED) ;;
          set_fp_led_wait 1 ;;
          set_cpu_switch 0)
     else skip).

(** Callback for STEP switch, altairsim *)
Definition step_clicked_altair (state val : Z) : Panel -> Panel :=
  ifc (fun p => negb (power p =? 0))
    (ifc (fun p => negb (running p))   (* if (cpu_state == CONTIN_RUN) return; *)
       (if state =? FP_SW_UP then set_cpu_switch 2
        else if state =? FP_SW_DOWN then skip
        else skip)).

(** Callback for STEP switch, cromemcosim *)
Definition step_clicked_cromemco (state val : Z) : Panel -> Panel :=
  ifc (fun p => negb (power p =? 0))
    (ifc (fun p => negb (running p))
       (if (state =? FP_SW_UP) || (state =? FP_SW_DOWN) then set_cpu_switch 2
        else skip)).

(** Callback for EXAMINE/EXAMINE NEXT switch, altairsim *)
Definition examine_clicked_altair (state val : Z) : Machine -> Machine :=
  ifc powered
    (ifc (fun m => negb (running_or_halted m))
       (if state =? FP_SW_UP then
          (fun m => on_panel (set_fp_led_address (address_switch m)) m) ;;
          (fun m => on_panel (set_fp_led_data
                                (read_byte (memory m) (address_switch m))) m) ;;
          (fun m => on_cpu (set_PC (address_switch m)) m) ;;
          update_mem_wp
        else if state =? FP_SW_DOWN then
          on_panel (fun p => set_fp_led_address
                               (to_WORD (fp_led_address p + 1)) p) ;;
          (fun m => on_panel (set_fp_led_data
                                (read_byte (memory m)
                                   (fp_led_address (panel m)))) m) ;;
          (fun m => on_cpu (set_PC (fp_led_address (panel m))) m) ;;
          update_mem_wp
        else skip)).

(** Callback for EXAMINE/EXAMINE NEXT switch, cromemcosim *)
Definition examine_clicked_cromemco (state val : Z) : Machine -> Machine :=
  ifc powered
    (ifc (fun m => negb (running_or_halted m))
       (if state =? FP_SW_UP then
          (fun m => on_panel (set_fp_led_address (address_switch m)) m) ;;
          (fun m => on_panel (set_fp_led_data
                                (read_byte (memory m) (address_switch m))) m) ;;
          (fun m => on_cpu (set_PC (address_switch m)) m)
        else if state =? FP_SW_DOWN then
          on_panel (fun p => set_fp_led_address
                               (to_WORD (fp_led_address p + 1)) p) ;;
          (fun m => on_panel (set_fp_led_data
                                (read_byte (memory m)
                                   (fp_led_address (panel m)))) m) ;;
          (fun m => on_cpu (set_PC (fp_led_address (panel m))) m)
        else skip)).

(** [fp_led_data = address_switch & 0xff; putmem(PC, fp_led_data);] *)
Definition deposit_switches : Machine -> Machine :=
  (fun m => on_panel (set_fp_led_data (Z.land (address_switch m) 255)) m) ;;
  (fun m => on_memory (write_byte (PC (cpu_of m))
                         (fp_led_data (panel m))) m).

(** [PC++; fp_led_address++;] *)
Definition next_address : Machine -> Machine :=
  on_cpu (fun s => set_PC (to_WORD (PC s + 1)) s) ;;
  on_panel (fun p => set_fp_led_address (to_WORD (fp_led_address p + 1)) p).

(** Callback for DEPOSIT/DEPOSIT NEXT switch, altairsim *)
Definition deposit_clicked_altair (state val : Z) : Machine -> Machine :=
  ifc powered
    (ifc (fun m => negb (running_or_halted m))
       (fun m =>
          if page_protected m then set_mem_wp 1 m      (* ...; return; *)
          else
            (set_mem_wp 0 ;;
             (if state =? FP_SW_UP then deposit_switches
              else if state =? FP_SW_DOWN then
                next_address ;; deposit_switches
              else skip)) m)).

(** Callback for DEPOSIT/DEPOSIT NEXT switch, cromemcosim *)
Definition deposit_clicked_cromemco (state val : Z) : Machine -> Machine :=
  ifc powered
    (ifc (fun m => negb (running_or_halted m))
       (if state =? FP_SW_UP then deposit_switches
        else if state =? FP_SW_DOWN then next_address ;; deposit_switches
        else skip)).

(** [p_tab[PC >> 8] = attr] *)
Definition set_page_of_PC (attr : Z) : Machine -> Machine :=
  fun m => set_p_tab (list_set (p_tab m) (Z.to_nat (page_of_PC m)) attr) m.

(** Callback for PROTECT/UNPROTECT switch, altairsim *)
Definition protect_clicked_altair (state val : Z) : Machine -> Machine :=
  ifc powered
    (ifc (fun m => negb (running (panel m)))
       (if state =? FP_SW_UP then
          ifc (fun m => tbl (p_tab m) (page_of_PC m) =? MEM_RW)
            (set_page_of_PC MEM_WPROT ;; set_mem_wp 1)
        else if state =? FP_SW_DOWN then
          ifc (fun m => tbl (p_tab m) (page_of_PC m) =? MEM_WPROT)
            (set_page_of_PC MEM_RW ;; set_mem_wp 0)
        else skip)).

(** Callback for INT/BOOT switch, altairsim *)
Definition int_clicked_altair (state val : Z) : Machine -> Machine :=
  ifc powered
    (if state =? FP_SW_UP then on_cpu (set_int_int 1)
     else if state =? FP_SW_DOWN then
       (fun m => on_panel (set_fp_led_address (to_WORD (boot_switch m))) m) ;;
       (fun m => on_panel (set_fp_led_data
                             (read_byte (memory m) (boot_switch m))) m) ;;
       (fun m => on_cpu (set_PC (to_WORD (boot_switch m))) m)
     else skip).

(** [reset_io()] of the I/O module, which is not part of the sources. *)
Variable reset_io : Machine -> Machine.

(** [reset = n; cpu_state |= RESET; m1_step = 0; IFF = 0;
    fp_led_output = 0;] *)
Definition hold_reset (n : Z) : Machine -> Machine :=
  on_panel (set_reset n) ;;
  on_cpu (fun s => set_cpu_state (to_BYTE (Z.lor (cpu_state s) RESET)) s) ;;
  on_cpu (set_m1_step 0) ;;
  on_cpu (set_IFF 0) ;;
  on_panel (set_fp_led_output 0).

(** Callback for RESET switch, cromemcosim *)
Definition reset_clicked_cromemco (state val : Z) : Machine -> Machine :=
  ifc powered
    (if state =? FP_SW_UP then
       (* reset CPU only *)
       hold_reset 1
     else if state =? FP_SW_CENTER then
       ifc (fun m => negb (reset (panel m) =? 0))
         ((* reset CPU *)
          on_cpu reset_cpu ;;
          when HAS_BANKED_ROM
            (fun m => on_cpu (set_PC (to_WORD (tbl (boot_switch_tab m)
                                                 (M_flag m)))) m) ;;
          on_panel (set_reset 0) ;;
          on_cpu (fun s => set_cpu_state
                             (to_BYTE (Z.land (cpu_state s) (Z.lnot RESET))) s) ;;
          (* update front panel *)
          (fun m => on_panel (set_fp_led_address (PC (cpu_of m))) m) ;;
          (fun m => on_panel (set_fp_led_data
                                (read_byte (memory m) (PC (cpu_of m)))) m) ;;
          on_cpu (set_cpu_bus (Z.lor (Z.lor CPU_WO CPU_M1) CPU_MEMR)))
     else if state =? FP_SW_DOWN then
       (* reset CPU and I/O devices *)
       hold_reset 2 ;; reset_io
     else skip).

(** The address and data lights show PC and the byte there. *)
Definition leds_show_pc (m : Machine) : Prop :=
  fp_led_address (panel m) = PC (cpu_of m) /\
  fp_led_data (panel m) = mem_read (memory m) (PC (cpu_of m)).

(** A memory that is RAM throughout: a byte written is the byte read back,
    and a write leaves the other addresses alone. *)
Definition stores_writes : Prop :=
  forall mem a d, 0 <= a < 65536 -> 0 <= d < 256 ->
    mem_read (mem_write a d mem) a = d.

Definition keeps_others : Prop :=
  forall mem a d b, a <> b ->
    mem_read (mem_write a d mem) b = mem_read mem b.

(** *** The ICE debugger (second part of simglb.c): fill and move *)

(** The scan for the next comma or the end of the line: the rest of the
    line from its first comma on, or the empty rest. *)
Fixpoint to_comma (s : string) : string :=
  match s with
  | EmptyString => EmptyString
  | String c rest => if char_code c =? 44 then s else to_comma rest
  end.

(** The test for the comma and the step over it: what follows the comma,
    if there is one. *)
Definition after_comma (s : string) : option string :=
  match to_comma s with
  | EmptyString => None
  | String _ rest => Some rest
  end.

(** [struct softbreak] (simglb.h, not part of the sources), with the fields
    the code uses. *)
Record softbreak : Type := mkSoftbreak {
  sb_addr : Z;         (* address *)
  sb_oldopc : Z;       (* op-code at the address of the breakpoint *)
  sb_pass : Z;         (* no. of pass to break *)
  sb_passcount : Z     (* pass counter of the breakpoint *)
}.

(** What [printf] is called with. *)
Inductive printf_arg : Type :=
  | ArgInt (z : Z)
  | ArgStr (s : string)
  | ArgChar (c : ascii).

(** What a command writes to the terminal. *)
Inductive ice_event : Type :=
  | Printed (line : string)                           (* puts(line) *)
  | Printf (format : string) (args : list printf_arg) (* printf(format, ...) *)
  | PutChar (c : ascii).                              (* putchar(c) *)

(** What the commands work on: the globals of the CPU, the memory, the
    breakpoint table, the lines [fgets] will read from the terminal ([NULL]
    once there is none) and what was written to it, the latest first. *)
Record Ice : Type := mkIce {
  ice_cpu : State;
  ice_mem : Mem;
  soft : list softbreak;   (* struct softbreak soft[SBSIZE] *)
  sb_next : Z;             (* int: index into breakpoint memory *)
  ice_in : list string;
  ice_out : list ice_event
}.

Definition eta_Ice (ice : Ice) : Ice :=
  mkIce (ice_cpu ice) (ice_mem ice) (soft ice) (sb_next ice) (ice_in ice)
    (ice_out ice).

Definition set_ice_cpu : State -> Ice -> Ice :=
  ltac:(setter eta_Ice ice_cpu).
Definition set_ice_mem : Mem -> Ice -> Ice := ltac:(setter eta_Ice ice_mem).
Definition set_soft : list softbreak -> Ice -> Ice :=
  ltac:(setter eta_Ice soft).
Definition set_sb_next : Z -> Ice -> Ice := ltac:(setter eta_Ice sb_next).
Definition set_ice_in : list string -> Ice -> Ice :=
  ltac:(setter eta_Ice ice_in).
Definition set_ice_out : list ice_event -> Ice -> Ice :=
  ltac:(setter eta_Ice ice_out).

Definition ice_print (e : ice_event) (ice : Ice) : Ice :=
  set_ice_out (e :: ice_out ice) ice.
Definition ice_puts (line : string) : Ice -> Ice := ice_print (Printed line).

Definition on_ice_mem (f : Mem -> Mem) (ice : Ice) : Ice :=
  set_ice_mem (f (ice_mem ice)) ice.
Definition on_ice_cpu (f : State -> State) (ice : Ice) : Ice :=
  set_ice_cpu (f (ice_cpu ice)) ice.

(** [while (i--) putmem(a++, val);] with [n] rounds to go; [a] is a WORD
    and wraps. *)
Fixpoint fill_loop (n : nat) (a val : Z) (mem : Mem) : Mem :=
  match n with
  | O => mem
  | S n' => fill_loop n' (to_WORD (a + 1)) val (write_byte a val mem)
  end.

(** [while (count--) putmem(a2++, getmem(a1++));] *)
Fixpoint move_loop (n : nat) (a1 a2 : Z) (mem : Mem) : Mem :=
  match n with
  | O => mem
  | S n' =>
      move_loop n' (to_WORD (a1 + 1)) (to_WORD (a2 + 1))
        (write_byte a2 (read_byte mem a1) mem)
  end.

(** Memory fill, [f address,count,value].  [None] is an overflow in
    [exatoi]. *)
Definition do_fill (s : string) (ice : Ice) : option Ice :=
  let s0 := skip_spaces s in
  match exatoi s0 with                                   (* a = exatoi(s) *)
  | None => None
  | Some a =>
      match after_comma s0 with
      | None => Some (ice_puts "count missing" ice)
      | Some s1 =>
          match exatoi s1 with                           (* i = exatoi(++s) *)
          | None => None
          | Some i =>
              match after_comma s1 with
              | None => Some (ice_puts "value missing" ice)
              | Some s2 =>
                  match exatoi s2 with                   (* val = exatoi(++s) *)
                  | None => None
                  | Some val =>
                      Some (on_ice_mem
                              (fill_loop (Z.to_nat i) (to_WORD a)
                                 (to_BYTE val)) ice)
                  end
              end
          end
      end
  end.

(** Memory move, [v from,to,count]. *)
Definition do_move (s : string) (ice : Ice) : option Ice :=
  let s0 := skip_spaces s in
  match exatoi s0 with                                   (* a1 = exatoi(s) *)
  | None => None
  | Some a1 =>
      match after_comma s0 with
      | None => Some (ice_puts "to missing" ice)
      | Some s1 =>
          match exatoi s1 with                           (* a2 = exatoi(++s) *)
          | None => None
          | Some a2 =>
              match after_comma s1 with
              | None => Some (ice_puts "count missing" ice)
              | Some s2 =>
                  match exatoi s2 with                   (* count = ... *)
                  | None => None
                  | Some count =>
                      Some (on_ice_mem
                              (move_loop (Z.to_nat count) (to_WORD a1)
                                 (to_WORD a2)) ice)
                  end
              end
          end
      end
  end.

(** [getmem] returns a BYTE. *)
Definition reads_bytes : Prop :=
  forall mem a, 0 <= mem_read mem a < 256.

(** The number of commas of a line. *)
Fixpoint commas (s : string) : nat :=
  match s with
  | EmptyString => O
  | String c rest =>
      if char_code c =? 44 then S (commas rest) else commas rest
  end.

(** *** The ICE debugger: software breakpoints *)

(** sim.h: the number of software breakpoints, [None] for a build without
    them. *)
Variable SBSIZE : option Z.

(** The types of [sb_addr] and [sb_oldopc] are in simglb.h: the conversions
    of an assignment to them are parameters. *)
Variables as_sb_addr as_sb_oldopc : Z -> Z.

(** A conversion to an unsigned type of [m] values, or none. *)
Definition keeps_mod (m : Z) (f : Z -> Z) : Prop :=
  forall z, f z mod m = z mod m.

(** A slot after [memset] to 0. *)
Definition no_break : softbreak := mkSoftbreak 0 0 0 0.

Definition soft_at (ice : Ice) (i : Z) : softbreak :=
  nth (Z.to_nat i) (soft ice) no_break.

(** [putmem(soft[i].sb_addr, soft[i].sb_oldopc)] *)
Definition put_back (i : Z) : Ice -> Ice :=
  fun ice =>
    on_ice_mem (write_byte (sb_addr (soft_at ice i))
                  (sb_oldopc (soft_at ice i))) ice.

(** [while (!iscntrl((unsigned char) *s) && !ispunct((unsigned char) *s))
    s++;] *)
Fixpoint to_punct (s : string) : string :=
  match s with
  | EmptyString => EmptyString
  | String c rest =>
      if negb (iscntrl c) && negb (ispunct c) then to_punct rest else s
  end.

(** The rows of the list of breakpoints, for the slots from [i] on. *)
Fixpoint break_rows (slots : list softbreak) (i : Z) : Ice -> Ice :=
  match slots with
  | [] => skip
  | bp :: rest =>
      when (negb (sb_pass bp =? 0))
        (ice_print (Printf ("%02d %04x %05d %05d" ++ nl)
                      [ArgInt i; ArgInt (sb_addr bp); ArgInt (sb_pass bp);
                       ArgInt (sb_passcount bp)])) ;;
      break_rows rest (i + 1)
  end.

(** [do_break] from the point where the slot [i] is chosen, with the rest
    of the line. *)
Definition break_slot (i : Z) (s : string) (ice : Ice) : option Ice :=
  let s := skip_spaces s in
  if char_code (head_char s) =? 99 then                  (* *s == 'c' *)
    Some ((put_back i ;;
           (fun ice => set_soft (list_set (soft ice) (Z.to_nat i) no_break)
                         ice)) ice)
  else
    let ice1 := ifc (fun ice => negb (sb_pass (soft_at ice i) =? 0))
                  (put_back i) ice in
    match exatoi s with                  (* soft[i].sb_addr = exatoi(s) *)
    | None => None
    | Some a =>
        let addr := as_sb_addr a in
        let oldopc := as_sb_oldopc (read_byte (ice_mem ice1) addr) in
        let ice2 := on_ice_mem (write_byte addr 118) ice1 in   (* 0x76 *)
        let s := to_punct s in
        match (if char_code (head_char s) =? 44          (* *s != ',' *)
               then exatoi (tail s) else Some 1) with
        | None => None
        | Some pass =>
            Some (set_soft
                    (list_set (soft ice2) (Z.to_nat i)
                       (mkSoftbreak addr oldopc pass 0)) ice2)
        end
    end.

Definition do_break (s : string) (ice : Ice) : option Ice :=
  match SBSIZE with
  | None =>
      Some ((ice_puts "Sorry, no breakpoints available" ;;
             ice_puts "Please recompile with SBSIZE defined in sim.h") ice)
  | Some size =>
      if char_code (head_char s) =? 10 then                (* *s == '\n' *)
        Some ((ice_puts "No Addr Pass  Counter" ;;
               (fun ice =>
                  break_rows (firstn (Z.to_nat size) (soft ice)) 0 ice)) ice)
      else if isxdigit (head_char s) then
        match atoi s with                                  (* i = atoi(s++) *)
        | None => None
        | Some i =>
            if size <=? i then
              Some (ice_print (Printf ("breakpoint %d not available" ++ nl)
                                 [ArgInt i]) ice)
            else break_slot i (tail s) ice
        end
      else
        let i := sb_next ice in                            (* i = sb_next++ *)
        let next := sb_next ice + 1 in
        break_slot i s
          (set_sb_next (if next =? size then 0 else next) ice)
  end.

(** The breakpoint table of a build with [size] slots is in order: it has
    [size] slots and [sb_next] is one of them. *)
Definition soft_ok (size : Z) (ice : Ice) : Prop :=
  Z.of_nat (List.length (soft ice)) = size /\ 0 <= sb_next ice < size.

(** The digit that names slot [i] on the command line. *)
Definition slot_digit (i : Z) : ascii := ascii_of_N (Z.to_N (48 + i)).

(** *** The ICE debugger: register modify *)

(** The [type] and the union of a [struct reg_def]: where the register is,
    as the pair of its read and its assignment. *)
Inductive reg_target : Type :=
  | R_8 (r8 : State -> Z) (set_r8 : Z -> State -> State)
  | R_88 (r8h : State -> Z) (set_r8h : Z -> State -> State)
         (r8l : State -> Z) (set_r8l : Z -> State -> State)
  | R_16 (r16 : State -> Z) (set_r16 : Z -> State -> State)
  | R_F (rf : State -> Z) (set_rf : Z -> State -> State)
  | R_M (rm : Z).

Record reg_def : Type := mkReg {
  name : string;       (* register name *)
  len : nat;           (* register name length *)
  prt : string;        (* printable register name *)
  z80 : bool;          (* Z80 only flag *)
  target : reg_target
}.

(** [regs[]], with the entries of a build without the Z80 left out. *)
Definition regs : list reg_def :=
  (if EXCLUDE_Z80 then [] else
     [ mkReg "bc'" 3 "BC'" true (R_88 B_ set_B_ C_ set_C_);
       mkReg "de'" 3 "DE'" true (R_88 D_ set_D_ E_ set_E_);
       mkReg "hl'" 3 "HL'" true (R_88 H_ set_H_ L_ set_L_) ]) ++
  [ mkReg "pc" 2 "PC" false (R_16 PC set_PC);
    mkReg "bc" 2 "BC" false (R_88 B set_B C set_C);
    mkReg "de" 2 "DE" false (R_88 D set_D E set_E);
    mkReg "hl" 2 "HL" false (R_88 H set_H L set_L) ] ++
  (if EXCLUDE_Z80 then [] else
     [ mkReg "ix" 2 "IX" true (R_16 IX set_IX);
       mkReg "iy" 2 "IY" true (R_16 IY set_IY) ]) ++
  [ mkReg "sp" 2 "SP" false (R_16 SP set_SP);
    mkReg "fs" 2 "S" false (R_M S_FLAG);
    mkReg "fz" 2 "Z" false (R_M Z_FLAG);
    mkReg "fh" 2 "H" false (R_M H_FLAG);
    mkReg "fp" 2 "P" false (R_M P_FLAG) ] ++
  (if EXCLUDE_Z80 then [] else
     [ mkReg "fn" 2 "N" true (R_M N_FLAG) ]) ++
  [ mkReg "fc" 2 "C" false (R_M C_FLAG) ] ++
  (if EXCLUDE_Z80 then [] else
     [ mkReg "a'" 2 "A'" true (R_8 A_ set_A_);
       mkReg "f'" 2 "F'" true (R_F F_ set_F_);
       mkReg "b'" 2 "B'" true (R_8 B_ set_B_);
       mkReg "c'" 2 "C'" true (R_8 C_ set_C_);
       mkReg "d'" 2 "D'" true (R_8 D_ set_D_);
       mkReg "e'" 2 "E'" true (R_8 E_ set_E_);
       mkReg "h'" 2 "H'" true (R_8 H_ set_H_);
       mkReg "l'" 2 "L'" true (R_8 L_ set_L_);
       mkReg "i" 1 "I" true (R_8 I set_I) ]) ++
  [ mkReg "a" 1 "A" false (R_8 A set_A);
    mkReg "f" 1 "F" false (R_F F set_F);
    mkReg "b" 1 "B" false (R_8 B set_B);
    mkReg "c" 1 "C" false (R_8 C set_C);
    mkReg "d" 1 "D" false (R_8 D set_D);
    mkReg "e" 1 "E" false (R_8 E set_E);
    mkReg "h" 1 "H" false (R_8 H set_H);
    mkReg "l" 1 "L" false (R_8 L set_L) ].

(** The search loop of [do_reg] through the rest [table] of [regs]: the
    first entry, the Z80-only ones passed over for another CPU, whose name
    the line starts with. *)
Fixpoint find_reg (cpu_now : Z) (s : string) (table : list reg_def)
  : option reg_def :=
  match table with
  | [] => None
  | p :: rest =>
      if negb EXCLUDE_Z80 && z80 p && negb (cpu_now =? Z80)
      then find_reg cpu_now s rest
      else if strncmp_eq s (name p) (len p) then Some p
      else find_reg cpu_now s rest
  end.

(** The first [switch (p->type)]: the value shown. *)
Definition show_reg (p : reg_def) (s : State) : ice_event :=
  match target p with
  | R_8 r8 _ => Printf "%s = %02x : " [ArgStr (prt p); ArgInt (r8 s)]
  | R_88 r8h _ r8l _ =>
      Printf "%s = %04x : "
        [ArgStr (prt p); ArgInt (Z.shiftl (r8h s) 8 + r8l s)]
  | R_16 r16 _ => Printf "%s = %04x : " [ArgStr (prt p); ArgInt (r16 s)]
  | R_F rf _ => Printf "%s = %02x : " [ArgStr (prt p); ArgInt (rf s)]
  | R_M rm =>
      Printf "%s-FLAG = %c : "
        [ArgStr (prt p);
         ArgChar (if Z.land (F s) rm =? 0 then "0"%char else "1"%char)]
  end.

(** The second [switch (p->type)]: the assignment of the WORD [w]. *)
Definition store_reg (p : reg_def) (w : Z) : State -> State :=
  match target p with
  | R_8 _ set_r8 => set_r8 (Z.land w 255)
  | R_88 _ set_r8h _ set_r8l =>
      set_r8h (Z.land (Z.shiftr w 8) 255) ;; set_r8l (Z.land w 255)
  | R_16 _ set_r16 => set_r16 w
  | R_F _ set_rf => set_rf (Z.land w 255)
  | R_M rm =>
      upd_F (fun f => if w =? 0 then Z.land f (Z.lnot rm) else Z.lor f rm)
  end.

Definition flag_char (f mask : Z) : printf_arg :=
  ArgChar (if Z.land f mask =? 0 then "0"%char else "1"%char).

(** Output header for the CPU registers. *)
Definition print_head : Ice -> Ice :=
  fun ice =>
    let cpu_now := cpu (ice_cpu ice) in
    if negb EXCLUDE_Z80 && (cpu_now =? Z80) then
      ice_print
        (Printf (nl ++ "PC   A  SZHPNC I  IFF BC   DE   HL   "
                 ++ "A'F' B'C' D'E' H'L' IX   IY   SP" ++ nl) []) ice
    else if negb EXCLUDE_I8080 && (cpu_now =? I8080) then
      ice_print (Printf (nl ++ "PC   A  SZHPC BC   DE   HL   SP" ++ nl) [])
        ice
    else ice.

(** Output all CPU registers. *)
Definition print_reg : Ice -> Ice :=
  fun ice =>
    let s := ice_cpu ice in
    let flag mask := ice_print (Printf "%c" [flag_char (F s) mask]) in
    (ice_print (Printf "%04x %02x " [ArgInt (PC s); ArgInt (A s)]) ;;
     flag S_FLAG ;; flag Z_FLAG ;; flag H_FLAG ;; flag P_FLAG ;;
     (if negb EXCLUDE_Z80 && (cpu s =? Z80) then
        flag N_FLAG ;; flag C_FLAG ;;
        ice_print (Printf " %02x " [ArgInt (I s)]) ;;
        ice_print (Printf "%c" [flag_char (IFF s) 1]) ;;
        ice_print (Printf "%c" [flag_char (IFF s) 2]) ;;
        ice_print
          (Printf ("  %02x%02x %02x%02x %02x%02x %02x%02x "
                   ++ "%02x%02x %02x%02x %02x%02x %04x %04x %04x" ++ nl)
             (map ArgInt
                [B s; C s; D s; E s; H s; L s; A_ s; F_ s; B_ s; C_ s;
                 D_ s; E_ s; H_ s; L_ s; IX s; IY s; SP s]))
      else if negb EXCLUDE_I8080 && (cpu s =? I8080) then
        flag C_FLAG ;;
        ice_print
          (Printf (" %02x%02x %02x%02x %02x%02x %04x" ++ nl)
             (map ArgInt [B s; C s; D s; E s; H s; L s; SP s]))
      else skip)) ice.

(** Register modify, [x [register]]. *)
Definition do_reg (s : string) (ice : Ice) : option Ice :=
  let s := skip_spaces s in
  let after :=
    match s with
    | EmptyString => Some ice
    | String _ _ =>
        match find_reg (cpu (ice_cpu ice)) s regs with
        | Some p =>
            let ice1 := ice_print (show_reg p (ice_cpu ice)) ice in
            match ice_in ice1 with
            | [] => Some (ice_print (PutChar (ascii_of_nat 10)) ice1)
            | nv :: lines =>
                let ice2 := set_ice_in lines ice1 in
                if char_code (head_char nv) =? 10 then Some ice2
                else
                  match exatoi nv with                 (* w = exatoi(nv) *)
                  | None => None
                  | Some v =>
                      Some (on_ice_cpu (store_reg p (to_WORD v)) ice2)
                  end
            end
        | None =>
            Some (ice_print (Printf "unknown register %s" [ArgStr s]) ice)
        end
    end in
  match after with
  | None => None
  | Some ice' => Some ((print_head ;; print_reg) ice')
  end.

(** The value [do_reg] shows for an entry, as a number: a flag as 0 or 1. *)
Definition reg_value (p : reg_def) (s : State) : Z :=
  match target p with
  | R_8 r8 _ => r8 s
  | R_88 r8h _ r8l _ => Z.shiftl (r8h s) 8 + r8l s
  | R_16 r16 _ => r16 s
  | R_F rf _ => rf s
  | R_M rm => if Z.land (F s) rm =? 0 then 0 else 1
  end.

(** What an entry keeps of a WORD [w] assigned to it: its low byte, all of
    it, or whether it is zero. *)
Definition reg_keeps (p : reg_def) (w : Z) : Z :=
  match target p with
  | R_8 _ _ | R_F _ _ => w mod 256
  | R_88 _ _ _ _ | R_16 _ _ => w
  | R_M _ => if w =? 0 then 0 else 1
  end.

(** An entry the search does not pass over for the CPU [cpu_now]. *)
Definition reg_allowed (cpu_now : Z) (p : reg_def) : bool :=
  negb (negb EXCLUDE_Z80 && z80 p && negb (cpu_now =? Z80)).

(** No name of the table starts with the name of an entry before it, and
    every [len] is the length of its name. *)
Fixpoint longest_first (table : list reg_def) : bool :=
  match table with
  | [] => true
  | p :: rest =>
      (len p =? String.length (name p))%nat
      && forallb (fun q => negb (strncmp_eq (name q) (name p) (len p))) rest
      && longest_first rest
  end.

(** *** A sample memory, for worked examples *)

(** 64 KiB of RAM: the cell of each address, read as a byte. *)
Definition ram : Type := Z -> Z.
Definition ram_read (m : ram) (a : Z) : Z := to_BYTE (m a).
Definition ram_write (a d : Z) (m : ram) : ram :=
  fun b => if b =? a then d else m b.

(** *** Sample executor runs, for worked examples *)

(** A run whose program asks for the other model, as an OUT to the
    model-switch port does: the callback calls [switch_cpu]. *)
Definition exec_switching_to (new_cpu : Z) : State -> option State :=
  fun s => Some (switch_cpu new_cpu s).

(** A run that ends because the CPU was stopped. *)
Definition exec_stopped : State -> option State :=
  fun s => Some (set_cpu_state STOPPED s).

(** * Properties *)

(** ** Assignments *)

(** An assignment stores its value in its own variable ... *)
Lemma setters_write (s : State) (v : Z) (cb : option (Z -> Z)) :
  cpu (set_cpu v s) = v /\ A (set_A v s) = v /\ B (set_B v s) = v /\
  C (set_C v s) = v /\ D (set_D v s) = v /\ E (set_E v s) = v /\
  H (set_H v s) = v /\ L (set_L v s) = v /\ F (set_F v s) = v /\
  IX (set_IX v s) = v /\ IY (set_IY v s) = v /\ WZ (set_WZ v s) = v /\
  A_ (set_A_ v s) = v /\ B_ (set_B_ v s) = v /\ C_ (set_C_ v s) = v /\
  D_ (set_D_ v s) = v /\ E_ (set_E_ v s) = v /\ H_ (set_H_ v s) = v /\
  L_ (set_L_ v s) = v /\ F_ (set_F_ v s) = v /\ I (set_I v s) = v /\
  R (set_R v s) = v /\ R_ (set_R_ v s) = v /\ PC (set_PC v s) = v /\
  SP (set_SP v s) = v /\ IFF (set_IFF v s) = v /\
  cpu_bus (set_cpu_bus v s) = v /\ cpu_state (set_cpu_state v s) = v /\
  cpu_error (set_cpu_error v s) = v /\ int_mode (set_int_mode v s) = v /\
  int_nmi (set_int_nmi v s) = v /\ int_int (set_int_int v s) = v /\
  int_data (set_int_data v s) = v /\
  int_protection (set_int_protection v s) = v /\
  bus_request (set_bus_request v s) = v /\ bus_mode (set_bus_mode v s) = v /\
  dma_bus_master (set_dma_bus_master cb s) = cb.
Proof. repeat split. Qed.

(** ... and in no other: assigning the old value back restores the state. *)
Lemma setters_frame (s : State) (v : Z) (cb : option (Z -> Z)) :
  set_cpu (cpu s) (set_cpu v s) = s /\ set_A (A s) (set_A v s) = s /\
  set_B (B s) (set_B v s) = s /\ set_C (C s) (set_C v s) = s /\
  set_D (D s) (set_D v s) = s /\ set_E (E s) (set_E v s) = s /\
  set_H (H s) (set_H v s) = s /\ set_L (L s) (set_L v s) = s /\
  set_F (F s) (set_F v s) = s /\ set_IX (IX s) (set_IX v s) = s /\
  set_IY (IY s) (set_IY v s) = s /\ set_WZ (WZ s) (set_WZ v s) = s /\
  set_A_ (A_ s) (set_A_ v s) = s /\ set_B_ (B_ s) (set_B_ v s) = s /\
  set_C_ (C_ s) (set_C_ v s) = s /\ set_D_ (D_ s) (set_D_ v s) = s /\
  set_E_ (E_ s) (set_E_ v s) = s /\ set_H_ (H_ s) (set_H_ v s) = s /\
  set_L_ (L_ s) (set_L_ v s) = s /\ set_F_ (F_ s) (set_F_ v s) = s /\
  set_I (I s) (set_I v s) = s /\ set_R (R s) (set_R v s) = s /\
  set_R_ (R_ s) (set_R_ v s) = s /\ set_PC (PC s) (set_PC v s) = s /\
  set_SP (SP s) (set_SP v s) = s /\ set_IFF (IFF s) (set_IFF v s) = s /\
  set_cpu_bus (cpu_bus s) (set_cpu_bus v s) = s /\
  set_cpu_state (cpu_state s) (set_cpu_state v s) = s /\
  set_cpu_error (cpu_error s) (set_cpu_error v s) = s /\
  set_int_mode (int_mode s) (set_int_mode v s) = s /\
  set_int_nmi (int_nmi s) (set_int_nmi v s) = s /\
  set_int_int (int_int s) (set_int_int v s) = s /\
  set_int_data (int_data s) (set_int_data v s) = s /\
  set_int_protection (int_protection s) (set_int_protection v s) = s /\
  set_bus_request (bus_request s) (set_bus_request v s) = s /\
  set_bus_mode (bus_mode s) (set_bus_mode v s) = s /\
  set_dma_bus_master (dma_bus_master s) (set_dma_bus_master cb s) = s.
Proof. destruct s. repeat split. Qed.

Lemma panel_setters_frame (p : Panel) (v : Z) (c : State)
    (out : list term_event) :
  set_core (core p) (set_core c p) = p /\
  set_fp_led_address (fp_led_address p) (set_fp_led_address v p) = p /\
  set_fp_led_data (fp_led_data p) (set_fp_led_data v p) = p /\
  set_fp_led_output (fp_led_output p) (set_fp_led_output v p) = p /\
  set_fp_led_wait (fp_led_wait p) (set_fp_led_wait v p) = p /\
  set_fp_led_speed (fp_led_speed p) (set_fp_led_speed v p) = p /\
  set_cpu_switch (cpu_switch p) (set_cpu_switch v p) = p /\
  set_power (power p) (set_power v p) = p /\
  set_console (console p) (set_console out p) = p.
Proof. destruct p. repeat split. Qed.

(** ** Bits of a flag byte *)

Lemma forall_byte (P : Z -> bool) :
  forallb P bytes = true -> forall r, 0 <= r <= 255 -> P r = true.
Proof.
  intros Hall r Hr.
  rewrite forallb_forall in Hall. apply Hall.
  unfold bytes. apply in_map_iff. exists (Z.to_nat r). split.
  - lia.
  - apply in_seq. lia.
Qed.

(** Testing a one-bit mask is testing the bit. *)
Lemma flag_set_testbit (k f : Z) :
  0 <= k -> flag_set (2 ^ k) f = Z.testbit f k.
Proof.
  intros Hk. unfold flag_set.
  destruct (Z.testbit f k) eqn:Hb.
  - apply negb_true_iff, Z.eqb_neq. intros H0.
    assert (Ht : Z.testbit (Z.land f (2 ^ k)) k = true).
    { rewrite Z.land_spec, Hb, Z.pow2_bits_true by assumption. reflexivity. }
    rewrite H0, Z.bits_0 in Ht. discriminate.
  - apply negb_false_iff, Z.eqb_eq. apply Z.bits_inj'. intros n Hn.
    rewrite Z.land_spec, Z.bits_0.
    destruct (Z.eq_dec k n) as [->|Hkn].
    + rewrite Hb. reflexivity.
    + rewrite Z.pow2_bits_false by assumption. apply andb_false_r.
Qed.

Lemma flag_set_N f : flag_set N_FLAG f = Z.testbit f 1.
Proof. apply (flag_set_testbit 1). lia. Qed.

Lemma flag_set_Y f : flag_set Y_FLAG f = Z.testbit f 5.
Proof. apply (flag_set_testbit 5). lia. Qed.

Lemma flag_set_X f : flag_set X_FLAG f = Z.testbit f 3.
Proof. apply (flag_set_testbit 3). lia. Qed.

(** ** The flag tables *)

Lemma parity_is_popcount (r : Z) :
  0 <= r <= 255 -> tbl parity r = Z.of_nat (popcount r) mod 2.
Proof.
  intros Hr. apply Z.eqb_eq. apply (forall_byte parity_row_ok); [|exact Hr].
  vm_compute. reflexivity.
Qed.

(** C1: for every 8-bit value r, szp_flags[r] has Z set exactly when r is 0,
    S set exactly when bit 7 of r is 1, P set exactly when r has an even
    number of one bits, and no bit outside S, Z, P set. *)
Theorem szp_flags_correct (r : Z) :
  0 <= r <= 255 ->
  (flag_set Z_FLAG (tbl szp_flags r) = true <-> r = 0) /\
  (flag_set S_FLAG (tbl szp_flags r) = true <-> Z.testbit r 7 = true) /\
  (flag_set P_FLAG (tbl szp_flags r) = true <->
     Nat.Even (popcount r)) /\
  Z.land (tbl szp_flags r) (Z.lnot (Z.lor (Z.lor S_FLAG Z_FLAG) P_FLAG)) = 0.
Proof.
  intros Hr.
  assert (Hrow : szp_row_ok r = true).
  { apply forall_byte; [vm_compute; reflexivity | exact Hr]. }
  unfold szp_row_ok in Hrow.
  repeat (apply andb_true_iff in Hrow; destruct Hrow as [Hrow ?]).
  apply eqb_prop in Hrow.
  repeat match goal with Hq : Bool.eqb _ _ = true |- _ =>
    apply eqb_prop in Hq end.
  repeat split.
  - rewrite Hrow. apply Z.eqb_eq.
  - intros ->. rewrite Hrow. reflexivity.
  - congruence.
  - congruence.
  - intros Hp. apply Nat.even_spec. congruence.
  - intros Hp. apply Nat.even_spec in Hp. congruence.
  - apply Z.eqb_eq. assumption.
Qed.

(** C2: for every 8-bit value b, szyx_flags[b] and szyxp_flags[b] have Y set
    exactly when bit 5 of b is 1 and X set exactly when bit 3 of b is 1. *)
Theorem szyx_flags_copy_bits (b : Z) :
  0 <= b <= 255 ->
  (flag_set Y_FLAG (tbl szyx_flags b) = true <-> Z.testbit b 5 = true) /\
  (flag_set X_FLAG (tbl szyx_flags b) = true <-> Z.testbit b 3 = true) /\
  (flag_set Y_FLAG (tbl szyxp_flags b) = true <-> Z.testbit b 5 = true) /\
  (flag_set X_FLAG (tbl szyxp_flags b) = true <-> Z.testbit b 3 = true).
Proof.
  intros Hb.
  assert (H1 : yx_row_ok szyx_flags b = true).
  { apply (forall_byte (yx_row_ok szyx_flags));
      [vm_compute; reflexivity | exact Hb]. }
  assert (H2 : yx_row_ok szyxp_flags b = true).
  { apply (forall_byte (yx_row_ok szyxp_flags));
      [vm_compute; reflexivity | exact Hb]. }
  unfold yx_row_ok in H1, H2.
  apply andb_true_iff in H1, H2.
  destruct H1 as [H1y H1x], H2 as [H2y H2x].
  apply eqb_prop in H1y, H1x, H2y, H2x.
  rewrite H1y, H1x, H2y, H2x. repeat split; trivial.
Qed.

(** ** The forced bits *)

Lemma testbit_N_FLAG i : 0 <= i -> Z.testbit N_FLAG i = (1 =? i).
Proof. intros Hi. apply (Z.pow2_bits_eqb 1). lia. Qed.

Lemma testbit_YX i :
  0 <= i -> Z.testbit (Z.lor Y_FLAG X_FLAG) i = (5 =? i) || (3 =? i).
Proof.
  intros Hi. rewrite Z.lor_spec.
  change Y_FLAG with (2 ^ 5). change X_FLAG with (2 ^ 3).
  rewrite !Z.pow2_bits_eqb by lia. reflexivity.
Qed.

Lemma force_8080_bits f i :
  0 <= i ->
  Z.testbit (force_8080 f) i =
    if 1 =? i then true
    else if (5 =? i) || (3 =? i) then false
    else Z.testbit f i.
Proof.
  intros Hi. unfold force_8080.
  rewrite Z.lor_spec, Z.land_spec, Z.lnot_spec, testbit_YX, testbit_N_FLAG
    by assumption.
  destruct (1 =? i), ((5 =? i) || (3 =? i)), (Z.testbit f i); reflexivity.
Qed.

Lemma force_8080_forced f : flags_8080_forced (force_8080 f) = true.
Proof.
  unfold flags_8080_forced.
  rewrite flag_set_N, flag_set_Y, flag_set_X.
  rewrite !force_8080_bits by lia. reflexivity.
Qed.

(** ** reset_cpu *)

(** C4: reset_cpu clears IFF, int_int, int_protection and the interrupt data
    (int_data becomes -1, the value for "no byte on the bus") and sets PC to
    0; with the Z80 compiled in it also sets I, R, R_, int_nmi and int_mode
    to 0. *)
Theorem reset_cpu_clears (s : State) :
  IFF (reset_cpu s) = 0 /\
  int_int (reset_cpu s) = 0 /\
  int_protection (reset_cpu s) = 0 /\
  int_data (reset_cpu s) = -1 /\
  PC (reset_cpu s) = 0 /\
  (EXCLUDE_Z80 = false ->
     I (reset_cpu s) = 0 /\ R (reset_cpu s) = 0 /\ R_ (reset_cpu s) = 0 /\
     int_nmi (reset_cpu s) = 0 /\ int_mode (reset_cpu s) = 0).
Proof.
  unfold reset_cpu, seq_cmd, when.
  destruct EXCLUDE_Z80; cbn.
  - repeat split; discriminate.
  - repeat split.
Qed.

(** ** Bus requests *)

Lemma restore_bus_same (s : State) : restore_bus s s = s.
Proof. destruct s. reflexivity. Qed.

(** C9: start_bus_request(mode, cb) sets bus_mode, dma_bus_master and
    bus_request = 1 and nothing else; end_bus_request() sets them to
    BUS_DMA_NONE, NULL and 0 and nothing else; end_bus_request is idempotent
    and undoes any start_bus_request. *)
Theorem bus_request_cycle (s : State) (mode : BusDMA_t)
    (cb : option (Z -> Z)) :
  (bus_mode (start_bus_request mode cb s) = mode /\
   dma_bus_master (start_bus_request mode cb s) = cb /\
   bus_request (start_bus_request mode cb s) = 1 /\
   restore_bus s (start_bus_request mode cb s) = s) /\
  (bus_mode (end_bus_request s) = BUS_DMA_NONE /\
   dma_bus_master (end_bus_request s) = None /\
   bus_request (end_bus_request s) = 0 /\
   restore_bus s (end_bus_request s) = s) /\
  end_bus_request (end_bus_request s) = end_bus_request s /\
  end_bus_request (start_bus_request mode cb s) = end_bus_request s.
Proof.
  destruct s. repeat split.
Qed.

(** ** switch_cpu *)

Lemma restore_switch_same (s : State) : restore_switch s s = s.
Proof. destruct s. reflexivity. Qed.

(** The guard [cpu != new_cpu] fails: nothing is executed. *)
Lemma switch_cpu_noop (s : State) : switch_cpu (cpu s) s = s.
Proof.
  unfold switch_cpu, ifc. rewrite Z.eqb_refl. reflexivity.
Qed.

(** C10: switch_cpu with the model already selected leaves the whole state
    as it is; F is not modified and cpu_state is not set to MODEL_SWITCH:
    it keeps its value. *)
Theorem switch_cpu_same_model (s : State) :
  switch_cpu (cpu s) s = s /\
  F (switch_cpu (cpu s) s) = F s /\
  cpu_state (switch_cpu (cpu s) s) = cpu_state s.
Proof.
  rewrite switch_cpu_noop. repeat split.
Qed.

(** What switch_cpu does when the model changes. *)
Lemma switch_cpu_other (s : State) (new_cpu : Z) :
  cpu s <> new_cpu ->
  switch_cpu new_cpu s =
    set_cpu_state MODEL_SWITCH
      (set_cpu new_cpu
         (set_F (if new_cpu =? Z80 then F s
                 else if new_cpu =? I8080 then force_8080 (F s)
                 else F s) s)).
Proof.
  intros Hne. unfold switch_cpu, ifc.
  apply Z.eqb_neq in Hne. rewrite Hne. cbn.
  unfold seq_cmd, skip.
  destruct (new_cpu =? Z80); [destruct s; reflexivity|].
  destruct (new_cpu =? I8080); destruct s; reflexivity.
Qed.

(** C6: switch_cpu(new_cpu) writes nothing but F, cpu and cpu_state; of F it
    changes at most the bits N, Y and X, and when the switch is to the 8080
    it leaves N = 1, Y = 0, X = 0. *)
Theorem switch_cpu_frame (s : State) (new_cpu : Z) :
  restore_switch s (switch_cpu new_cpu s) = s /\
  (forall i, 0 <= i -> i <> 1 -> i <> 3 -> i <> 5 ->
     Z.testbit (F (switch_cpu new_cpu s)) i = Z.testbit (F s) i) /\
  cpu (switch_cpu new_cpu s) = new_cpu /\
  (cpu_state (switch_cpu new_cpu s) = cpu_state s \/
   cpu_state (switch_cpu new_cpu s) = MODEL_SWITCH) /\
  (new_cpu <> I8080 -> F (switch_cpu new_cpu s) = F s) /\
  (Z80 <> I8080 -> new_cpu = I8080 -> cpu s <> I8080 ->
     flags_8080_forced (F (switch_cpu new_cpu s)) = true).
Proof.
  destruct (Z.eq_dec (cpu s) new_cpu) as [Heq|Hne].
  - subst new_cpu. rewrite switch_cpu_noop.
    repeat split; auto using restore_switch_same; congruence.
  - rewrite (switch_cpu_other _ _ Hne).
    split; [destruct s; reflexivity|].
    split.
    { intros i Hi H1 H3 H5. cbn.
      destruct (new_cpu =? Z80); [reflexivity|].
      destruct (new_cpu =? I8080); [|reflexivity].
      rewrite force_8080_bits by assumption.
      destruct (Z.eqb_spec 1 i); [congruence|].
      destruct (Z.eqb_spec 5 i); [congruence|].
      destruct (Z.eqb_spec 3 i); [congruence|]. reflexivity. }
    split; [reflexivity|].
    split; [right; reflexivity|].
    split.
    { intros Hn. cbn. apply Z.eqb_neq in Hn. rewrite Hn.
      destruct (new_cpu =? Z80); reflexivity. }
    { intros Hz Hnew _. subst new_cpu. cbn.
      assert (Hzz : (I8080 =? Z80) = false) by (apply Z.eqb_neq; congruence).
      rewrite Hzz, Z.eqb_refl. apply force_8080_forced. }
Qed.

(** ** init_cpu *)

(** Runs the assignments of a procedure on a state given by its fields. *)
Ltac run_globals :=
  lazy -[Z.modulo Z.of_N Z.eqb Z.land Z.lor Z.lnot Z.add Z.sub
         force_8080 draw].

Ltac split_on_model :=
  match goal with
  | |- context [?c =? I8080] => destruct (c =? I8080)
  end.

Ltac run_init_cpu s :=
  destruct s; unfold init_cpu;
  destruct EXCLUDE_Z80, UNDOC_FLAGS, EXCLUDE_I8080; run_globals;
  try reflexivity; split_on_model; reflexivity.

Lemma init_cpu_keeps_cpu (s : State) (g : RandSt) :
  cpu (fst (init_cpu (s, g))) = cpu s.
Proof. run_init_cpu s. Qed.

Lemma init_cpu_F (s : State) (g : RandSt) :
  F (fst (init_cpu (s, g))) =
    if negb EXCLUDE_I8080 && (cpu s =? I8080)
    then force_8080 (draw 8 g mod 256)
    else draw 8 g mod 256.
Proof. run_init_cpu s. Qed.

(** C5, as the code has it: init_cpu sets PC to 0 and, with the Z80 compiled
    in, I to 0; it gives SP, A, B, C, D, E, H, L, F and, with the Z80
    compiled in, A', B', C', D', E', H', L', F', IX, IY (and WZ with
    UNDOC_FLAGS) the value of one call of rand() each, reduced modulo 2^16 or
    2^8, F with Y and X cleared and N set when the model is the 8080; it
    leaves IFF, R and R_ as they are. *)
Theorem init_cpu_registers (s : State) (g : RandSt) :
  let s1 := fst (init_cpu (s, g)) in
  PC s1 = 0 /\
  SP s1 = draw 0 g mod 65536 /\
  A s1 = draw 1 g mod 256 /\ B s1 = draw 2 g mod 256 /\
  C s1 = draw 3 g mod 256 /\ D s1 = draw 4 g mod 256 /\
  E s1 = draw 5 g mod 256 /\ H s1 = draw 6 g mod 256 /\
  L s1 = draw 7 g mod 256 /\
  F s1 = (if negb EXCLUDE_I8080 && (cpu s =? I8080)
          then force_8080 (draw 8 g mod 256) else draw 8 g mod 256) /\
  I s1 = (if EXCLUDE_Z80 then I s else 0) /\
  A_ s1 = (if EXCLUDE_Z80 then A_ s else draw 9 g mod 256) /\
  B_ s1 = (if EXCLUDE_Z80 then B_ s else draw 10 g mod 256) /\
  C_ s1 = (if EXCLUDE_Z80 then C_ s else draw 11 g mod 256) /\
  D_ s1 = (if EXCLUDE_Z80 then D_ s else draw 12 g mod 256) /\
  E_ s1 = (if EXCLUDE_Z80 then E_ s else draw 13 g mod 256) /\
  H_ s1 = (if EXCLUDE_Z80 then H_ s else draw 14 g mod 256) /\
  L_ s1 = (if EXCLUDE_Z80 then L_ s else draw 15 g mod 256) /\
  F_ s1 = (if EXCLUDE_Z80 then F_ s else draw 16 g mod 256) /\
  IX s1 = (if EXCLUDE_Z80 then IX s else draw 17 g mod 65536) /\
  IY s1 = (if EXCLUDE_Z80 then IY s else draw 18 g mod 65536) /\
  WZ s1 = (if EXCLUDE_Z80 || negb UNDOC_FLAGS then WZ s
           else draw 19 g mod 65536) /\
  IFF s1 = IFF s /\ R s1 = R s /\ R_ s1 = R_ s.
Proof.
  intros s1. subst s1.
  repeat match goal with |- _ /\ _ => split end;
    try apply init_cpu_F; run_init_cpu s.
Qed.

(** ** The 8080 flag invariant *)

Lemma flags_8080_forced_bits (f : Z) :
  flags_8080_forced f = true <->
  Z.testbit f 1 = true /\ Z.testbit f 5 = false /\ Z.testbit f 3 = false.
Proof.
  unfold flags_8080_forced.
  rewrite flag_set_N, flag_set_Y, flag_set_X.
  destruct (Z.testbit f 1), (Z.testbit f 5), (Z.testbit f 3); cbn;
    split; try (intros (? & ? & ?)); intros; repeat split;
    try reflexivity; discriminate.
Qed.

Lemma init_cpu_forces (s : State) (g : RandSt) :
  EXCLUDE_I8080 = false -> cpu s = I8080 ->
  flags_8080_forced (F (fst (init_cpu (s, g)))) = true.
Proof.
  intros Hx Hc. rewrite init_cpu_F, Hx, Hc, Z.eqb_refl. cbn.
  apply force_8080_forced.
Qed.

Lemma switch_cpu_forces (s : State) :
  Z80 <> I8080 -> cpu s <> I8080 ->
  cpu (switch_cpu I8080 s) = I8080 /\
  flags_8080_forced (F (switch_cpu I8080 s)) = true.
Proof.
  intros Hz Hc. rewrite (switch_cpu_other _ _ Hc). cbn.
  assert (Hzz : (I8080 =? Z80) = false) by (apply Z.eqb_neq; congruence).
  rewrite Hzz, Z.eqb_refl. split; [reflexivity|apply force_8080_forced].
Qed.

(** ** run_cpu *)

Lemma run_loop_break (fuel : nat) (s s1 : State) :
  dispatch s = Some s1 -> cpu_state s1 <> MODEL_SWITCH ->
  run_loop (S fuel) s = Some s1.
Proof.
  intros Hd Hne. cbn. rewrite Hd.
  apply Z.eqb_neq in Hne. rewrite Hne. reflexivity.
Qed.

Lemma run_loop_continue (fuel : nat) (s s1 : State) :
  dispatch s = Some s1 -> cpu_state s1 = MODEL_SWITCH ->
  run_loop (S fuel) s = run_loop fuel (set_cpu_state CONTIN_RUN s1).
Proof.
  intros Hd He. cbn. rewrite Hd, He, Z.eqb_refl. reflexivity.
Qed.

(** With enough fuel the loop returns what the first executor call that
    does not end in MODEL_SWITCH returns. *)
Lemma run_loop_rounds (k : nat) :
  forall (fuel : nat) (s sk s' : State),
    switched_rounds k s = Some sk ->
    dispatch sk = Some s' -> cpu_state s' <> MODEL_SWITCH ->
    (k < fuel)%nat ->
    run_loop fuel s = Some s'.
Proof.
  induction k as [|k IH]; intros fuel s sk s' Hk Hd Hne Hfuel.
  - cbn in Hk. injection Hk as <-.
    destruct fuel as [|fuel]; [lia|]. apply run_loop_break; assumption.
  - destruct fuel as [|fuel]; [lia|].
    cbn in Hk. cbn.
    destruct (dispatch s) as [s1|]; [|discriminate].
    destruct (cpu_state s1 =? MODEL_SWITCH); [|discriminate].
    apply (IH fuel _ sk); [assumption..|lia].
Qed.

(** Whatever the loop returns is not in state MODEL_SWITCH. *)
Lemma run_loop_result (fuel : nat) :
  forall s s', run_loop fuel s = Some s' -> cpu_state s' <> MODEL_SWITCH.
Proof.
  induction fuel as [|fuel IH]; intros s s' Hr; [discriminate|].
  cbn in Hr. destruct (dispatch s) as [s1|]; [|discriminate].
  destruct (Z.eqb_spec (cpu_state s1) MODEL_SWITCH) as [He|Hne].
  - apply (IH _ _ Hr).
  - injection Hr as <-. exact Hne.
Qed.

(** C7: in run_cpu, when the executor returns with cpu_state ==
    MODEL_SWITCH, run_cpu does not return: it sets cpu_state to CONTIN_RUN
    and dispatches again, on the model then selected, and returns what that
    call returns when it does not end in MODEL_SWITCH either; with any other
    cpu_state after the first call run_cpu returns at once.  So run_cpu
    returns exactly the result of the first executor call that does not end
    in MODEL_SWITCH, and never a state with cpu_state == MODEL_SWITCH.  The
    executor called is the one of the model selected at the call. *)
Theorem run_cpu_model_switch (s s1 : State) (fuel : nat) :
  dispatch (set_cpu_error NONE (set_cpu_state CONTIN_RUN s)) = Some s1 ->
  (cpu_state s1 = MODEL_SWITCH ->
     run_cpu (S fuel) s = run_loop fuel (set_cpu_state CONTIN_RUN s1) /\
     cpu (set_cpu_state CONTIN_RUN s1) = cpu s1 /\
     cpu_state (set_cpu_state CONTIN_RUN s1) = CONTIN_RUN /\
     run_cpu 1 s = None /\
     forall s2,
       dispatch (set_cpu_state CONTIN_RUN s1) = Some s2 ->
       cpu_state s2 <> MODEL_SWITCH ->
       run_cpu (S (S fuel)) s = Some s2) /\
  (cpu_state s1 <> MODEL_SWITCH -> run_cpu (S fuel) s = Some s1) /\
  (forall k sk s',
     switched_rounds k (set_cpu_error NONE (set_cpu_state CONTIN_RUN s))
       = Some sk ->
     dispatch sk = Some s' -> cpu_state s' <> MODEL_SWITCH ->
     (k < fuel)%nat -> run_cpu fuel s = Some s') /\
  (forall s', run_cpu fuel s = Some s' -> cpu_state s' <> MODEL_SWITCH) /\
  (forall t, EXCLUDE_Z80 = false -> cpu t = Z80 -> dispatch t = cpu_z80 t) /\
  (forall t, EXCLUDE_I8080 = false -> Z80 <> I8080 -> cpu t = I8080 ->
     dispatch t = cpu_8080 t).
Proof.
  intros Hd. unfold run_cpu.
  set (s0 := set_cpu_error NONE (set_cpu_state CONTIN_RUN s)) in *.
  split.
  { intros Hsw.
    split; [apply run_loop_continue; assumption|].
    split; [reflexivity|]. split; [reflexivity|].
    split.
    - rewrite (run_loop_continue 0 s0 s1 Hd Hsw). reflexivity.
    - intros s2 Hd2 Hne.
      rewrite (run_loop_continue (S fuel) s0 s1 Hd Hsw).
      apply run_loop_break; assumption. }
  split; [intros Hne; apply run_loop_break; assumption|].
  split.
  { intros k sk s' Hk Hd' Hne Hlt.
    apply (run_loop_rounds k fuel s0 sk s'); assumption. }
  split; [apply run_loop_result|].
  split.
  - intros t Hx Hc. unfold dispatch. rewrite Hx, Hc, Z.eqb_refl. reflexivity.
  - intros t Hx Hz Hc. unfold dispatch. rewrite Hx, Hc, Z.eqb_refl.
    assert (Hne : (I8080 =? Z80) = false) by (apply Z.eqb_neq; congruence).
    rewrite Hne, andb_false_r. reflexivity.
Qed.

(** ** Power off *)

Lemma power_off_writes (h : Panel -> Panel) (val : Z) (p : Panel) :
  FP_SW_UP <> FP_SW_DOWN ->
  In h (power_off_handlers val) -> power p <> 0 ->
  cpu_error (core (h p)) = POWEROFF /\ cpu_state (core (h p)) = STOPPED /\
  cpu_switch (h p) = 0 /\ power (h p) = power p - 1.
Proof.
  intros Hsw Hin Hp. apply Z.eqb_neq in Hp.
  destruct Hin as [<-|[<-|[<-|[]]]].
  - unfold power_clicked_altair.
    assert (H1 : (FP_SW_UP =? FP_SW_DOWN) = false)
      by (apply Z.eqb_neq; assumption).
    rewrite H1, Z.eqb_refl. unfold ifc. rewrite Hp. cbn. repeat split.
  - unfold power_clicked_cromemco.
    assert (H1 : (FP_SW_DOWN =? FP_SW_UP) = false)
      by (apply Z.eqb_neq; congruence).
    rewrite H1, Z.eqb_refl. unfold ifc. rewrite Hp. cbn. repeat split.
  - cbn. repeat split.
Qed.

(** A polling executor returns at the first boundary at which cpu_state is
    not CONTIN_RUN, with the globals as they are there. *)
Lemma polling_executor_returns (instr : State -> State) (k : nat) :
  forall (other : nat -> State -> State) (fuel : nat) (s : State),
    (k < fuel)%nat ->
    (forall j, (j < k)%nat ->
       cpu_state (other j (at_boundary instr other j s)) = CONTIN_RUN) ->
    cpu_state (other k (at_boundary instr other k s)) <> CONTIN_RUN ->
    polling_executor instr other fuel s =
      Some (other k (at_boundary instr other k s)).
Proof.
  induction k as [|k IH]; intros other fuel s Hfuel Hrun Hstop;
    (destruct fuel as [|fuel]; [lia|]); cbn [polling_executor at_boundary].
  - cbn [at_boundary] in Hstop. apply Z.eqb_neq in Hstop.
    cbv zeta. rewrite Hstop. reflexivity.
  - cbv zeta. rewrite (Hrun O ltac:(lia) : cpu_state (other O (instr s)) = _).
    rewrite Z.eqb_refl.
    apply (IH (fun n => other (S n)) fuel (other O (instr s)));
      [lia| |exact Hstop].
    intros j Hj. apply (Hrun (S j)). lia.
Qed.

(** C8: switching the power off while it is on, or closing the panel window,
    sets cpu_error to POWEROFF and cpu_state to STOPPED (and cpu_switch to
    0).  When the handler's writes arrive while the CPU runs, the executor,
    polling cpu_state as the design document says, returns at that
    instruction boundary with the handler's values; run_cpu, of simcore.c
    as of the Altair's simctl.c, returns them, STOPPED not being
    MODEL_SWITCH; the guard cpu_error == NONE of the panel's operating loop
    is then false and its switch on cpu_switch calls no CPU entry point: the
    session ends with cpu_error == POWEROFF. *)
Theorem power_off_stops :
  FP_SW_UP <> FP_SW_DOWN ->
  POWEROFF <> NONE ->
  STOPPED <> MODEL_SWITCH ->
  STOPPED <> CONTIN_RUN ->
  (forall p val, power p <> 0 ->
     let p1 := power_clicked_altair FP_SW_UP val p in
     cpu_error (core p1) = POWEROFF /\ cpu_state (core p1) = STOPPED /\
     cpu_switch p1 = 0 /\ power p1 = power p - 1) /\
  (forall p val, power p <> 0 ->
     let p1 := power_clicked_cromemco FP_SW_DOWN val p in
     cpu_error (core p1) = POWEROFF /\ cpu_state (core p1) = STOPPED /\
     cpu_switch p1 = 0 /\ power p1 = power p - 1) /\
  (forall p,
     let p1 := quit_callback p in
     cpu_error (core p1) = POWEROFF /\ cpu_state (core p1) = STOPPED /\
     cpu_switch p1 = 0 /\ power p1 = power p - 1) /\
  (forall h val instr other k fuel rounds p s,
     In h (power_off_handlers val) -> power p <> 0 ->
     let s0 := set_cpu_error NONE (set_cpu_state CONTIN_RUN s) in
     let p_off := h (set_core (at_boundary instr other k s0) p) in
     dispatch s0 = polling_executor instr other fuel s0 ->
     dispatch_altair s0 = polling_executor instr other fuel s0 ->
     (k < fuel)%nat ->
     (forall j, (j < k)%nat ->
        cpu_state (other j (at_boundary instr other j s0)) = CONTIN_RUN) ->
     (forall t, other k t = on_globals h p t) ->
     run_cpu (S rounds) s = Some (core p_off) /\
     run_cpu_altair s = Some (core p_off) /\
     cpu_error (core p_off) = POWEROFF /\
     cpu_state (core p_off) = STOPPED /\
     fp_operating p_off = false /\
     cpu_switch_call p_off = CallNone).
Proof.
  intros Hsw Herr Hst Hcr.
  split.
  { intros p val Hp p1. subst p1.
    apply (power_off_writes _ val p Hsw); [left; reflexivity|exact Hp]. }
  split.
  { intros p val Hp p1. subst p1.
    apply (power_off_writes _ val p Hsw);
      [right; left; reflexivity|exact Hp]. }
  split.
  { intros p p1. subst p1. cbn. repeat split. }
  intros h val instr other k fuel rounds p s Hin Hp s0 p_off
    Hd Hda Hfuel Hrun Hother.
  assert (Hp' : power (set_core (at_boundary instr other k s0) p) <> 0)
    by (destruct p; exact Hp).
  destruct (power_off_writes h val _ Hsw Hin Hp') as (He & Hs & Hc & _).
  fold p_off in He, Hs, Hc.
  assert (Hret : polling_executor instr other fuel s0 = Some (core p_off)).
  { rewrite (polling_executor_returns instr k other fuel s0 Hfuel Hrun).
    - rewrite Hother. reflexivity.
    - rewrite Hother. unfold on_globals. fold p_off. rewrite Hs. exact Hcr. }
  split.
  { unfold run_cpu. fold s0. apply run_loop_break.
    - rewrite Hd. exact Hret.
    - rewrite Hs. exact Hst. }
  split.
  { unfold run_cpu_altair. fold s0. rewrite Hda, Hret. reflexivity. }
  split; [exact He|]. split; [exact Hs|].
  unfold fp_operating, cpu_switch_call. rewrite He, Hc. cbn.
  split; [|reflexivity]. apply Z.eqb_neq. exact Herr.
Qed.

(** * Further properties *)

(** ** The flag tables against the computation they replace *)

Lemma tables_rows (r : Z) : 0 <= r <= 255 -> tables_row_ok r = true.
Proof.
  intros Hr. apply (forall_byte tables_row_ok); [|exact Hr].
  vm_compute. reflexivity.
Qed.

(** X1: parity[r] is 1 when r has an odd number of one bits and 0 when it
    has an even number. *)
Theorem parity_table_correct (r : Z) :
  0 <= r <= 255 ->
  (tbl parity r = 1 <-> Nat.Odd (popcount r)) /\
  (tbl parity r = 0 <-> Nat.Even (popcount r)).
Proof.
  intros Hr. rewrite (parity_is_popcount r Hr).
  destruct (Nat.Even_or_Odd (popcount r)) as [He|Ho].
  - assert (Hm : Z.of_nat (popcount r) mod 2 = 0).
    { destruct He as [k Hk]. rewrite Hk, Nat2Z.inj_mul.
      rewrite Z.mul_comm. apply Z_mod_mult. }
    rewrite Hm. split; split; intros Hx; try discriminate; try assumption;
      try reflexivity.
    exfalso. apply (Nat.Even_Odd_False (popcount r)); assumption.
  - assert (Hm : Z.of_nat (popcount r) mod 2 = 1).
    { destruct Ho as [k Hk]. rewrite Hk, Nat2Z.inj_add, Nat2Z.inj_mul.
      rewrite Z.add_comm, Z.mul_comm, Z_mod_plus_full. reflexivity. }
    rewrite Hm. split; split; intros Hx; try discriminate; try assumption;
      try reflexivity.
    exfalso. apply (Nat.Even_Odd_False (popcount r)); assumption.
Qed.

(** X2: sz_flags[r] has Z set exactly when r is 0, S set exactly when bit 7
    of r is 1, and no other bit. *)
Theorem sz_flags_correct (r : Z) :
  0 <= r <= 255 ->
  (flag_set Z_FLAG (tbl sz_flags r) = true <-> r = 0) /\
  (flag_set S_FLAG (tbl sz_flags r) = true <-> Z.testbit r 7 = true) /\
  Z.land (tbl sz_flags r) (Z.lnot (Z.lor S_FLAG Z_FLAG)) = 0.
Proof.
  intros Hr.
  pose proof (forall_byte
    (fun x => Bool.eqb (flag_set Z_FLAG (tbl sz_flags x)) (x =? 0)
              && Bool.eqb (flag_set S_FLAG (tbl sz_flags x)) (Z.testbit x 7)
              && (Z.land (tbl sz_flags x) (Z.lnot (Z.lor S_FLAG Z_FLAG))
                  =? 0))) as Hrow.
  specialize (Hrow ltac:(vm_compute; reflexivity) r Hr). cbv beta in Hrow.
  apply andb_true_iff in Hrow. destruct Hrow as [Hrow H0].
  apply andb_true_iff in Hrow. destruct Hrow as [Hz Hs].
  apply eqb_prop in Hz, Hs. apply Z.eqb_eq in H0.
  rewrite Hz, Hs. split; [apply Z.eqb_eq|].
  split; [reflexivity | exact H0].
Qed.

(** X3: each table entry is what the executors compute without tables:
    szp_flags[r] is sz_flags[r] with P added when parity[r] is 0,
    szyx_flags[r] is sz_flags[r] with bits 5 and 3 of r copied in, and
    szyxp_flags[r] is both, so it is szp_flags[r] or-ed with szyx_flags[r]. *)
Theorem flag_tables_compose (r : Z) :
  0 <= r <= 255 ->
  tbl sz_flags r = sz_of r /\
  tbl szp_flags r = Z.lor (tbl sz_flags r) (p_of r) /\
  tbl szyx_flags r = Z.lor (tbl sz_flags r) (yx_of r) /\
  tbl szyxp_flags r = Z.lor (tbl szyx_flags r) (p_of r) /\
  tbl szyxp_flags r = Z.lor (tbl szp_flags r) (tbl szyx_flags r).
Proof.
  intros Hr. pose proof (tables_rows r Hr) as Hrow.
  unfold tables_row_ok in Hrow.
  apply andb_true_iff in Hrow. destruct Hrow as [Hrow H4].
  apply andb_true_iff in Hrow. destruct Hrow as [Hrow H3].
  apply andb_true_iff in Hrow. destruct Hrow as [H1 H2].
  apply Z.eqb_eq in H1, H2, H3, H4.
  rewrite H4, H3, H2, H1. repeat split.
  apply Z.bits_inj'. intros n _. rewrite !Z.lor_spec.
  destruct (Z.testbit (sz_of r) n), (Z.testbit (yx_of r) n),
    (Z.testbit (p_of r) n); reflexivity.
Qed.

(** ** exatoi *)

(** Case analysis on the 256 characters. *)
Ltac each_char c := destruct c as [[] [] [] [] [] [] [] []].

Lemma exatoi_digit (c : ascii) :
  isxdigit c = true ->
  (if char_code c <=? 57 then char_code c - 48 else toupper c - 55)
    = hex_digit_value c /\
  0 <= hex_digit_value c <= 15.
Proof.
  each_char c; vm_compute; intros Hx; try discriminate Hx;
    (split; [reflexivity | split; discriminate]).
Qed.

Lemma hex_value_bound (str : string) :
  0 <= hex_value (xdigits_prefix str)
    < 16 ^ Z.of_nat (List.length (xdigits_prefix str)).
Proof.
  induction str as [|c rest IH]; [cbn; lia|].
  cbn [xdigits_prefix]. destruct (isxdigit c) eqn:Hx; [|cbn; lia].
  cbn [hex_value List.length].
  destruct (exatoi_digit c Hx) as [_ Hd].
  rewrite Nat2Z.inj_succ, Z.pow_succ_r by lia.
  set (P := 16 ^ Z.of_nat (List.length (xdigits_prefix rest))) in *.
  nia.
Qed.

Lemma int_result_in (z : Z) :
  INT_MIN <= z <= INT_MAX -> int_result z = Some z.
Proof.
  intros [Hlo Hhi]. unfold int_result.
  apply Z.leb_le in Hlo, Hhi. rewrite Hlo, Hhi. reflexivity.
Qed.

Lemma int_result_out (z : Z) : INT_MAX < z -> int_result z = None.
Proof.
  intros Hz. unfold int_result.
  apply Z.leb_gt in Hz. rewrite Hz, andb_false_r. reflexivity.
Qed.

Lemma exatoi_loop_value (str : string) :
  forall num, 0 <= num <= INT_MAX ->
    exatoi_loop num str =
      int_result (num * 16 ^ Z.of_nat (List.length (xdigits_prefix str))
                  + hex_value (xdigits_prefix str)).
Proof.
  assert (Hmin : INT_MIN < 0) by reflexivity.
  induction str as [|c rest IH]; intros num Hnum.
  - cbn. rewrite Z.mul_1_r, Z.add_0_r, int_result_in by lia. reflexivity.
  - cbn [exatoi_loop xdigits_prefix]. destruct (isxdigit c) eqn:Hx.
    + destruct (exatoi_digit c Hx) as [Hd Hrange].
      cbn [hex_value List.length].
      rewrite Nat2Z.inj_succ, Z.pow_succ_r by lia.
      pose proof (hex_value_bound rest) as Hb.
      set (P := 16 ^ Z.of_nat (List.length (xdigits_prefix rest))) in *.
      set (hv := hex_value (xdigits_prefix rest)) in *.
      set (d := hex_digit_value c) in *.
      assert (HP : 1 <= P) by lia.
      destruct (Z.le_gt_cases (num * 16) INT_MAX) as [H16|H16].
      * rewrite (int_result_in (num * 16)) by lia.
        replace (if char_code c <=? 57 then num * 16 + (char_code c - 48)
                 else num * 16 + (toupper c - 55))
          with (num * 16 + d)
          by (rewrite <- Hd; destruct (char_code c <=? 57); reflexivity).
        destruct (Z.le_gt_cases (num * 16 + d) INT_MAX) as [Hs|Hs].
        -- rewrite (int_result_in (num * 16 + d)) by lia.
           rewrite IH by lia. f_equal. ring.
        -- rewrite (int_result_out (num * 16 + d)) by lia.
           rewrite int_result_out by nia. reflexivity.
      * rewrite (int_result_out (num * 16)) by lia.
        rewrite int_result_out by nia. reflexivity.
    + cbn. rewrite Z.mul_1_r, Z.add_0_r, int_result_in by lia. reflexivity.
Qed.

(** X4: exatoi reads the hexadecimal digits the string starts with, as far
    as they go, and returns the number they write; what follows the digits
    is ignored, and a string that starts with no digit gives 0.  The
    computation overflows exactly when that number exceeds INT_MAX. *)
Theorem exatoi_value (str : string) :
  exatoi str =
    if hex_value (xdigits_prefix str) <=? INT_MAX
    then Some (hex_value (xdigits_prefix str))
    else None.
Proof.
  unfold exatoi. rewrite exatoi_loop_value by (unfold INT_MAX; lia).
  rewrite Z.mul_0_l, Z.add_0_l.
  pose proof (hex_value_bound str) as Hb.
  destruct (Z.leb_spec (hex_value (xdigits_prefix str)) INT_MAX).
  - apply int_result_in. unfold INT_MIN. lia.
  - apply int_result_out. assumption.
Qed.

(** X5: with at most seven hexadecimal digits at its start, a string never
    makes exatoi overflow, and n digits give a value below 16^n: four digits
    are always an address. *)
Theorem exatoi_no_overflow (str : string) :
  (List.length (xdigits_prefix str) <= 7)%nat ->
  exists v,
    exatoi str = Some v /\
    v = hex_value (xdigits_prefix str) /\
    0 <= v < 16 ^ Z.of_nat (List.length (xdigits_prefix str)).
Proof.
  intros Hlen. exists (hex_value (xdigits_prefix str)).
  pose proof (hex_value_bound str) as Hb.
  assert (Hp : 16 ^ Z.of_nat (List.length (xdigits_prefix str)) <= 16 ^ 7).
  { apply Z.pow_le_mono_r; lia. }
  rewrite exatoi_value.
  destruct (Z.leb_spec (hex_value (xdigits_prefix str)) INT_MAX) as [Hle|Hgt].
  - repeat split; lia.
  - unfold INT_MAX in Hgt. change (16 ^ 7) with 268435456 in Hp. lia.
Qed.

Lemma upper_case_char (c : ascii) :
  isxdigit (ascii_of_N (Z.to_N (toupper c))) = isxdigit c /\
  hex_digit_value (ascii_of_N (Z.to_N (toupper c))) = hex_digit_value c.
Proof. each_char c; vm_compute; split; reflexivity. Qed.

Lemma upper_case_prefix (str : string) :
  hex_value (xdigits_prefix (upper_case str)) =
    hex_value (xdigits_prefix str) /\
  List.length (xdigits_prefix (upper_case str)) =
    List.length (xdigits_prefix str).
Proof.
  induction str as [|c rest [IHv IHl]]; [split; reflexivity|].
  cbn [upper_case xdigits_prefix].
  destruct (upper_case_char c) as [Hx Hd]. rewrite Hx.
  destruct (isxdigit c); [|split; reflexivity].
  cbn [hex_value List.length]. rewrite Hd, IHv, IHl. split; reflexivity.
Qed.

(** X6: exatoi does not tell upper from lower case: a string and the same
    string with its letters in upper case give the same result. *)
Theorem exatoi_case_insensitive (str : string) :
  exatoi (upper_case str) = exatoi str.
Proof.
  rewrite !exatoi_value.
  destruct (upper_case_prefix str) as [-> _]. reflexivity.
Qed.

(** ** The switches of the front panel *)

(** X7: with the power off, the RUN/STOP, STEP, EXAMINE and DEPOSIT
    callbacks of both machines, the PROTECT and INT/BOOT callbacks of the
    Altair and the RESET callback of the Cromemco return without changing
    anything, whatever the switch position. *)
Theorem switches_dead_without_power (m : Machine) (state val : Z) :
  power (panel m) = 0 ->
  run_clicked_altair state val (panel m) = panel m /\
  run_clicked_cromemco state val (panel m) = panel m /\
  step_clicked_altair state val (panel m) = panel m /\
  step_clicked_cromemco state val (panel m) = panel m /\
  examine_clicked_altair state val m = m /\
  examine_clicked_cromemco state val m = m /\
  deposit_clicked_altair state val m = m /\
  deposit_clicked_cromemco state val m = m /\
  protect_clicked_altair state val m = m /\
  int_clicked_altair state val m = m /\
  reset_clicked_cromemco state val m = m.
Proof.
  intros Hp.
  unfold run_clicked_altair, run_clicked_cromemco, step_clicked_altair,
    step_clicked_cromemco, examine_clicked_altair, examine_clicked_cromemco,
    deposit_clicked_altair, deposit_clicked_cromemco, protect_clicked_altair,
    int_clicked_altair, reset_clicked_cromemco, ifc, powered.
  rewrite Hp. cbn. repeat split.
Qed.






Lemma to_WORD_range (a : Z) : 0 <= to_WORD a < 65536.
Proof. unfold to_WORD. apply Z.mod_pos_bound. lia. Qed.

Lemma to_WORD_small (a : Z) : 0 <= a < 65536 -> to_WORD a = a.
Proof. intros Ha. unfold to_WORD. apply Z.mod_small. exact Ha. Qed.

Lemma to_WORD_idem (a : Z) : to_WORD (to_WORD a) = to_WORD a.
Proof. apply to_WORD_small, to_WORD_range. Qed.

Lemma low_byte (a : Z) :
  0 <= Z.land a 255 < 256 /\ to_BYTE (Z.land a 255) = Z.land a 255.
Proof.
  change 255 with (Z.ones 8). rewrite Z.land_ones by lia.
  pose proof (Z.mod_pos_bound a (2 ^ 8) ltac:(lia)) as Hb.
  change (2 ^ 8) with 256 in *. split; [exact Hb|].
  unfold to_BYTE. apply Z.mod_small. exact Hb.
Qed.

(** X9: while the CPU runs, the STEP, EXAMINE, DEPOSIT and PROTECT callbacks
    change nothing; EXAMINE and DEPOSIT change nothing either while the CPU
    sits in a HALT (HLTA on the bus). *)
Theorem busy_cpu_blocks_switches (m : Machine) (state val : Z) :
  (cpu_state (cpu_of m) = CONTIN_RUN ->
     step_clicked_altair state val (panel m) = panel m /\
     step_clicked_cromemco state val (panel m) = panel m /\
     examine_clicked_altair state val m = m /\
     examine_clicked_cromemco state val m = m /\
     deposit_clicked_altair state val m = m /\
     deposit_clicked_cromemco state val m = m /\
     protect_clicked_altair state val m = m) /\
  (Z.land (cpu_bus (cpu_of m)) CPU_HLTA <> 0 ->
     examine_clicked_altair state val m = m /\
     examine_clicked_cromemco state val m = m /\
     deposit_clicked_altair state val m = m /\
     deposit_clicked_cromemco state val m = m).
Proof.
  unfold step_clicked_altair, step_clicked_cromemco, examine_clicked_altair,
    examine_clicked_cromemco, deposit_clicked_altair,
    deposit_clicked_cromemco, protect_clicked_altair, ifc, powered,
    running_or_halted, running, cpu_of.
  split.
  - intros Hc. rewrite Hc, Z.eqb_refl. cbn.
    destruct (power (panel m) =? 0); cbn; repeat split.
  - intros Hh. apply Z.eqb_neq in Hh. rewrite Hh, orb_true_r. cbn.
    destruct (power (panel m) =? 0); cbn; repeat split.
Qed.

(** X10: DEPOSIT on the Altair.  When the page of PC is ROM or write
    protected, deposit only turns the PROTECT light on: memory, PC and the
    other lights stay.  Otherwise DEPOSIT writes the low byte of the
    switches at PC, and DEPOSIT NEXT advances PC by one modulo 2^16 and
    writes there; the page tested is the one of PC before the advance,
    whatever the attribute of the page PC + 1 lies in. *)
Theorem deposit_altair_protection (m : Machine) (val : Z) :
  powered m = true ->
  running_or_halted m = false ->
  FP_SW_UP <> FP_SW_DOWN ->
  (page_protected m = true ->
     forall state, deposit_clicked_altair state val m = set_mem_wp 1 m) /\
  (page_protected m = false ->
     (let m1 := deposit_clicked_altair FP_SW_UP val m in
      memory m1 =
        write_byte (PC (cpu_of m)) (Z.land (address_switch m) 255) (memory m)
      /\ PC (cpu_of m1) = PC (cpu_of m) /\ mem_wp m1 = 0) /\
     (let m2 := deposit_clicked_altair FP_SW_DOWN val m in
      memory m2 =
        write_byte (PC (cpu_of m) + 1) (Z.land (address_switch m) 255)
          (memory m)
      /\ PC (cpu_of m2) = to_WORD (PC (cpu_of m) + 1) /\ mem_wp m2 = 0)).
Proof.
  intros Hp Hr Hsw.
  assert (Hud : (FP_SW_UP =? FP_SW_DOWN) = false)
    by (apply Z.eqb_neq; assumption).
  assert (Hdu : (FP_SW_DOWN =? FP_SW_UP) = false)
    by (apply Z.eqb_neq; congruence).
  unfold deposit_clicked_altair, ifc. rewrite Hp, Hr. cbn [negb].
  split; intros Hpg; rewrite Hpg.
  - reflexivity.
  - rewrite !Z.eqb_refl, Hdu. split.
    + cbn. repeat split.
    + cbn. unfold write_byte. rewrite to_WORD_idem. repeat split.
Qed.

(** What reset_cpu leaves for the panel: PC and IFF are 0; cpu_state,
    cpu_bus and m1_step are not written. *)
Lemma reset_cpu_for_panel (s : State) :
  PC (reset_cpu s) = 0 /\ IFF (reset_cpu s) = 0 /\
  cpu_state (reset_cpu s) = cpu_state s /\
  cpu_bus (reset_cpu s) = cpu_bus s /\
  m1_step (reset_cpu s) = m1_step s.
Proof.
  destruct s. unfold reset_cpu. destruct EXCLUDE_Z80; run_globals;
    repeat split.
Qed.

Lemma examine_shows_pc (m : Machine) (state val : Z) :
  powered m = true -> running_or_halted m = false ->
  FP_SW_UP <> FP_SW_DOWN ->
  0 <= address_switch m < 65536 ->
  state = FP_SW_UP \/ state = FP_SW_DOWN ->
  leds_show_pc (examine_clicked_altair state val m) /\
  leds_show_pc (examine_clicked_cromemco state val m).
Proof.
  intros Hp Hr Hsw Ha Hst.
  assert (Hdu : (FP_SW_DOWN =? FP_SW_UP) = false)
    by (apply Z.eqb_neq; congruence).
  unfold examine_clicked_altair, examine_clicked_cromemco, ifc,
    leds_show_pc.
  rewrite Hp, Hr. cbn [negb].
  destruct Hst as [-> | ->]; rewrite ?Z.eqb_refl, ?Hdu; cbn;
    unfold read_byte; rewrite ?to_WORD_idem, ?(to_WORD_small _ Ha);
    repeat split.
Qed.

Lemma deposit_switches_shows_pc (m : Machine) :
  stores_writes ->
  fp_led_address (panel m) = PC (cpu_of m) ->
  0 <= PC (cpu_of m) < 65536 ->
  leds_show_pc (deposit_switches m).
Proof.
  intros Hram Hled Hpc. unfold leds_show_pc, deposit_switches, cpu_of in *.
  cbn -[to_WORD to_BYTE Z.land]. split; [exact Hled|].
  unfold write_byte.
  destruct (low_byte (address_switch m)) as [Hb ->].
  rewrite (to_WORD_small _ Hpc). symmetry. apply Hram; assumption.
Qed.

Lemma next_address_keeps_led (m : Machine) :
  fp_led_address (panel m) = PC (cpu_of m) ->
  fp_led_address (panel (next_address m)) = PC (cpu_of (next_address m)) /\
  0 <= PC (cpu_of (next_address m)) < 65536.
Proof.
  intros Hled. unfold next_address, cpu_of in *. cbn -[to_WORD].
  rewrite Hled.
  split; [reflexivity | apply to_WORD_range].
Qed.

(** X11: the address and data lights follow PC.  After EXAMINE and EXAMINE
    NEXT (both machines), after BOOT on the Altair and after the release of
    RESET on the Cromemco the address lights show PC and the data lights the
    byte at PC.  DEPOSIT and DEPOSIT NEXT keep that when the memory stores
    what is written. *)
Theorem leds_follow_pc (m : Machine) (state val : Z) :
  powered m = true ->
  FP_SW_UP <> FP_SW_DOWN ->
  FP_SW_CENTER <> FP_SW_UP ->
  state = FP_SW_UP \/ state = FP_SW_DOWN ->
  (running_or_halted m = false -> 0 <= address_switch m < 65536 ->
     leds_show_pc (examine_clicked_altair state val m) /\
     leds_show_pc (examine_clicked_cromemco state val m)) /\
  leds_show_pc (int_clicked_altair FP_SW_DOWN val m) /\
  (reset (panel m) <> 0 ->
     leds_show_pc (reset_clicked_cromemco FP_SW_CENTER val m)) /\
  (stores_writes -> leds_show_pc m -> 0 <= PC (cpu_of m) < 65536 ->
     leds_show_pc (deposit_clicked_altair state val m) /\
     leds_show_pc (deposit_clicked_cromemco state val m)).
Proof.
  intros Hp Hsw Hcu Hst.
  assert (Hdu : (FP_SW_DOWN =? FP_SW_UP) = false)
    by (apply Z.eqb_neq; congruence).
  assert (Hcu' : (FP_SW_CENTER =? FP_SW_UP) = false)
    by (apply Z.eqb_neq; assumption).
  split; [intros Hr Ha; apply examine_shows_pc; assumption|].
  split.
  { unfold int_clicked_altair, ifc, leds_show_pc.
    rewrite Hp, Hdu, Z.eqb_refl. cbn. unfold read_byte. repeat split. }
  split.
  { intros Hres. apply Z.eqb_neq in Hres.
    unfold reset_clicked_cromemco, ifc, leds_show_pc.
    rewrite Hp, Hcu', Z.eqb_refl, Hres. cbn [negb].
    unfold when. destruct HAS_BANKED_ROM; cbn; unfold read_byte.
    - rewrite to_WORD_idem. repeat split.
    - destruct (reset_cpu_for_panel (core (panel m))) as [-> _].
      repeat split. }
  intros Hram Hleds Hpc. destruct Hleds as [Hled Hdata].
  unfold deposit_clicked_altair, deposit_clicked_cromemco, ifc.
  rewrite Hp. destruct (running_or_halted m); cbn [negb].
  { split; split; assumption. }
  assert (Hcro : leds_show_pc
            ((if state =? FP_SW_UP then deposit_switches
              else if state =? FP_SW_DOWN
                   then next_address ;; deposit_switches else skip) m)).
  { destruct Hst as [-> | ->]; rewrite ?Z.eqb_refl, ?Hdu.
    - apply deposit_switches_shows_pc; assumption.
    - unfold seq_cmd. destruct (next_address_keeps_led m Hled).
      apply deposit_switches_shows_pc; assumption. }
  split; [|exact Hcro].
  destruct (page_protected m).
  - split; assumption.
  - unfold seq_cmd at 1.
    destruct Hst as [-> | ->]; rewrite ?Z.eqb_refl, ?Hdu in *.
    + apply (deposit_switches_shows_pc (set_mem_wp 0 m)); assumption.
    + unfold seq_cmd.
      destruct (next_address_keeps_led (set_mem_wp 0 m) Hled).
      apply deposit_switches_shows_pc; assumption.
Qed.

(** ** The page table *)

Lemma list_set_length {X : Type} (l : list X) :
  forall i v, List.length (list_set l i v) = List.length l.
Proof.
  induction l as [|x rest IH]; intros [|i] v; cbn; try reflexivity.
  rewrite IH. reflexivity.
Qed.

Lemma list_set_same (l : list Z) :
  forall i v, (i < List.length l)%nat -> nth i (list_set l i v) 0 = v.
Proof.
  induction l as [|x rest IH]; intros [|i] v Hi; cbn in *; try lia.
  apply IH. lia.
Qed.

Lemma list_set_other (l : list Z) :
  forall i j v, i <> j -> nth j (list_set l i v) 0 = nth j l 0.
Proof.
  induction l as [|x rest IH]; intros [|i] [|j] v Hij; cbn;
    try reflexivity; try congruence.
  apply IH. congruence.
Qed.

Lemma list_set_back (l : list Z) :
  forall i v, list_set (list_set l i v) i (nth i l 0) = l.
Proof.
  induction l as [|x rest IH]; intros [|i] v; cbn; try reflexivity.
  rewrite IH. reflexivity.
Qed.

Lemma protect_step (m : Machine) (val : Z) :
  powered m = true -> running (panel m) = false ->
  tbl (p_tab m) (page_of_PC m) = MEM_RW ->
  protect_clicked_altair FP_SW_UP val m =
    set_mem_wp 1 (set_page_of_PC MEM_WPROT m).
Proof.
  intros Hp Hr Hrw. unfold protect_clicked_altair, ifc.
  rewrite Hp, Hr, Z.eqb_refl, Hrw, Z.eqb_refl. reflexivity.
Qed.

Lemma unprotect_step (m : Machine) (val : Z) :
  FP_SW_UP <> FP_SW_DOWN ->
  powered m = true -> running (panel m) = false ->
  tbl (p_tab m) (page_of_PC m) = MEM_WPROT ->
  protect_clicked_altair FP_SW_DOWN val m =
    set_mem_wp 0 (set_page_of_PC MEM_RW m).
Proof.
  intros Hsw Hp Hr Hwp. unfold protect_clicked_altair, ifc.
  assert (Hdu : (FP_SW_DOWN =? FP_SW_UP) = false)
    by (apply Z.eqb_neq; congruence).
  rewrite Hp, Hr, Hdu, Z.eqb_refl, Hwp, Z.eqb_refl. reflexivity.
Qed.

Lemma protect_idle (m : Machine) (val : Z) :
  MEM_RW <> MEM_WPROT ->
  tbl (p_tab m) (page_of_PC m) = MEM_WPROT ->
  protect_clicked_altair FP_SW_UP val m = m.
Proof.
  intros Hattr Hwp. unfold protect_clicked_altair, ifc.
  assert (Hwr : (MEM_WPROT =? MEM_RW) = false)
    by (apply Z.eqb_neq; congruence).
  rewrite Z.eqb_refl, Hwp, Hwr.
  destruct (powered m), (running (panel m)); reflexivity.
Qed.

(** The page of PC after [p_tab[PC >> 8] = attr; mem_wp = w;]. *)
Lemma set_page_fields (m : Machine) (attr w : Z) :
  let m1 := set_mem_wp w (set_page_of_PC attr m) in
  p_tab m1 = list_set (p_tab m) (Z.to_nat (page_of_PC m)) attr /\
  page_of_PC m1 = page_of_PC m /\ mem_wp m1 = w /\
  powered m1 = powered m /\ running (panel m1) = running (panel m).
Proof. repeat split. Qed.

(** X12: PROTECT on the Altair turns the page of PC from MEM_RW into
    MEM_WPROT and the PROTECT light on, and touches no other page; a second
    PROTECT changes nothing; UNPROTECT puts the page table back exactly as
    it was and turns the light off. *)
Theorem protect_unprotect_round_trip (m : Machine) (val : Z) :
  powered m = true ->
  running (panel m) = false ->
  FP_SW_UP <> FP_SW_DOWN ->
  MEM_RW <> MEM_WPROT ->
  (Z.to_nat (page_of_PC m) < List.length (p_tab m))%nat ->
  tbl (p_tab m) (page_of_PC m) = MEM_RW ->
  let m1 := protect_clicked_altair FP_SW_UP val m in
  tbl (p_tab m1) (page_of_PC m) = MEM_WPROT /\
  mem_wp m1 = 1 /\
  (forall j, j <> Z.to_nat (page_of_PC m) ->
     nth j (p_tab m1) 0 = nth j (p_tab m) 0) /\
  List.length (p_tab m1) = List.length (p_tab m) /\
  protect_clicked_altair FP_SW_UP val m1 = m1 /\
  protect_clicked_altair FP_SW_DOWN val m1 = set_mem_wp 0 m.
Proof.
  intros Hp Hr Hsw Hattr Hlen Hrw m1.
  assert (H1 : m1 = set_mem_wp 1 (set_page_of_PC MEM_WPROT m))
    by (apply protect_step; assumption).
  destruct (set_page_fields m MEM_WPROT 1) as (Htab & Hpc & Hwp & Hpw & Hrun).
  rewrite <- H1 in Htab, Hpc, Hwp, Hpw, Hrun.
  assert (Hpage : tbl (p_tab m1) (page_of_PC m) = MEM_WPROT).
  { rewrite Htab. unfold tbl. apply list_set_same. exact Hlen. }
  split; [exact Hpage|].
  split; [exact Hwp|].
  split.
  { intros j Hj. rewrite Htab. apply list_set_other.
    intros Heq. apply Hj. symmetry. exact Heq. }
  split; [rewrite Htab; apply list_set_length|].
  split; [apply protect_idle; [exact Hattr | rewrite Hpc; exact Hpage]|].
  rewrite unprotect_step;
    [|exact Hsw | rewrite Hpw; exact Hp | rewrite Hrun; exact Hr
     | rewrite Hpc; exact Hpage].
  unfold set_page_of_PC. rewrite Hpc, Htab.
  unfold tbl in Hrw. rewrite <- Hrw, list_set_back.
  rewrite H1. destruct m. reflexivity.
Qed.

(** X13: the PROTECT/UNPROTECT callback never changes a page that is ROM:
    with MEM_RO in the page table at PC neither position changes anything. *)
Theorem protect_leaves_rom (m : Machine) (state val : Z) :
  MEM_RO <> MEM_RW ->
  MEM_RO <> MEM_WPROT ->
  tbl (p_tab m) (page_of_PC m) = MEM_RO ->
  protect_clicked_altair state val m = m.
Proof.
  intros Hrw Hwp Hro. apply Z.eqb_neq in Hrw, Hwp.
  unfold protect_clicked_altair, ifc.
  destruct (powered m); [|reflexivity].
  destruct (running (panel m)); cbn [negb]; [reflexivity|].
  destruct (state =? FP_SW_UP); [rewrite Hro, Hrw; reflexivity|].
  destruct (state =? FP_SW_DOWN); [rewrite Hro, Hwp|]; reflexivity.
Qed.

(** ** RESET on the Cromemco *)

Lemma to_BYTE_bits (x n : Z) :
  0 <= n -> Z.testbit (to_BYTE x) n = (n <? 8) && Z.testbit x n.
Proof.
  intros Hn. unfold to_BYTE. change 256 with (2 ^ 8).
  destruct (Z.ltb_spec n 8) as [Hlt|Hge].
  - rewrite Z.mod_pow2_bits_low by lia. reflexivity.
  - rewrite Z.mod_pow2_bits_high by lia. reflexivity.
Qed.

Lemma byte_high_bits (c n : Z) :
  0 <= c < 256 -> 8 <= n -> Z.testbit c n = false.
Proof.
  intros Hc Hn. rewrite <- (Z.mod_small c 256) by exact Hc.
  change 256 with (2 ^ 8). apply Z.mod_pow2_bits_high. lia.
Qed.

(** Setting and clearing a bit of the BYTE cpu_state. *)
Lemma reset_bit_round_trip (c r : Z) :
  0 <= c < 256 -> 0 <= r < 256 -> Z.land c r = 0 ->
  Z.land (to_BYTE (Z.lor c r)) r = r /\
  to_BYTE (Z.land (to_BYTE (Z.lor c r)) (Z.lnot r)) = c.
Proof.
  intros Hc Hr Hcr.
  assert (Hbit : forall n, Z.testbit c n && Z.testbit r n = false).
  { intros n. rewrite <- Z.land_spec, Hcr. apply Z.bits_0. }
  split; apply Z.bits_inj'; intros n Hn.
  - rewrite Z.land_spec, to_BYTE_bits, Z.lor_spec by exact Hn.
    destruct (Z.ltb_spec n 8) as [Hlt|Hge].
    + destruct (Z.testbit c n), (Z.testbit r n); reflexivity.
    + rewrite (byte_high_bits r n Hr Hge). reflexivity.
  - rewrite to_BYTE_bits, Z.land_spec, to_BYTE_bits, Z.lor_spec,
      Z.lnot_spec by exact Hn.
    specialize (Hbit n).
    destruct (Z.ltb_spec n 8) as [Hlt|Hge].
    + destruct (Z.testbit c n), (Z.testbit r n); cbn in *;
        try reflexivity; discriminate.
    + rewrite (byte_high_bits c n Hc Hge). reflexivity.
Qed.

Lemma reset_release_step (x : Machine) (val : Z) :
  powered x = true -> FP_SW_CENTER <> FP_SW_UP -> reset (panel x) <> 0 ->
  let x2 := reset_clicked_cromemco FP_SW_CENTER val x in
  reset (panel x2) = 0 /\
  cpu_state (cpu_of x2)
    = to_BYTE (Z.land (cpu_state (cpu_of x)) (Z.lnot RESET)) /\
  IFF (cpu_of x2) = 0 /\
  PC (cpu_of x2) =
    (if HAS_BANKED_ROM then to_WORD (tbl (boot_switch_tab x) (M_flag x))
     else 0) /\
  cpu_bus (cpu_of x2) = Z.lor (Z.lor CPU_WO CPU_M1) CPU_MEMR /\
  memory x2 = memory x.
Proof.
  intros Hp Hcu Hres x2. subst x2.
  apply Z.eqb_neq in Hcu, Hres.
  unfold reset_clicked_cromemco, ifc.
  rewrite Hp, Hcu, Z.eqb_refl, Hres. cbn [negb].
  destruct (reset_cpu_for_panel (core (panel x))) as (Hpc & Hiff & Hcs & _).
  unfold when, cpu_of.
  destruct HAS_BANKED_ROM;
    cbn -[to_BYTE to_WORD tbl Z.lnot Z.land Z.lor reset_cpu];
    rewrite ?Hcs, ?Hiff, ?Hpc; repeat split.
Qed.

(** X14: RESET on the Cromemco.  Holding the switch up sets the RESET bit of
    cpu_state, clears IFF and marks the reset as pending; releasing it to
    the centre then resets the CPU (PC is 0, or the boot address of a
    banked-ROM build), takes the RESET bit out again so that cpu_state is
    what it was, and clears the pending mark.  A release with no reset
    pending changes nothing. *)
Theorem reset_hold_and_release (m : Machine) (val : Z) :
  powered m = true ->
  FP_SW_CENTER <> FP_SW_UP ->
  0 <= cpu_state (cpu_of m) < 256 ->
  0 <= RESET < 256 ->
  Z.land (cpu_state (cpu_of m)) RESET = 0 ->
  let m1 := reset_clicked_cromemco FP_SW_UP val m in
  let m2 := reset_clicked_cromemco FP_SW_CENTER val m1 in
  (reset (panel m1) = 1 /\
   Z.land (cpu_state (cpu_of m1)) RESET = RESET /\
   IFF (cpu_of m1) = 0 /\ PC (cpu_of m1) = PC (cpu_of m)) /\
  (reset (panel m2) = 0 /\
   cpu_state (cpu_of m2) = cpu_state (cpu_of m) /\
   IFF (cpu_of m2) = 0 /\
   PC (cpu_of m2) =
     (if HAS_BANKED_ROM then to_WORD (tbl (boot_switch_tab m) (M_flag m))
      else 0) /\
   cpu_bus (cpu_of m2) = Z.lor (Z.lor CPU_WO CPU_M1) CPU_MEMR /\
   memory m2 = memory m) /\
  (reset (panel m) = 0 ->
     reset_clicked_cromemco FP_SW_CENTER val m = m).
Proof.
  intros Hp Hcu Hc Hr Hcr m1 m2.
  assert (Hcu' : (FP_SW_CENTER =? FP_SW_UP) = false)
    by (apply Z.eqb_neq; assumption).
  destruct (reset_bit_round_trip _ _ Hc Hr Hcr) as [Hset Hclear].
  assert (H1 : m1 = hold_reset 1 m).
  { subst m1. unfold reset_clicked_cromemco, ifc.
    rewrite Hp, Z.eqb_refl. reflexivity. }
  assert (Hp1 : powered m1 = true) by (rewrite H1; exact Hp).
  assert (Hres1 : reset (panel m1) = 1) by (rewrite H1; reflexivity).
  assert (Hst1 : cpu_state (cpu_of m1)
                 = to_BYTE (Z.lor (cpu_state (cpu_of m)) RESET))
    by (rewrite H1; reflexivity).
  split.
  { split; [exact Hres1|]. split; [rewrite Hst1; exact Hset|].
    rewrite H1. split; reflexivity. }
  split.
  { destruct (reset_release_step m1 val Hp1 Hcu)
      as (Hr2 & Hs2 & Hi2 & Hpc2 & Hb2 & Hm2).
    { rewrite Hres1. discriminate. }
    fold m2 in Hr2, Hs2, Hi2, Hpc2, Hb2, Hm2.
    rewrite Hst1, Hclear in Hs2.
    rewrite Hr2, Hs2, Hi2, Hpc2, Hb2, Hm2, H1. repeat split. }
  intros Hres. unfold reset_clicked_cromemco, ifc.
  rewrite Hp, Hcu', Z.eqb_refl, Hres. reflexivity.
Qed.

(** ** EXAMINE NEXT, repeatedly *)

Lemma examine_next_step (m : Machine) (val : Z) :
  FP_SW_UP <> FP_SW_DOWN ->
  powered m = true -> running_or_halted m = false ->
  let a := to_WORD (fp_led_address (panel m) + 1) in
  (let m1 := examine_clicked_cromemco FP_SW_DOWN val m in
   PC (cpu_of m1) = a /\ fp_led_address (panel m1) = a /\
   memory m1 = memory m /\
   powered m1 = true /\ running_or_halted m1 = false) /\
  (let m1 := examine_clicked_altair FP_SW_DOWN val m in
   PC (cpu_of m1) = a /\ fp_led_address (panel m1) = a /\
   memory m1 = memory m /\
   powered m1 = true /\ running_or_halted m1 = false).
Proof.
  intros Hsw Hp Hr a.
  assert (Hdu : (FP_SW_DOWN =? FP_SW_UP) = false)
    by (apply Z.eqb_neq; congruence).
  unfold examine_clicked_cromemco, examine_clicked_altair, ifc.
  rewrite Hp, Hr, Hdu, Z.eqb_refl. cbn [negb].
  subst a. unfold powered, running_or_halted, cpu_of in *.
  split; cbn -[to_WORD Z.land]; repeat split; assumption.
Qed.

Lemma examine_first_step (m : Machine) (val : Z) :
  powered m = true -> running_or_halted m = false ->
  (let m1 := examine_clicked_cromemco FP_SW_UP val m in
   PC (cpu_of m1) = address_switch m /\
   fp_led_address (panel m1) = address_switch m /\
   memory m1 = memory m /\
   powered m1 = true /\ running_or_halted m1 = false) /\
  (let m1 := examine_clicked_altair FP_SW_UP val m in
   PC (cpu_of m1) = address_switch m /\
   fp_led_address (panel m1) = address_switch m /\
   memory m1 = memory m /\
   powered m1 = true /\ running_or_halted m1 = false).
Proof.
  intros Hp Hr.
  unfold examine_clicked_cromemco, examine_clicked_altair, ifc.
  rewrite Hp, Hr, Z.eqb_refl. cbn [negb].
  unfold powered, running_or_halted, cpu_of in *.
  split; cbn -[to_WORD Z.land]; repeat split; assumption.
Qed.

(** X15: EXAMINE followed by n times EXAMINE NEXT leaves PC and the address
    lights at the switch address plus n, modulo 2^16 (after FFFFh comes
    0000h), and does not write the memory; on both machines. *)
Theorem examine_next_counts (m : Machine) (val : Z) (n : nat) :
  powered m = true ->
  running_or_halted m = false ->
  FP_SW_UP <> FP_SW_DOWN ->
  0 <= address_switch m < 65536 ->
  (let mn := Nat.iter n (examine_clicked_cromemco FP_SW_DOWN val)
               (examine_clicked_cromemco FP_SW_UP val m) in
   PC (cpu_of mn) = to_WORD (address_switch m + Z.of_nat n) /\
   fp_led_address (panel mn) = PC (cpu_of mn) /\
   memory mn = memory m) /\
  (let mn := Nat.iter n (examine_clicked_altair FP_SW_DOWN val)
               (examine_clicked_altair FP_SW_UP val m) in
   PC (cpu_of mn) = to_WORD (address_switch m + Z.of_nat n) /\
   fp_led_address (panel mn) = PC (cpu_of mn) /\
   memory mn = memory m).
Proof.
  intros Hp Hr Hsw Ha.
  assert (Hstep : forall a k, to_WORD (to_WORD (a + Z.of_nat k) + 1)
                              = to_WORD (a + Z.of_nat (S k))).
  { intros a k. unfold to_WORD. rewrite Z.add_mod_idemp_l by lia.
    f_equal. lia. }
  split.
  - assert (Hinv : forall k,
      let mk := Nat.iter k (examine_clicked_cromemco FP_SW_DOWN val)
                  (examine_clicked_cromemco FP_SW_UP val m) in
      (PC (cpu_of mk) = to_WORD (address_switch m + Z.of_nat k) /\
       fp_led_address (panel mk) = PC (cpu_of mk) /\
       memory mk = memory m) /\
      powered mk = true /\ running_or_halted mk = false).
    { induction k as [|k IH].
      - cbv zeta. cbn [Nat.iter nat_rect]. change (Z.of_nat 0) with 0.
        destruct (examine_first_step m val Hp Hr) as (Hb & _).
        destruct Hb as (Hpc0 & Hled0 & Hmem0 & Hp0 & Hr0).
        rewrite Z.add_0_r, (to_WORD_small _ Ha).
        repeat split; try assumption; congruence.
      - cbv zeta in *. rewrite !Nat.iter_succ. destruct IH as ((Hpc & Hled & Hmem) & Hpk & Hrk).
        destruct (examine_next_step _ val Hsw Hpk Hrk)
          as ((Hpc1 & Hled1 & Hmem1 & Hp1 & Hr1) & _).
        rewrite Hled, Hpc, Hstep in Hpc1, Hled1.
        repeat split; try assumption; congruence. }
    apply Hinv.
  - assert (Hinv : forall k,
      let mk := Nat.iter k (examine_clicked_altair FP_SW_DOWN val)
                  (examine_clicked_altair FP_SW_UP val m) in
      (PC (cpu_of mk) = to_WORD (address_switch m + Z.of_nat k) /\
       fp_led_address (panel mk) = PC (cpu_of mk) /\
       memory mk = memory m) /\
      powered mk = true /\ running_or_halted mk = false).
    { induction k as [|k IH].
      - cbv zeta. cbn [Nat.iter nat_rect]. change (Z.of_nat 0) with 0.
        destruct (examine_first_step m val Hp Hr) as (_ & Hb).
        destruct Hb as (Hpc0 & Hled0 & Hmem0 & Hp0 & Hr0).
        rewrite Z.add_0_r, (to_WORD_small _ Ha).
        repeat split; try assumption; congruence.
      - cbv zeta in *. rewrite !Nat.iter_succ. destruct IH as ((Hpc & Hled & Hmem) & Hpk & Hrk).
        destruct (examine_next_step _ val Hsw Hpk Hrk)
          as (_ & (Hpc1 & Hled1 & Hmem1 & Hp1 & Hr1)).
        rewrite Hled, Hpc, Hstep in Hpc1, Hled1.
        repeat split; try assumption; congruence. }
    apply Hinv.
Qed.

(** ** The fill and move commands of the debugger *)

Lemma exatoi_nonneg (str : string) (v : Z) : exatoi str = Some v -> 0 <= v.
Proof.
  rewrite exatoi_value. pose proof (hex_value_bound str) as Hb.
  destruct (hex_value (xdigits_prefix str) <=? INT_MAX);
    intros Hv; inversion Hv; subst; lia.
Qed.

Lemma to_BYTE_small (d : Z) : 0 <= d < 256 -> to_BYTE d = d.
Proof. intros Hd. unfold to_BYTE. apply Z.mod_small. exact Hd. Qed.

Lemma to_BYTE_range (d : Z) : 0 <= to_BYTE d < 256.
Proof. unfold to_BYTE. apply Z.mod_pos_bound. lia. Qed.

Ltac word_arith :=
  unfold to_WORD in *;
  repeat match goal with h : Z -> Z |- _ => clear h end;
  Z.div_mod_to_equations; lia.

(** The memory after [n] rounds of the fill loop. *)
Lemma fill_loop_read :
  stores_writes -> keeps_others ->
  forall (n : nat) (a val : Z) (mem : Mem) (b : Z),
    0 <= a < 65536 -> 0 <= val < 256 -> 0 <= b < 65536 ->
    Z.of_nat n <= 65536 ->
    mem_read (fill_loop n a val mem) b =
      if to_WORD (b - a) <? Z.of_nat n then val else mem_read mem b.
Proof.
  intros Hsw Hko n.
  induction n as [|n IH]; intros a val mem b Ha Hv Hb Hn.
  - cbn [fill_loop]. pose proof (to_WORD_range (b - a)) as Hr.
    destruct (Z.ltb_spec (to_WORD (b - a)) (Z.of_nat 0)) as [Hlt|_];
      [lia|reflexivity].
  - cbn [fill_loop].
    rewrite IH; [|apply to_WORD_range|exact Hv|exact Hb|lia].
    unfold write_byte. rewrite (to_WORD_small a Ha), (to_BYTE_small val Hv).
    destruct (Z.eq_dec a b) as [->|Hne].
    + rewrite (Hsw mem b val Hb Hv).
      replace (to_WORD (b - b)) with 0 by word_arith.
      destruct (Z.ltb_spec 0 (Z.of_nat (S n))) as [_|Hge]; [|lia].
      destruct (to_WORD (b - to_WORD (b + 1)) <? Z.of_nat n); reflexivity.
    + rewrite (Hko mem a val b Hne).
      replace (to_WORD (b - to_WORD (a + 1))) with (to_WORD (b - a) - 1)
        by word_arith.
      destruct (Z.ltb_spec (to_WORD (b - a) - 1) (Z.of_nat n)),
               (Z.ltb_spec (to_WORD (b - a)) (Z.of_nat (S n)));
        try reflexivity; lia.
Qed.

(** More rounds than the memory has bytes fill all of it. *)
Lemma fill_loop_all :
  stores_writes -> keeps_others ->
  forall (n : nat) (a val : Z) (mem : Mem) (b : Z),
    0 <= a < 65536 -> 0 <= val < 256 -> 0 <= b < 65536 ->
    65536 <= Z.of_nat n ->
    mem_read (fill_loop n a val mem) b = val.
Proof.
  intros Hsw Hko n.
  induction n as [|n IH]; intros a val mem b Ha Hv Hb Hn; [lia|].
  cbn [fill_loop].
  destruct (Z.eq_dec (Z.of_nat n) 65535) as [Heq|Hne].
  - rewrite fill_loop_read;
      [|exact Hsw|exact Hko|apply to_WORD_range|exact Hv|exact Hb|lia].
    unfold write_byte. rewrite (to_WORD_small a Ha), (to_BYTE_small val Hv).
    destruct (Z.ltb_spec (to_WORD (b - to_WORD (a + 1))) (Z.of_nat n))
      as [_|Hge]; [reflexivity|].
    assert (a = b) as -> by word_arith.
    apply Hsw; assumption.
  - apply IH; [apply to_WORD_range|exact Hv|exact Hb|lia].
Qed.

(** X16.  On a memory that is RAM, [f address,count,value] writes the low
    byte of the value to the [count] addresses from [address] on, counted
    modulo 65536, leaves the other bytes as they were and prints nothing. *)
Theorem do_fill_fills (s s1 s2 : string) (a i val : Z) (ice : Ice) :
  stores_writes -> keeps_others ->
  exatoi (skip_spaces s) = Some a ->
  after_comma (skip_spaces s) = Some s1 -> exatoi s1 = Some i ->
  after_comma s1 = Some s2 -> exatoi s2 = Some val ->
  exists ice',
    do_fill s ice = Some ice' /\
    ice_out ice' = ice_out ice /\
    forall b, 0 <= b < 65536 ->
      mem_read (ice_mem ice') b =
        if to_WORD (b - a) <? i then to_BYTE val
        else mem_read (ice_mem ice) b.
Proof.
  intros Hsw Hko Ha Hs1 Hi Hs2 Hv.
  unfold do_fill. cbv zeta. rewrite Ha, Hs1, Hi, Hs2, Hv.
  eexists. split; [reflexivity|]. split; [reflexivity|].
  intros b Hb. cbn [on_ice_mem set_ice_mem ice_mem].
  pose proof (exatoi_nonneg _ _ Hi) as Hi0.
  pose proof (to_WORD_range a) as Hwa.
  pose proof (to_BYTE_range val) as Hbv.
  pose proof (to_WORD_range (b - a)) as Hr.
  replace (to_WORD (b - a)) with (to_WORD (b - to_WORD a)) by word_arith.
  pose proof (to_WORD_range (b - to_WORD a)) as Hr'.
  destruct (Z_le_gt_dec (Z.of_nat (Z.to_nat i)) 65536) as [Hle|Hgt].
  - rewrite fill_loop_read by assumption.
    rewrite Z2Nat.id by exact Hi0. reflexivity.
  - rewrite fill_loop_all by (try assumption; lia).
    rewrite Z2Nat.id in Hgt by exact Hi0.
    destruct (Z.ltb_spec (to_WORD (b - to_WORD a)) i); [reflexivity|lia].
Qed.

Lemma commas_skip_spaces (s : string) :
  commas (skip_spaces s) = commas s.
Proof.
  induction s as [|c rest IH]; [reflexivity|].
  cbn [skip_spaces]. destruct (isspace c) eqn:Hsp; [|reflexivity].
  rewrite IH. cbn [commas].
  destruct (char_code c =? 44) eqn:Hc; [|reflexivity].
  apply Z.eqb_eq in Hc. unfold isspace in Hsp. rewrite Hc in Hsp.
  discriminate Hsp.
Qed.

Lemma after_comma_commas (s : string) :
  match after_comma s with
  | None => commas s = O
  | Some rest => commas s = S (commas rest)
  end.
Proof.
  unfold after_comma.
  induction s as [|c rest IH]; [reflexivity|].
  cbn [to_comma commas]. destruct (char_code c =? 44) eqn:Hc.
  - reflexivity.
  - exact IH.
Qed.

(** X17.  A fill or move command with fewer than two commas in its line
    leaves the memory as it is and prints one line. *)
Theorem fill_move_need_two_commas (s : string) (ice ice' : Ice) :
  (commas s < 2)%nat ->
  do_fill s ice = Some ice' \/ do_move s ice = Some ice' ->
  ice_mem ice' = ice_mem ice /\
  exists line, ice_out ice' = Printed line :: ice_out ice.
Proof.
  intros Hc Hrun.
  rewrite <- commas_skip_spaces in Hc.
  unfold do_fill, do_move in Hrun. cbv zeta in Hrun.
  destruct (exatoi (skip_spaces s)) as [a|];
    [|destruct Hrun as [H|H]; discriminate H].
  pose proof (after_comma_commas (skip_spaces s)) as H1.
  destruct (after_comma (skip_spaces s)) as [s1|].
  - destruct (exatoi s1) as [i|];
      [|destruct Hrun as [H|H]; discriminate H].
    pose proof (after_comma_commas s1) as H2.
    destruct (after_comma s1) as [s2|]; [lia|].
    destruct Hrun as [H|H]; inversion H; subst; cbn;
      (split; [reflexivity|eexists; reflexivity]).
  - destruct Hrun as [H|H]; inversion H; subst; cbn;
      (split; [reflexivity|eexists; reflexivity]).
Qed.

(** One more round of the move loop, seen from its end. *)
Lemma move_loop_snoc (n : nat) :
  forall (a1 a2 : Z) (mem : Mem),
    move_loop (S n) a1 a2 mem =
      write_byte (a2 + Z.of_nat n)
        (read_byte (move_loop n a1 a2 mem) (a1 + Z.of_nat n))
        (move_loop n a1 a2 mem).
Proof.
  induction n as [|n IH]; intros a1 a2 mem.
  - cbn [move_loop]. unfold write_byte, read_byte.
    change (Z.of_nat 0) with 0. rewrite !Z.add_0_r. reflexivity.
  - change (move_loop (S (S n)) a1 a2 mem)
      with (move_loop (S n) (to_WORD (a1 + 1)) (to_WORD (a2 + 1))
              (write_byte a2 (read_byte mem a1) mem)).
    rewrite IH.
    change (move_loop n (to_WORD (a1 + 1)) (to_WORD (a2 + 1))
              (write_byte a2 (read_byte mem a1) mem))
      with (move_loop (S n) a1 a2 mem).
    unfold write_byte, read_byte.
    replace (to_WORD (to_WORD (a2 + 1) + Z.of_nat n))
      with (to_WORD (a2 + Z.of_nat (S n))) by word_arith.
    replace (to_WORD (to_WORD (a1 + 1) + Z.of_nat n))
      with (to_WORD (a1 + Z.of_nat (S n))) by word_arith.
    reflexivity.
Qed.

(** The memory after [n] rounds of the move loop, for at most 65536
    rounds: with the target [d] bytes above the source, byte [k] of the
    target is byte [k mod d] of the source. *)
Lemma move_loop_read :
  stores_writes -> keeps_others -> reads_bytes ->
  forall (a1 a2 : Z) (mem : Mem) (n : nat) (b : Z),
    Z.of_nat n <= 65536 -> 0 <= b < 65536 ->
    mem_read (move_loop n a1 a2 mem) b =
      if to_WORD (b - a2) <? Z.of_nat n
      then mem_read mem
             (to_WORD (a1 + (if to_WORD (a2 - a1) =? 0 then to_WORD (b - a2)
                             else to_WORD (b - a2) mod to_WORD (a2 - a1))))
      else mem_read mem b.
Proof.
  intros Hsw Hko Hrb a1 a2 mem n.
  induction n as [|n IH]; intros b Hn Hb.
  - cbn [move_loop]. pose proof (to_WORD_range (b - a2)) as Hr.
    destruct (Z.ltb_spec (to_WORD (b - a2)) (Z.of_nat 0)); [lia|reflexivity].
  - rewrite move_loop_snoc. unfold write_byte, read_byte.
    rewrite (to_BYTE_small _ (Hrb _ _)).
    pose proof (to_WORD_range (a2 + Z.of_nat n)) as Hw.
    pose proof (to_WORD_range (a1 + Z.of_nat n)) as Hs.
    pose proof (to_WORD_range (a2 - a1)) as Hd.
    pose proof (to_WORD_range (b - a2)) as Hk.
    destruct (Z.eq_dec (to_WORD (a2 + Z.of_nat n)) b) as [Heq|Hne].
    + rewrite <- Heq at 1. rewrite (Hsw _ _ _ Hw (Hrb _ _)).
      assert (Hkb : to_WORD (b - a2) = Z.of_nat n) by word_arith.
      rewrite Hkb.
      destruct (Z.ltb_spec (Z.of_nat n) (Z.of_nat (S n))) as [_|Hge]; [|lia].
      rewrite IH by (try exact Hs; lia).
      replace (to_WORD (to_WORD (a1 + Z.of_nat n) - a2))
        with (to_WORD (Z.of_nat n - to_WORD (a2 - a1))) by word_arith.
      destruct (Z.eqb_spec (to_WORD (a2 - a1)) 0) as [Hz|Hnz].
      * rewrite Hz, Z.sub_0_r.
        rewrite (to_WORD_small (Z.of_nat n)) by lia.
        rewrite Z.ltb_irrefl. reflexivity.
      * destruct (Z_le_gt_dec (to_WORD (a2 - a1)) (Z.of_nat n)) as [Hle|Hgt].
        -- rewrite (to_WORD_small (Z.of_nat n - to_WORD (a2 - a1))) by lia.
           destruct (Z.ltb_spec (Z.of_nat n - to_WORD (a2 - a1)) (Z.of_nat n))
             as [_|Hge]; [|lia].
           replace (Z.of_nat n - to_WORD (a2 - a1))
             with (Z.of_nat n + (-1) * to_WORD (a2 - a1)) by lia.
           rewrite Z.mod_add by exact Hnz. reflexivity.
        -- replace (to_WORD (Z.of_nat n - to_WORD (a2 - a1)))
             with (Z.of_nat n - to_WORD (a2 - a1) + 65536) by word_arith.
           destruct (Z.ltb_spec (Z.of_nat n - to_WORD (a2 - a1) + 65536)
                       (Z.of_nat n)) as [Hlt|_]; [lia|].
           rewrite (Z.mod_small (Z.of_nat n)) by lia. reflexivity.
    + rewrite (Hko _ _ _ _ Hne). rewrite IH by (try exact Hb; lia).
      assert (Hkb : to_WORD (b - a2) <> Z.of_nat n) by word_arith.
      destruct (Z.ltb_spec (to_WORD (b - a2)) (Z.of_nat n)),
               (Z.ltb_spec (to_WORD (b - a2)) (Z.of_nat (S n)));
        try reflexivity; lia.
Qed.

Lemma do_move_runs (s s1 s2 : string) (a1 a2 count : Z) (ice : Ice) :
  exatoi (skip_spaces s) = Some a1 ->
  after_comma (skip_spaces s) = Some s1 -> exatoi s1 = Some a2 ->
  after_comma s1 = Some s2 -> exatoi s2 = Some count ->
  do_move s ice =
    Some (on_ice_mem (move_loop (Z.to_nat count) (to_WORD a1) (to_WORD a2))
            ice).
Proof.
  intros Ha1 Hs1 Ha2 Hs2 Hc.
  unfold do_move. cbv zeta. rewrite Ha1, Hs1, Ha2, Hs2, Hc. reflexivity.
Qed.


(** X19.  On a memory that is RAM, [v from,to,count] with a target that
    starts [d] bytes above the source, [0 < d < count], repeats the first
    [d] bytes of the source through the target: byte [k] of the target
    becomes byte [k mod d] of the source as it was before the command. *)
Theorem do_move_replicates (s s1 s2 : string) (a1 a2 count : Z) (ice : Ice) :
  stores_writes -> keeps_others -> reads_bytes ->
  exatoi (skip_spaces s) = Some a1 ->
  after_comma (skip_spaces s) = Some s1 -> exatoi s1 = Some a2 ->
  after_comma s1 = Some s2 -> exatoi s2 = Some count ->
  count <= 65536 ->
  0 < to_WORD (a2 - a1) < count ->
  exists ice',
    do_move s ice = Some ice' /\
    forall k, 0 <= k < count ->
      mem_read (ice_mem ice') (to_WORD (a2 + k)) =
        mem_read (ice_mem ice) (to_WORD (a1 + k mod to_WORD (a2 - a1))).
Proof.
  intros Hsw Hko Hrb Ha1 Hs1 Ha2 Hs2 Hc Hmax Hd.
  rewrite (do_move_runs s s1 s2 a1 a2 count ice Ha1 Hs1 Ha2 Hs2 Hc).
  eexists. split; [reflexivity|].
  intros k Hk. cbn [on_ice_mem set_ice_mem ice_mem].
  pose proof (exatoi_nonneg _ _ Hc) as Hc0.
  rewrite (move_loop_read Hsw Hko Hrb)
    by (try apply to_WORD_range; lia).
  rewrite Z2Nat.id by exact Hc0.
  replace (to_WORD (to_WORD (a2 + k) - to_WORD a2)) with k by word_arith.
  replace (to_WORD (to_WORD a2 - to_WORD a1)) with (to_WORD (a2 - a1))
    by word_arith.
  destruct (Z.ltb_spec k count) as [_|Hge]; [|lia].
  destruct (Z.eqb_spec (to_WORD (a2 - a1)) 0) as [Hz|_]; [lia|].
  pose proof (Z.mod_pos_bound k (to_WORD (a2 - a1)) ltac:(lia)) as Hm.
  set (r := k mod to_WORD (a2 - a1)) in *. clearbody r.
  f_equal. word_arith.
Qed.

(** ** Software breakpoints *)

Lemma list_set_nth {X : Type} (l : list X) (d : X) :
  forall i v, (i < List.length l)%nat -> nth i (list_set l i v) d = v.
Proof.
  induction l as [|x rest IH]; intros [|i] v Hi; cbn in *; try lia;
    [reflexivity|apply IH; lia].
Qed.

Lemma decimal_loop_stop (num : Z) (rest : string) :
  isdigit (head_char rest) = false -> decimal_loop num rest = num.
Proof.
  destruct rest as [|c rest]; [reflexivity|].
  cbn [head_char decimal_loop]. intros ->. reflexivity.
Qed.

(** The command line that names slot [i]. *)
Lemma slot_digit_read (i : Z) (rest : string) :
  0 <= i <= 9 -> isdigit (head_char rest) = false ->
  (char_code (slot_digit i) =? 10) = false /\
  isxdigit (slot_digit i) = true /\
  atoi (String (slot_digit i) rest) = Some i.
Proof.
  intros Hi Hrest.
  assert (Hcases : i = 0 \/ i = 1 \/ i = 2 \/ i = 3 \/ i = 4 \/ i = 5 \/
                   i = 6 \/ i = 7 \/ i = 8 \/ i = 9) by lia.
  repeat (destruct Hcases as [->|Hcases]); try subst i;
    (split; [reflexivity|]; split; [reflexivity|];
     unfold atoi; cbn -[decimal_loop int_result];
     cbn [decimal_loop]; cbn -[decimal_loop int_result];
     rewrite (decimal_loop_stop _ _ Hrest); reflexivity).
Qed.

(** What setting a breakpoint in a free slot does. *)
Lemma break_slot_set (i : Z) (s : string) (ice ice1 : Ice) :
  char_code (head_char (skip_spaces s)) <> 99 ->
  sb_pass (soft_at ice i) = 0 ->
  break_slot i s ice = Some ice1 ->
  exists a pass,
    exatoi (skip_spaces s) = Some a /\
    ice_mem ice1 = write_byte (as_sb_addr a) 118 (ice_mem ice) /\
    soft ice1 =
      list_set (soft ice) (Z.to_nat i)
        (mkSoftbreak (as_sb_addr a)
           (as_sb_oldopc (read_byte (ice_mem ice) (as_sb_addr a))) pass 0) /\
    sb_next ice1 = sb_next ice /\ ice_cpu ice1 = ice_cpu ice /\
    ice_in ice1 = ice_in ice /\ ice_out ice1 = ice_out ice.
Proof.
  intros Hc Hfree. unfold break_slot. cbv zeta.
  apply Z.eqb_neq in Hc. rewrite Hc.
  unfold ifc. rewrite Hfree. cbn [Z.eqb negb].
  destruct (exatoi (skip_spaces s)) as [a|]; [|discriminate].
  destruct (if char_code (head_char (to_punct (skip_spaces s))) =? 44
            then exatoi (tail (to_punct (skip_spaces s))) else Some 1)
    as [pass|]; [|discriminate].
  intros Hrun. inversion Hrun; subst ice1. exists a, pass.
  destruct ice; cbn. repeat split; reflexivity.
Qed.

(** What clearing a slot does. *)
Lemma break_slot_clear (i : Z) (ice : Ice) :
  break_slot i " c" ice =
    Some (set_soft (list_set (soft ice) (Z.to_nat i) no_break)
            (put_back i ice)).
Proof. destruct ice; reflexivity. Qed.

Lemma do_break_clear (size i : Z) (ice : Ice) :
  SBSIZE = Some size -> 0 <= i <= 9 -> i < size ->
  do_break (String (slot_digit i) " c") ice =
    Some (set_soft (list_set (soft ice) (Z.to_nat i) no_break)
            (put_back i ice)).
Proof.
  intros Hsize Hi Hlt. unfold do_break. rewrite Hsize.
  destruct (slot_digit_read i " c" Hi eq_refl) as (Hnl & Hx & Hatoi).
  cbn [head_char tail]. rewrite Hnl, Hx, Hatoi.
  destruct (Z.leb_spec size i) as [Hge|_]; [lia|].
  apply break_slot_clear.
Qed.

(** X20.  On a memory that is RAM, a breakpoint set in a free slot and then
    cleared by the number of the slot leaves every byte of the memory as it
    was before, and the slot empty. *)
Theorem break_set_clear_round_trip
    (size : Z) (args : string) (ice ice1 : Ice) :
  SBSIZE = Some size -> soft_ok size ice -> sb_next ice <= 9 ->
  stores_writes -> keeps_others -> reads_bytes ->
  keeps_mod 65536 as_sb_addr -> keeps_mod 256 as_sb_oldopc ->
  sb_pass (soft_at ice (sb_next ice)) = 0 ->
  isxdigit (head_char args) = false ->
  char_code (head_char args) <> 10 ->
  char_code (head_char (skip_spaces args)) <> 99 ->
  do_break args ice = Some ice1 ->
  exists ice2,
    do_break (String (slot_digit (sb_next ice)) " c") ice1 = Some ice2 /\
    (forall b, mem_read (ice_mem ice2) b = mem_read (ice_mem ice) b) /\
    soft_at ice2 (sb_next ice) = no_break.
Proof.
  intros Hsize [Hlen Hnext] Hmax Hsw Hko Hrb Haddr Hopc Hfree Hx Hnl Hc Hset.
  set (i := sb_next ice) in *.
  unfold do_break in Hset. rewrite Hsize in Hset.
  apply Z.eqb_neq in Hnl. rewrite Hnl, Hx in Hset. cbv zeta in Hset.
  apply break_slot_set in Hset; [|exact Hc|destruct ice; exact Hfree].
  destruct Hset as (a & pass & Ha & Hmem & Hsoft & _).
  replace (soft (set_sb_next _ ice)) with (soft ice) in Hsoft
    by (destruct ice; reflexivity).
  replace (ice_mem (set_sb_next _ ice)) with (ice_mem ice) in Hmem, Hsoft
    by (destruct ice; reflexivity).
  rewrite (do_break_clear size i ice1 Hsize) by lia.
  eexists. split; [reflexivity|].
  assert (Hin : (Z.to_nat i < List.length (soft ice))%nat) by lia.
  assert (Hslot : soft_at ice1 i =
                  mkSoftbreak (as_sb_addr a)
                    (as_sb_oldopc (read_byte (ice_mem ice) (as_sb_addr a)))
                    pass 0).
  { unfold soft_at. rewrite Hsoft. apply list_set_nth. exact Hin. }
  split.
  - intros b.
    replace (ice_mem (set_soft _ (put_back i ice1)))
      with (write_byte (sb_addr (soft_at ice1 i))
              (sb_oldopc (soft_at ice1 i)) (ice_mem ice1))
      by (destruct ice1; reflexivity).
    rewrite Hslot, Hmem. cbn [sb_addr sb_oldopc].
    unfold write_byte, read_byte.
    set (w := to_WORD (as_sb_addr a)).
    pose proof (to_WORD_range (as_sb_addr a)) as Hw. fold w in Hw.
    assert (Hold : to_BYTE (as_sb_oldopc (mem_read (ice_mem ice) w))
                   = mem_read (ice_mem ice) w).
    { unfold to_BYTE. rewrite (Hopc _). apply Z.mod_small, Hrb. }
    rewrite Hold.
    destruct (Z.eq_dec w b) as [<-|Hne].
    + apply Hsw; [exact Hw|apply Hrb].
    + rewrite (Hko _ _ _ _ Hne). apply Hko. exact Hne.
  - unfold soft_at.
    replace (soft (set_soft _ (put_back i ice1)))
      with (list_set (soft ice1) (Z.to_nat i) no_break)
      by (destruct ice1; reflexivity).
    apply list_set_nth. rewrite Hsoft, list_set_length. exact Hin.
Qed.

(** X21.  Clearing a slot that holds no breakpoint still writes the slot's
    op-code to the slot's address: for a slot that was never set, the byte
    0 to address 0. *)
Theorem clear_unset_break_writes_address_0 (size i : Z) (ice : Ice) :
  SBSIZE = Some size -> stores_writes ->
  0 <= i <= 9 -> i < size -> soft_at ice i = no_break ->
  exists ice',
    do_break (String (slot_digit i) " c") ice = Some ice' /\
    ice_mem ice' = write_byte 0 0 (ice_mem ice) /\
    mem_read (ice_mem ice') 0 = 0.
Proof.
  intros Hsize Hsw Hi Hlt Hfree.
  rewrite (do_break_clear size i ice Hsize Hi Hlt).
  eexists. split; [reflexivity|].
  assert (Hmem : ice_mem (set_soft (list_set (soft ice) (Z.to_nat i) no_break)
                            (put_back i ice))
                 = write_byte 0 0 (ice_mem ice)).
  { replace (ice_mem (set_soft _ (put_back i ice)))
      with (write_byte (sb_addr (soft_at ice i))
              (sb_oldopc (soft_at ice i)) (ice_mem ice))
      by (destruct ice; reflexivity).
    rewrite Hfree. reflexivity. }
  split; [exact Hmem|].
  rewrite Hmem. unfold write_byte. apply Hsw; vm_compute; split; congruence.
Qed.

Lemma break_rows_frame (slots : list softbreak) :
  forall i ice,
    soft (break_rows slots i ice) = soft ice /\
    sb_next (break_rows slots i ice) = sb_next ice /\
    ice_mem (break_rows slots i ice) = ice_mem ice /\
    ice_cpu (break_rows slots i ice) = ice_cpu ice.
Proof.
  induction slots as [|bp rest IH]; intros i ice.
  - repeat split.
  - cbn [break_rows]. unfold seq_cmd.
    destruct (IH (i + 1)
                (when (negb (sb_pass bp =? 0))
                   (ice_print
                      (Printf ("%02d %04x %05d %05d" ++ nl)
                         [ArgInt i; ArgInt (sb_addr bp); ArgInt (sb_pass bp);
                          ArgInt (sb_passcount bp)])) ice))
      as (H1 & H2 & H3 & H4).
    rewrite H1, H2, H3, H4.
    unfold when. destruct (negb (sb_pass bp =? 0)); destruct ice;
      repeat split.
Qed.

Lemma break_slot_soft_ok (size i : Z) (s : string) (ice ice' : Ice) :
  soft_ok size ice -> break_slot i s ice = Some ice' -> soft_ok size ice'.
Proof.
  intros [Hlen Hnext]. unfold break_slot. cbv zeta.
  destruct (char_code (head_char (skip_spaces s)) =? 99).
  - intros Hrun. inversion Hrun; subst ice'. unfold soft_ok.
    destruct ice; cbn in *. rewrite list_set_length. split; assumption.
  - destruct (exatoi (skip_spaces s)) as [a|]; [|discriminate].
    destruct (if char_code (head_char (to_punct (skip_spaces s))) =? 44
              then exatoi (tail (to_punct (skip_spaces s))) else Some 1)
      as [pass|]; [|discriminate].
    intros Hrun. inversion Hrun; subst ice'. unfold soft_ok, ifc.
    destruct (negb (sb_pass (soft_at ice i) =? 0)); destruct ice; cbn in *;
      rewrite list_set_length; split; assumption.
Qed.

(** X22.  Every breakpoint command keeps the table in order: it has its
    [SBSIZE] slots, and [sb_next] stays one of them, going round from the
    last slot to the first. *)
Theorem do_break_keeps_table (size : Z) (s : string) (ice ice' : Ice) :
  SBSIZE = Some size -> soft_ok size ice ->
  do_break s ice = Some ice' ->
  soft_ok size ice' /\
  (sb_next ice' = sb_next ice \/
   sb_next ice' = (sb_next ice + 1) mod size).
Proof.
  intros Hsize Hok. pose proof Hok as [Hlen Hnext].
  unfold do_break. rewrite Hsize.
  destruct (char_code (head_char s) =? 10).
  - intros Hrun. inversion Hrun; subst ice'. unfold seq_cmd.
    destruct (break_rows_frame
                (firstn (Z.to_nat size)
                   (soft (ice_puts "No Addr Pass  Counter" ice))) 0
                (ice_puts "No Addr Pass  Counter" ice))
      as (H1 & H2 & _).
    unfold soft_ok. rewrite H1, H2. destruct ice; cbn in *.
    split; [split; assumption|left; reflexivity].
  - destruct (isxdigit (head_char s)).
    + destruct (atoi s) as [i|]; [|discriminate].
      destruct (size <=? i).
      * intros Hrun. inversion Hrun; subst ice'. unfold soft_ok.
        destruct ice; cbn in *.
        split; [split; assumption|left; reflexivity].
      * intros Hrun. split.
        -- eapply break_slot_soft_ok; [exact Hok|exact Hrun].
        -- left.
           unfold break_slot in Hrun. cbv zeta in Hrun.
           destruct (char_code (head_char (skip_spaces (tail s))) =? 99).
           ++ inversion Hrun; subst ice'. destruct ice; reflexivity.
           ++ destruct (exatoi (skip_spaces (tail s))); [|discriminate].
              destruct (if char_code
                             (head_char
                                (to_punct (skip_spaces (tail s)))) =? 44
                        then exatoi
                               (tail (to_punct (skip_spaces (tail s))))
                        else Some 1); [|discriminate].
              inversion Hrun; subst ice'. unfold ifc.
              destruct (negb (sb_pass (soft_at ice i) =? 0));
                destruct ice; reflexivity.
    + cbv zeta. intros Hrun.
      set (next := if sb_next ice + 1 =? size then 0 else sb_next ice + 1)
        in *.
      assert (Hn : next = (sb_next ice + 1) mod size).
      { unfold next. destruct (Z.eqb_spec (sb_next ice + 1) size) as [He|He].
        - rewrite He, Z.mod_same by lia. reflexivity.
        - rewrite Z.mod_small by lia. reflexivity. }
      assert (Hok1 : soft_ok size (set_sb_next next ice)).
      { unfold soft_ok. pose proof (Z.mod_pos_bound (sb_next ice + 1) size
                                      ltac:(lia)) as Hb.
        destruct ice; cbn in *. split; [exact Hlen|lia]. }
      split.
      * eapply break_slot_soft_ok; [exact Hok1|exact Hrun].
      * right. rewrite <- Hn.
        unfold break_slot in Hrun. cbv zeta in Hrun.
        destruct (char_code (head_char (skip_spaces s)) =? 99).
        -- inversion Hrun; subst ice'. destruct ice; reflexivity.
        -- destruct (exatoi (skip_spaces s)); [|discriminate].
           destruct (if char_code (head_char (to_punct (skip_spaces s)))
                          =? 44
                     then exatoi (tail (to_punct (skip_spaces s)))
                     else Some 1); [|discriminate].
           inversion Hrun; subst ice'. unfold ifc.
           destruct (negb (sb_pass (soft_at (set_sb_next next ice)
                                      (sb_next ice)) =? 0));
             destruct ice; reflexivity.
Qed.

(** ** Register modify *)

Lemma regs_longest_first : longest_first regs = true.
Proof. unfold regs. destruct EXCLUDE_Z80; vm_compute; reflexivity. Qed.

Lemma longest_first_len (table : list reg_def) (q : reg_def) :
  longest_first table = true -> In q table ->
  len q = String.length (name q).
Proof.
  induction table as [|p rest IH]; intros Hok Hin; [contradiction|].
  cbn [longest_first] in Hok.
  apply andb_prop in Hok as [Hok Hrest].
  apply andb_prop in Hok as [Hlen _].
  destruct Hin as [<-|Hin].
  - apply Nat.eqb_eq. exact Hlen.
  - apply IH; assumption.
Qed.

(** Two names a line starts with: the longer starts with the shorter. *)
Lemma starts_both (a : string) :
  forall b s,
    strncmp_eq s a (String.length a) = true ->
    strncmp_eq s b (String.length b) = true ->
    (String.length a <= String.length b)%nat ->
    strncmp_eq b a (String.length a) = true.
Proof.
  induction a as [|ca ra IH]; intros b s Ha Hb Hle; [reflexivity|].
  destruct b as [|cb rb]; [cbn in Hle; lia|].
  destruct s as [|cs rs]; [discriminate Ha|].
  cbn [String.length strncmp_eq] in *.
  apply andb_prop in Ha as [Hca Hra]. apply andb_prop in Hb as [Hcb Hrb].
  apply Z.eqb_eq in Hca, Hcb.
  apply andb_true_intro. split.
  - apply Z.eqb_eq. congruence.
  - apply (IH rb rs); [exact Hra|exact Hrb|lia].
Qed.

Lemma find_reg_longest (cpu_now : Z) (s : string) (p q : reg_def) :
  forall table,
    longest_first table = true ->
    find_reg cpu_now s table = Some p -> In q table ->
    reg_allowed cpu_now q = true ->
    strncmp_eq s (name q) (len q) = true ->
    q = p \/ (String.length (name q) < String.length (name p))%nat.
Proof.
  induction table as [|p0 rest IH]; intros Hok Hfind Hin Hal Hq;
    [contradiction|].
  pose proof (longest_first_len _ q Hok Hin) as Hlenq.
  cbn [longest_first] in Hok.
  apply andb_prop in Hok as [Hok Hrest].
  apply andb_prop in Hok as [Hlen Hall].
  apply Nat.eqb_eq in Hlen.
  cbn [find_reg] in Hfind. unfold reg_allowed in Hal.
  destruct (negb EXCLUDE_Z80 && z80 p0 && negb (cpu_now =? Z80)) eqn:Hskip.
  - destruct Hin as [<-|Hin].
    + rewrite Hskip in Hal. discriminate Hal.
    + apply IH; assumption.
  - destruct (strncmp_eq s (name p0) (len p0)) eqn:Hp0.
    + inversion Hfind; subst p0.
      destruct Hin as [<-|Hin]; [left; reflexivity|].
      destruct (Nat.le_gt_cases (String.length (name p))
                  (String.length (name q))) as [Hle|Hgt];
        [|right; exact Hgt].
      rewrite forallb_forall in Hall. specialize (Hall q Hin).
      rewrite Hlen in Hall, Hp0. rewrite Hlenq in Hq.
      rewrite (starts_both (name p) (name q) s Hp0 Hq Hle) in Hall.
      discriminate Hall.
    + destruct Hin as [<-|Hin].
      * rewrite Hp0 in Hq. discriminate Hq.
      * apply IH; assumption.
Qed.

Lemma find_reg_found (cpu_now : Z) (s : string) (p : reg_def) :
  forall table,
    find_reg cpu_now s table = Some p ->
    In p table /\ reg_allowed cpu_now p = true /\
    strncmp_eq s (name p) (len p) = true.
Proof.
  induction table as [|p0 rest IH]; intros Hfind; [discriminate Hfind|].
  cbn [find_reg] in Hfind. unfold reg_allowed.
  destruct (negb EXCLUDE_Z80 && z80 p0 && negb (cpu_now =? Z80)) eqn:Hskip.
  - destruct (IH Hfind) as (Hin & Hal & Hm).
    split; [right; exact Hin|]. split; [exact Hal | exact Hm].
  - destruct (strncmp_eq s (name p0) (len p0)) eqn:Hp0.
    + inversion Hfind; subst p0. split; [left; reflexivity|].
      rewrite Hskip. split; [reflexivity | exact Hp0].
    + destruct (IH Hfind) as (Hin & Hal & Hm).
      split; [right; exact Hin|]. split; [exact Hal | exact Hm].
Qed.

Lemma find_reg_missing (cpu_now : Z) (s : string) (q : reg_def) :
  forall table,
    find_reg cpu_now s table = None -> In q table ->
    reg_allowed cpu_now q = true ->
    strncmp_eq s (name q) (len q) = false.
Proof.
  induction table as [|p0 rest IH]; intros Hfind Hin Hal; [contradiction|].
  cbn [find_reg] in Hfind. unfold reg_allowed in Hal.
  destruct (negb EXCLUDE_Z80 && z80 p0 && negb (cpu_now =? Z80)) eqn:Hskip.
  - destruct Hin as [<-|Hin].
    + rewrite Hskip in Hal. discriminate Hal.
    + apply IH; assumption.
  - destruct (strncmp_eq s (name p0) (len p0)) eqn:Hp0;
      [discriminate Hfind|].
    destruct Hin as [<-|Hin]; [exact Hp0|].
    apply IH; assumption.
Qed.

(** X23.  The register the search loop of [do_reg] takes from the line is
    an entry of [regs], allowed for the selected CPU, whose name the line
    starts with, and it is the one with the longest such name: every other
    such entry has a strictly shorter name.  The loop finds nothing only
    when the line starts with the name of no allowed entry.  So the table
    is in the order the loop needs. *)
Theorem find_reg_longest_name (cpu_now : Z) (s : string) :
  (forall p, find_reg cpu_now s regs = Some p ->
     In p regs /\ reg_allowed cpu_now p = true /\
     strncmp_eq s (name p) (len p) = true /\
     forall q, In q regs -> reg_allowed cpu_now q = true ->
       strncmp_eq s (name q) (len q) = true ->
       q = p \/ (String.length (name q) < String.length (name p))%nat) /\
  (find_reg cpu_now s regs = None ->
   forall q, In q regs -> reg_allowed cpu_now q = true ->
     strncmp_eq s (name q) (len q) = false).
Proof.
  split.
  - intros p Hfind.
    destruct (find_reg_found _ _ _ _ Hfind) as (Hin & Hal & Hm).
    split; [exact Hin|]. split; [exact Hal|]. split; [exact Hm|].
    intros q Hq Halq Hmq.
    apply (find_reg_longest cpu_now s p q regs regs_longest_first Hfind Hq
             Halq Hmq).
  - intros Hfind q Hq Hal.
    apply (find_reg_missing cpu_now s q regs Hfind Hq Hal).
Qed.

Lemma find_reg_In (cpu_now : Z) (s : string) (p : reg_def) :
  forall table,
    find_reg cpu_now s table = Some p ->
    In p table /\ reg_allowed cpu_now p = true.
Proof.
  induction table as [|p0 rest IH]; intros Hfind; [discriminate Hfind|].
  cbn [find_reg] in Hfind. unfold reg_allowed.
  destruct (negb EXCLUDE_Z80 && z80 p0 && negb (cpu_now =? Z80)) eqn:Hskip.
  - destruct (IH Hfind) as [Hin Hal]. split; [right; exact Hin|exact Hal].
  - destruct (strncmp_eq s (name p0) (len p0)).
    + inversion Hfind; subst p0. split; [left; reflexivity|].
      rewrite Hskip. reflexivity.
    + destruct (IH Hfind) as [Hin Hal]. split; [right; exact Hin|exact Hal].
Qed.

Lemma upd_F_F (g : Z -> Z) (s : State) : F (upd_F g s) = g (F s).
Proof. destruct s; reflexivity. Qed.

Lemma forced_of_bits (f f' : Z) :
  Z.testbit f' 1 = Z.testbit f 1 -> Z.testbit f' 5 = Z.testbit f 5 ->
  Z.testbit f' 3 = Z.testbit f 3 ->
  flags_8080_forced f' = flags_8080_forced f.
Proof.
  intros H1 H5 H3. unfold flags_8080_forced.
  rewrite !flag_set_N, !flag_set_Y, !flag_set_X, H1, H5, H3. reflexivity.
Qed.

Lemma toggle_forced (rm w f : Z) :
  Z.testbit rm 1 = false -> Z.testbit rm 5 = false ->
  Z.testbit rm 3 = false ->
  flags_8080_forced (if w =? 0 then Z.land f (Z.lnot rm) else Z.lor f rm)
    = flags_8080_forced f.
Proof.
  intros H1 H5 H3.
  destruct (w =? 0); apply forced_of_bits;
    rewrite ?Z.land_spec, ?Z.lor_spec, ?Z.lnot_spec by lia;
    rewrite ?H1, ?H5, ?H3; cbn [negb];
    rewrite ?andb_true_r, ?orb_false_r; reflexivity.
Qed.

(** The entries of the table, one by one. *)
Ltac each_reg Hin :=
  cbn [app In] in Hin;
  repeat (destruct Hin as [<-|Hin]); try contradiction.

Lemma store_reg_forced (cpu_now : Z) (p : reg_def) (w : Z) (s : State) :
  In p regs -> reg_allowed cpu_now p = true -> (cpu_now =? Z80) = false ->
  name p <> "f"%string ->
  flags_8080_forced (F (store_reg p w s)) = flags_8080_forced (F s).
Proof.
  intros Hin Hal Hc Hname. revert Hin Hal. unfold reg_allowed, regs.
  rewrite Hc.
  destruct EXCLUDE_Z80; intros Hin Hal; each_reg Hin;
    try discriminate Hal;
    try (exfalso; apply Hname; reflexivity);
    unfold store_reg; cbn [target];
    try (rewrite upd_F_F; apply toggle_forced; reflexivity);
    destruct s; reflexivity.
Qed.

Lemma ice_print_cpu (e : ice_event) (ice : Ice) :
  ice_cpu (ice_print e ice) = ice_cpu ice /\
  ice_in (ice_print e ice) = ice_in ice.
Proof. destruct ice; split; reflexivity. Qed.

Lemma print_head_cpu (ice : Ice) :
  ice_cpu (print_head ice) = ice_cpu ice /\
  ice_in (print_head ice) = ice_in ice.
Proof.
  unfold print_head. cbv zeta.
  destruct (negb EXCLUDE_Z80 && (cpu (ice_cpu ice) =? Z80));
    [apply ice_print_cpu|].
  destruct (negb EXCLUDE_I8080 && (cpu (ice_cpu ice) =? I8080));
    [apply ice_print_cpu|split; reflexivity].
Qed.

Lemma print_reg_cpu (ice : Ice) :
  ice_cpu (print_reg ice) = ice_cpu ice /\
  ice_in (print_reg ice) = ice_in ice.
Proof.
  unfold print_reg. cbv zeta.
  destruct (negb EXCLUDE_Z80 && (cpu (ice_cpu ice) =? Z80));
    [|destruct (negb EXCLUDE_I8080 && (cpu (ice_cpu ice) =? I8080))];
    destruct ice; split; reflexivity.
Qed.

Lemma print_both_cpu (ice : Ice) :
  ice_cpu ((print_head ;; print_reg) ice) = ice_cpu ice /\
  ice_in ((print_head ;; print_reg) ice) = ice_in ice.
Proof.
  unfold seq_cmd.
  destruct (print_reg_cpu (print_head ice)) as [-> ->].
  apply print_head_cpu.
Qed.

Lemma find_reg_none (cpu_now : Z) (s : string) :
  forall table,
    forallb (fun p => negb (strncmp_eq s (name p) (len p))) table = true ->
    find_reg cpu_now s table = None.
Proof.
  induction table as [|p rest IH]; intros Hall; [reflexivity|].
  cbn [forallb] in Hall. apply andb_prop in Hall as [Hp Hrest].
  cbn [find_reg]. apply negb_true_iff in Hp. rewrite Hp, (IH Hrest).
  destruct (negb EXCLUDE_Z80 && z80 p && negb (cpu_now =? Z80));
    reflexivity.
Qed.

Lemma find_reg_nothing (cpu_now : Z) :
  find_reg cpu_now EmptyString regs = None.
Proof.
  apply find_reg_none. unfold regs.
  destruct EXCLUDE_Z80; vm_compute; reflexivity.
Qed.

(** What [do_reg] does with a register it finds and a value it reads. *)
Lemma do_reg_stores (s nv : string) (lines : list string) (v : Z)
    (p : reg_def) (ice : Ice) :
  find_reg (cpu (ice_cpu ice)) (skip_spaces s) regs = Some p ->
  ice_in ice = nv :: lines -> char_code (head_char nv) <> 10 ->
  exatoi nv = Some v ->
  exists ice',
    do_reg s ice = Some ice' /\
    ice_cpu ice' = store_reg p (to_WORD v) (ice_cpu ice) /\
    ice_in ice' = lines.
Proof.
  intros Hfind Hin Hnl Hv. unfold do_reg. cbv zeta.
  destruct (skip_spaces s) as [|c rest] eqn:Hs.
  { rewrite find_reg_nothing in Hfind. discriminate Hfind. }
  rewrite Hfind.
  destruct (ice_print_cpu (show_reg p (ice_cpu ice)) ice) as [_ Hin1].
  rewrite Hin1, Hin. apply Z.eqb_neq in Hnl. rewrite Hnl, Hv.
  eexists. split; [reflexivity|].
  destruct (print_both_cpu
              (on_ice_cpu (store_reg p (to_WORD v))
                 (set_ice_in lines
                    (ice_print (show_reg p (ice_cpu ice)) ice))))
    as [-> ->].
  destruct ice; split; reflexivity.
Qed.

(** X24.  With a CPU other than the Z80 selected, [do_reg] keeps the
    condition the 8080 holds on F (N set, Y and X clear): it holds after the
    command exactly when it held before, whatever the line and the value,
    unless the register named is [f] itself. *)
Theorem do_reg_keeps_8080_flags (s : string) (ice ice' : Ice) :
  cpu (ice_cpu ice) <> Z80 ->
  (forall p, find_reg (cpu (ice_cpu ice)) (skip_spaces s) regs = Some p ->
             name p <> "f"%string) ->
  do_reg s ice = Some ice' ->
  flags_8080_forced (F (ice_cpu ice')) = flags_8080_forced (F (ice_cpu ice)).
Proof.
  intros Hc Hname. apply Z.eqb_neq in Hc. unfold do_reg. cbv zeta.
  assert (Hdone : forall ice1 : Ice,
             ice_cpu ice1 = ice_cpu ice ->
             Some ((print_head ;; print_reg) ice1) = Some ice' ->
             flags_8080_forced (F (ice_cpu ice'))
               = flags_8080_forced (F (ice_cpu ice))).
  { intros ice1 H1 Hrun. inversion Hrun; subst ice'.
    destruct (print_both_cpu ice1) as [-> _]. rewrite H1. reflexivity. }
  destruct (skip_spaces s) as [|c rest] eqn:Hs.
  { apply Hdone. reflexivity. }
  destruct (find_reg (cpu (ice_cpu ice)) (String c rest) regs) as [p|]
    eqn:Hfind.
  - destruct (find_reg_In _ _ _ _ Hfind) as [Hin Hal].
    specialize (Hname p eq_refl).
    destruct (ice_print_cpu (show_reg p (ice_cpu ice)) ice) as [Hcpu1 Hin1].
    rewrite Hin1.
    destruct (ice_in ice) as [|nv lines].
    + apply Hdone. destruct ice; reflexivity.
    + destruct (char_code (head_char nv) =? 10).
      * apply Hdone. destruct ice; reflexivity.
      * destruct (exatoi nv) as [v|]; [|discriminate].
        intros Hrun. inversion Hrun; subst ice'.
        destruct (print_both_cpu
                    (on_ice_cpu (store_reg p (to_WORD v))
                       (set_ice_in lines
                          (ice_print (show_reg p (ice_cpu ice)) ice))))
          as [-> _].
        replace (ice_cpu (on_ice_cpu (store_reg p (to_WORD v))
                            (set_ice_in lines
                               (ice_print (show_reg p (ice_cpu ice)) ice))))
          with (store_reg p (to_WORD v) (ice_cpu ice))
          by (destruct ice; reflexivity).
        apply (store_reg_forced (cpu (ice_cpu ice))); assumption.
  - apply Hdone. destruct ice; reflexivity.
Qed.

Lemma reg_named_f (p : reg_def) :
  In p regs -> name p = "f"%string ->
  p = mkReg "f" 1 "F" false (R_F F set_F).
Proof.
  intros Hin. revert Hin. unfold regs.
  destruct EXCLUDE_Z80; intros Hin Hname; each_reg Hin;
    try discriminate Hname; reflexivity.
Qed.

(** X25.  [x f] assigns the low byte of the value read to F as it is, on
    the 8080 too: a value with bit 1 clear takes away the N flag the 8080
    holds set. *)
Theorem do_reg_f_stores_low_byte (s nv : string) (lines : list string)
    (v : Z) (p : reg_def) (ice : Ice) :
  find_reg (cpu (ice_cpu ice)) (skip_spaces s) regs = Some p ->
  name p = "f"%string ->
  ice_in ice = nv :: lines -> char_code (head_char nv) <> 10 ->
  exatoi nv = Some v ->
  exists ice',
    do_reg s ice = Some ice' /\
    F (ice_cpu ice') = Z.land (to_WORD v) 255 /\
    (Z.testbit v 1 = false ->
     flags_8080_forced (F (ice_cpu ice')) = false).
Proof.
  intros Hfind Hname Hin Hnl Hv.
  destruct (do_reg_stores s nv lines v p ice Hfind Hin Hnl Hv)
    as (ice' & Hrun & Hcpu & _).
  exists ice'. split; [exact Hrun|].
  destruct (find_reg_In _ _ _ _ Hfind) as [Hp _].
  rewrite (reg_named_f p Hp Hname) in Hcpu.
  assert (HF : F (ice_cpu ice') = Z.land (to_WORD v) 255).
  { rewrite Hcpu. unfold store_reg. cbn [target].
    destruct (ice_cpu ice); reflexivity. }
  split; [exact HF|].
  intros Hbit. unfold flags_8080_forced.
  rewrite flag_set_N, HF, Z.land_spec.
  unfold to_WORD. change 65536 with (2 ^ 16).
  rewrite Z.mod_pow2_bits_low by lia. rewrite Hbit. reflexivity.
Qed.

Lemma byte_pair (w : Z) :
  0 <= w < 65536 ->
  Z.shiftl (Z.land (Z.shiftr w 8) 255) 8 + Z.land w 255 = w.
Proof.
  intros Hw. change 255 with (Z.ones 8).
  rewrite !Z.land_ones, Z.shiftl_mul_pow2, Z.shiftr_div_pow2 by lia.
  change (2 ^ 8) with 256. rewrite (Z.mod_small (w / 256)).
  - pose proof (Z.div_mod w 256 ltac:(lia)). lia.
  - split; [apply Z.div_pos; lia|].
    apply Z.div_lt_upper_bound; lia.
Qed.

Lemma low_byte_mod (w : Z) : Z.land w 255 = w mod 256.
Proof. change 255 with (Z.ones 8). rewrite Z.land_ones by lia. reflexivity. Qed.

Lemma flag_toggle_shown (rm w f : Z) :
  rm <> 0 ->
  (if Z.land (if w =? 0 then Z.land f (Z.lnot rm) else Z.lor f rm) rm =? 0
   then 0 else 1) = (if w =? 0 then 0 else 1).
Proof.
  intros Hrm. destruct (w =? 0).
  - rewrite <- Z.land_assoc, (Z.land_comm (Z.lnot rm)), Z.land_lnot_diag,
      Z.land_0_r. reflexivity.
  - rewrite Z.land_lor_distr_l, Z.land_diag.
    destruct (Z.eqb_spec (Z.lor (Z.land f rm) rm) 0) as [Hz|_];
      [|reflexivity].
    apply Z.lor_eq_0_iff in Hz. destruct Hz as [_ Hz]. contradiction.
Qed.

Lemma store_then_value (p : reg_def) (w : Z) (s : State) :
  In p regs -> 0 <= w < 65536 ->
  reg_value p (store_reg p w s) = reg_keeps p w.
Proof.
  intros Hin Hw. revert Hin. unfold regs.
  destruct EXCLUDE_Z80; intros Hin; each_reg Hin;
    unfold reg_value, store_reg, reg_keeps; cbn [target];
    try (rewrite upd_F_F; apply flag_toggle_shown; discriminate);
    unfold seq_cmd; destruct s;
    first [ reflexivity | apply low_byte_mod | apply (byte_pair w Hw) ].
Qed.

(** X26.  A value typed in for a register, pair, flag register or flag is
    the value [do_reg] shows for it afterwards: the low byte for an 8-bit
    register, the 16 bits for a pair (high byte in the first register) or a
    16-bit register, 1 or 0 for a flag as the value is or is not zero. *)
Theorem do_reg_round_trip (s nv : string) (lines : list string)
    (v : Z) (p : reg_def) (ice : Ice) :
  find_reg (cpu (ice_cpu ice)) (skip_spaces s) regs = Some p ->
  ice_in ice = nv :: lines -> char_code (head_char nv) <> 10 ->
  exatoi nv = Some v ->
  exists ice',
    do_reg s ice = Some ice' /\
    reg_value p (ice_cpu ice') = reg_keeps p (to_WORD v) /\
    ice_in ice' = lines.
Proof.
  intros Hfind Hin Hnl Hv.
  destruct (do_reg_stores s nv lines v p ice Hfind Hin Hnl Hv)
    as (ice' & Hrun & Hcpu & Hlines).
  exists ice'. split; [exact Hrun|]. split; [|exact Hlines].
  destruct (find_reg_In _ _ _ _ Hfind) as [Hp _].
  rewrite Hcpu. apply store_then_value; [exact Hp|apply to_WORD_range].
Qed.

(** ** The 8080 flag bits and the debugger *)

(** The search of [do_reg] for a CPU that is not the Z80. *)
Lemma find_reg_not_z80 (cpu_now : Z) (s : string) :
  (cpu_now =? Z80) = false ->
  forall table,
    find_reg cpu_now s table =
      find (fun p => negb (negb EXCLUDE_Z80 && z80 p)
                     && strncmp_eq s (name p) (len p)) table.
Proof.
  intros Hc. induction table as [|p rest IH]; [reflexivity|].
  cbn [find_reg find]. rewrite Hc, IH. cbn [negb]. rewrite andb_true_r.
  destruct (negb EXCLUDE_Z80 && z80 p); cbn [negb andb]; reflexivity.
Qed.

Lemma find_reg_f (cpu_now : Z) :
  (cpu_now =? Z80) = false ->
  find_reg cpu_now ("f" ++ nl) regs
    = Some (mkReg "f" 1 "F" false (R_F F set_F)).
Proof.
  intros Hc. rewrite (find_reg_not_z80 _ _ Hc). unfold regs.
  destruct EXCLUDE_Z80; reflexivity.
Qed.

(** C3: the code forces N = 1, Y = 0, X = 0 in F where it selects the
    8080: init_cpu with the 8080 selected and switch_cpu to the 8080 from
    another model leave F so.  The register command of the debugger misses
    it: the line [x f] on an 8080 ([do_reg] gets what follows the x, the
    line feed included), answered with a value whose bit 1 is clear, stores
    the low byte of the value in F as it is, so that the 8080 is selected
    with N = 0; switch_cpu to the 8080 and reset_cpu then change nothing of
    F. *)
Theorem i8080_flags_invariant :
  EXCLUDE_I8080 = false ->
  Z80 <> I8080 ->
  (forall s g, cpu s = I8080 ->
     flags_8080_forced (F (fst (init_cpu (s, g)))) = true) /\
  (forall s, cpu s <> I8080 ->
     cpu (switch_cpu I8080 s) = I8080 /\
     flags_8080_forced (F (switch_cpu I8080 s)) = true) /\
  (forall ice nv lines v,
     cpu (ice_cpu ice) = I8080 ->
     ice_in ice = nv :: lines -> char_code (head_char nv) <> 10 ->
     exatoi nv = Some v -> Z.testbit v 1 = false ->
     exists ice',
       do_reg (" f" ++ nl) ice = Some ice' /\
       cpu (ice_cpu ice') = I8080 /\
       F (ice_cpu ice') = Z.land (to_WORD v) 255 /\
       flags_8080_forced (F (ice_cpu ice')) = false /\
       switch_cpu I8080 (ice_cpu ice') = ice_cpu ice' /\
       F (reset_cpu (ice_cpu ice')) = F (ice_cpu ice')).
Proof.
  intros Hx Hz.
  split; [intros s g Hc; apply init_cpu_forces; assumption|].
  split; [intros s Hc; apply switch_cpu_forces; assumption|].
  intros ice nv lines v Hc Hin Hnl Hv Hbit.
  assert (Hnz : (cpu (ice_cpu ice) =? Z80) = false).
  { apply Z.eqb_neq. rewrite Hc. congruence. }
  destruct (do_reg_stores (" f" ++ nl) nv lines v _ ice (find_reg_f _ Hnz)
              Hin Hnl Hv)
    as (ice' & Hrun & Hcpu & _).
  exists ice'. split; [exact Hrun|].
  assert (Hfields : cpu (ice_cpu ice') = I8080 /\
                    F (ice_cpu ice') = Z.land (to_WORD v) 255).
  { rewrite Hcpu. unfold store_reg. cbn [target]. rewrite <- Hc.
    destruct (ice_cpu ice); split; reflexivity. }
  destruct Hfields as [Hc' HF].
  split; [exact Hc'|]. split; [exact HF|].
  split.
  { unfold flags_8080_forced. rewrite flag_set_N, HF, Z.land_spec.
    unfold to_WORD. change 65536 with (2 ^ 16).
    rewrite Z.mod_pow2_bits_low by lia. rewrite Hbit. reflexivity. }
  split.
  { rewrite <- Hc' at 1. apply switch_cpu_noop. }
  unfold reset_cpu, seq_cmd, when.
  destruct EXCLUDE_Z80; destruct (ice_cpu ice'); reflexivity.
Qed.

End Simulator.

(** * Worked examples

    The constants of the missing headers are given distinct values here:
    Z80 = 1, I8080 = 2; STOPPED = 0, CONTIN_RUN = 1, SINGLE_STEP = 2,
    MODEL_SWITCH = 8; NONE = 0, POWEROFF = 255; BUS_DMA_NONE = 0;
    FP_SW_UP = 1, FP_SW_DOWN = 2.  [rand()] counts up from its seed. *)

Example szp_flags_samples :
  tbl szp_flags 0 = Z.lor Z_FLAG P_FLAG /\
  tbl szp_flags 1 = 0 /\
  tbl szp_flags 3 = P_FLAG /\
  tbl szp_flags 128 = S_FLAG /\
  tbl szp_flags 255 = Z.lor S_FLAG P_FLAG.
Proof. repeat split. Qed.

Example szyx_flags_samples :
  tbl szyx_flags 0 = Z_FLAG /\
  tbl szyx_flags 40 = Z.lor Y_FLAG X_FLAG /\
  tbl szyxp_flags 168 = Z.lor (Z.lor S_FLAG Y_FLAG) X_FLAG /\
  tbl szyxp_flags 169 = Z.lor (Z.lor (Z.lor S_FLAG Y_FLAG) X_FLAG) P_FLAG.
Proof. repeat split. Qed.

Example force_8080_sample : force_8080 255 = 215 /\ force_8080 0 = 2.
Proof. split; reflexivity. Qed.

Lemma szp_flags_correct_witness :
  0 <= 150 <= 255 /\
  ((flag_set Z_FLAG (tbl szp_flags 150) = true <-> 150 = 0) /\
   (flag_set S_FLAG (tbl szp_flags 150) = true <->
      Z.testbit 150 7 = true) /\
   (flag_set P_FLAG (tbl szp_flags 150) = true <->
      Nat.Even (popcount 150)) /\
   Z.land (tbl szp_flags 150)
     (Z.lnot (Z.lor (Z.lor S_FLAG Z_FLAG) P_FLAG)) = 0).
Proof.
  split; [lia | apply (szp_flags_correct 150); lia].
Defined.

Lemma szyx_flags_copy_bits_witness :
  0 <= 40 <= 255 /\
  ((flag_set Y_FLAG (tbl szyx_flags 40) = true <-> Z.testbit 40 5 = true) /\
   (flag_set X_FLAG (tbl szyx_flags 40) = true <-> Z.testbit 40 3 = true) /\
   (flag_set Y_FLAG (tbl szyxp_flags 40) = true <-> Z.testbit 40 5 = true) /\
   (flag_set X_FLAG (tbl szyxp_flags 40) = true <-> Z.testbit 40 3 = true)).
Proof.
  split; [lia | apply (szyx_flags_copy_bits 40); lia].
Defined.

(** Reset of a Z80 build in the middle of an interrupt. *)
Lemma reset_cpu_clears_witness :
  let s := set_int_mode 2 (set_int_nmi 1 (set_R_ 128 (set_R 77
             (set_I 64 (set_PC 4660 (initial_globals 1)))))) in
  false = false /\
  (I (reset_cpu false s) = 0 /\ R (reset_cpu false s) = 0 /\
   R_ (reset_cpu false s) = 0 /\
   int_nmi (reset_cpu false s) = 0 /\ int_mode (reset_cpu false s) = 0).
Proof.
  intros s. split; [reflexivity|].
  apply (reset_cpu_clears false s). reflexivity.
Defined.

Local Abbreviation counting := (fun g : N => (g, N.succ g)).
Local Abbreviation switch_cpu_ex := (switch_cpu 1 2 8).
Local Abbreviation init_cpu_ex := (init_cpu 2 false false true N counting).
(** A Z80 with Y and X set and N clear is switched to the 8080; an 8080 is
    switched to the Z80. *)
Lemma switch_cpu_frame_witness :
  let s := set_F 40 (initial_globals 1) in
  let t := set_F 215 (initial_globals 2) in
  (1 <> 2 /\ 2 = 2 /\ cpu s <> 2) /\
  flags_8080_forced (F (switch_cpu_ex 2 s)) = true /\
  (0 <= 7 /\ 7 <> 1 /\ 7 <> 3 /\ 7 <> 5) /\
  Z.testbit (F (switch_cpu_ex 2 s)) 7 = Z.testbit (F s) 7 /\
  1 <> 2 /\
  F (switch_cpu_ex 1 t) = F t.
Proof.
  intros s t.
  destruct (switch_cpu_frame 1 2 8 s 2) as (_ & Hbits & _ & _ & _ & Hforce).
  destruct (switch_cpu_frame 1 2 8 t 1) as (_ & _ & _ & _ & Hkeep & _).
  split; [repeat split; cbn; lia|].
  split; [apply Hforce; cbn; lia|].
  split; [lia|].
  split; [apply Hbits; lia|].
  split; [lia|].
  apply Hkeep. lia.
Defined.

(** A Z80 program switches to the 8080, whose program is then stopped. *)
Local Abbreviation dispatch_ex :=
  (dispatch 1 2 false false (exec_switching_to 1 2 8 2) (exec_stopped 0)).
Local Abbreviation run_loop_ex :=
  (run_loop 1 2 1 8 false false (exec_switching_to 1 2 8 2) (exec_stopped 0)).
Local Abbreviation switched_rounds_ex :=
  (switched_rounds 1 2 1 8 false false
     (exec_switching_to 1 2 8 2) (exec_stopped 0)).

Local Abbreviation run_cpu_ex :=
  (run_cpu 1 2 1 8 0 false false
     (exec_switching_to 1 2 8 2) (exec_stopped 0)).

Lemma run_cpu_model_switch_witness :
  let s := initial_globals 1 in
  let s0 := set_cpu_error 0 (set_cpu_state 1 s) in
  let s1 := switch_cpu_ex 2 s0 in
  let s2 := set_cpu_state 0 (set_cpu_state 1 s1) in
  (dispatch_ex s0 = Some s1 /\ cpu_state s1 = 8 /\ cpu s1 = 2) /\
  (run_cpu_ex 1 s = None /\
   dispatch_ex (set_cpu_state 1 s1) = Some s2 /\ cpu_state s2 <> 8 /\
   run_cpu_ex 2 s = Some s2) /\
  (dispatch_ex (set_cpu_error 0 (set_cpu_state 1 s2)) = Some s2 /\
   run_cpu_ex 1 s2 = Some s2) /\
  (switched_rounds_ex 1 s0 = Some (set_cpu_state 1 s1) /\ (1 < 5)%nat /\
   run_cpu_ex 5 s = Some s2) /\
  cpu_state s2 <> 8 /\
  (false = false /\ 1 <> 2 /\ cpu (set_cpu_state 1 s1) = 2 /\
   dispatch_ex (set_cpu_state 1 s1) = exec_stopped 0 (set_cpu_state 1 s1)).
Proof.
  intros s s0 s1 s2.
  assert (Hd : dispatch_ex s0 = Some s1) by reflexivity.
  assert (Hd2 : dispatch_ex (set_cpu_state 1 s1) = Some s2) by reflexivity.
  assert (Hd3 : dispatch_ex (set_cpu_error 0 (set_cpu_state 1 s2)) = Some s2)
    by reflexivity.
  assert (Hne : cpu_state s2 <> 8) by (cbn; lia).
  assert (H12 : 1 <> 2) by lia.
  destruct (run_cpu_model_switch 1 2 1 8 0 false false
              (exec_switching_to 1 2 8 2) (exec_stopped 0) s s1 0 Hd)
    as (Hloop & _ & _ & _ & _ & H8080).
  destruct (Hloop eq_refl) as (_ & _ & _ & Hshort & Hagain).
  destruct (run_cpu_model_switch 1 2 1 8 0 false false
              (exec_switching_to 1 2 8 2) (exec_stopped 0) s2 s2 0 Hd3)
    as (_ & Hbreak & _).
  destruct (run_cpu_model_switch 1 2 1 8 0 false false
              (exec_switching_to 1 2 8 2) (exec_stopped 0) s s1 5 Hd)
    as (_ & _ & Hrounds & Hres & _).
  assert (Hrun : run_cpu_ex 5 s = Some s2).
  { apply (Hrounds 1%nat (set_cpu_state 1 s1) s2);
      [reflexivity | exact Hd2 | exact Hne | lia]. }
  split; [split; [exact Hd|split; reflexivity]|].
  split.
  { split; [exact Hshort|]. split; [exact Hd2|].
    split; [exact Hne | exact (Hagain s2 Hd2 Hne)]. }
  split; [split; [exact Hd3 | exact (Hbreak Hne)]|].
  split; [split; [reflexivity|split; [lia | exact Hrun]]|].
  split; [exact (Hres s2 Hrun)|].
  split; [reflexivity|]. split; [exact H12|]. split; [reflexivity|].
  apply H8080; [reflexivity | exact H12 | reflexivity].
Defined.

(** A running Z80 machine with the power on.  Its program is a row of
    NOPs; the power switch of the Altair is moved up while the third one is
    executed, so that its writes are there at the boundary after
    instruction number 2. *)
Local Abbreviation power_clicked_altair_ex :=
  (power_clicked_altair 0 255 2 32 128 1 2 (fun _ => 0) true).
Local Abbreviation power_clicked_cromemco_ex :=
  (power_clicked_cromemco 0 255 2 32 128 1 2 (fun _ => 0) true 0).
Local Abbreviation nop := (fun s : State => set_PC (PC s + 1) s).
Local Abbreviation off_at_2 :=
  (fun (p : Panel) (n : nat) (s : State) =>
     if (n =? 2)%nat then on_globals (power_clicked_altair_ex 1 0) p s
     else s).
Local Abbreviation nops :=
  (fun p : Panel => polling_executor 1 nop (off_at_2 p) 10).

Lemma power_off_stops_witness :
  let s := initial_globals 1 in
  let p := mkPanel s 0 0 0 0 0 0 1 0 1 [] in
  let pa := power_clicked_altair_ex 1 0 p in
  let pc := power_clicked_cromemco_ex 2 0 p in
  let pq := quit_callback 0 255 p in
  let s0 := set_cpu_error 0 (set_cpu_state 1 s) in
  let p_off :=
    power_clicked_altair_ex 1 0
      (set_core (at_boundary nop (off_at_2 p) 2%nat s0) p) in
  (1 <> 2 /\ 255 <> 0 /\ 0 <> 8 /\ 0 <> 1 /\ power p <> 0) /\
  (cpu_error (core pa) = 255 /\ cpu_state (core pa) = 0 /\
   cpu_switch pa = 0 /\ power pa = power p - 1) /\
  (cpu_error (core pc) = 255 /\ cpu_state (core pc) = 0 /\
   cpu_switch pc = 0 /\ power pc = power p - 1) /\
  (cpu_error (core pq) = 255 /\ cpu_state (core pq) = 0 /\
   cpu_switch pq = 0 /\ power pq = power p - 1) /\
  (In (power_clicked_altair_ex 1 0)
      (power_off_handlers 0 255 2 32 128 1 2 (fun _ => 0) (fun _ => 0)
         true 0 0) /\
   dispatch 1 2 false false (nops p) (nops p) s0 = nops p s0 /\
   dispatch_altair 1 2 (nops p) (nops p) s0 = nops p s0 /\
   (2 < 10)%nat /\
   (forall j, (j < 2)%nat ->
      cpu_state (off_at_2 p j (at_boundary nop (off_at_2 p) j s0)) = 1) /\
   (forall t, off_at_2 p 2%nat t
              = on_globals (power_clicked_altair_ex 1 0) p t)) /\
  run_cpu 1 2 1 8 0 false false (nops p) (nops p) 1 s = Some (core p_off) /\
  run_cpu_altair 1 2 1 0 (nops p) (nops p) s = Some (core p_off) /\
  PC (core p_off) = 3 /\
  cpu_error (core p_off) = 255 /\ cpu_state (core p_off) = 0 /\
  fp_operating 0 p_off = false /\ cpu_switch_call p_off = CallNone.
Proof.
  intros s p pa pc pq s0 p_off.
  assert (Hp : power p <> 0) by (cbn; lia).
  assert (Hin : In (power_clicked_altair_ex 1 0)
                  (power_off_handlers 0 255 2 32 128 1 2 (fun _ => 0)
                     (fun _ => 0) true 0 0)) by (left; reflexivity).
  assert (Hd : dispatch 1 2 false false (nops p) (nops p) s0 = nops p s0)
    by reflexivity.
  assert (Hda : dispatch_altair 1 2 (nops p) (nops p) s0 = nops p s0)
    by reflexivity.
  assert (Hfuel : (2 < 10)%nat) by lia.
  assert (Hrun : forall j, (j < 2)%nat ->
            cpu_state (off_at_2 p j (at_boundary nop (off_at_2 p) j s0)) = 1).
  { intros [|[|j]] Hj; [reflexivity|reflexivity|lia]. }
  assert (Hother : forall t, off_at_2 p 2%nat t
                     = on_globals (power_clicked_altair_ex 1 0) p t)
    by (intros t; reflexivity).
  destruct (power_off_stops 1 2 0 1 8 0 255 2 32 128 1 2 false false
              (nops p) (nops p) (fun _ => 0) (fun _ => 0) true 0
              ltac:(lia) ltac:(lia) ltac:(lia) ltac:(lia))
    as (Ha & Hc & Hq & Hend).
  pose proof (Hend (power_clicked_altair_ex 1 0) 0 nop (off_at_2 p) 2%nat
                10%nat 0%nat p s Hin Hp Hd Hda Hfuel Hrun Hother) as Hoff.
  cbv zeta in Hoff.
  destruct Hoff as (Hr & Hra & He & Hs & Hop & Hcall).
  split; [repeat split; try lia; exact Hp|].
  split; [exact (Ha p 0 Hp)|].
  split; [exact (Hc p 0 Hp)|].
  split; [exact (Hq p)|].
  split; [repeat split; assumption|].
  split; [exact Hr|]. split; [exact Hra|]. split; [reflexivity|].
  split; [exact He|]. split; [exact Hs|]. split; [exact Hop | exact Hcall].
Defined.

(** Power-on of a Z80 build: what [init_cpu] leaves in the registers when
    [rand()] returns 1000, 1001, ... *)
Example init_cpu_sample :
  let s1 := fst (init_cpu_ex (initial_globals 1, 1000%N)) in
  PC s1 = 0 /\ SP s1 = 1000 /\ A s1 = 233 /\ F s1 = 240 /\
  A_ s1 = 241 /\ IX s1 = 1017 /\ IY s1 = 1018 /\ WZ s1 = 1019 /\
  I s1 = 0 /\ R s1 = 0 /\ IFF s1 = 0 /\
  snd (init_cpu_ex (initial_globals 1, 1000%N)) = 1020%N.
Proof. repeat split. Qed.

(** The same with the 8080 selected: F = 240 with Y cleared and N set. *)
Example init_cpu_sample_8080 :
  F (fst (init_cpu_ex (initial_globals 2, 1000%N))) = 210.
Proof. reflexivity. Qed.

(** C5 as stated fails: with rand() returning 1000, 1001, ..., none of them
    0 modulo 256, init_cpu leaves I = 0; it does not write R, which keeps
    its value 42, nor IFF, which keeps its value 3. *)
Lemma init_cpu_not_all_randomized :
  let s0 := set_R 42 (set_IFF 3 (initial_globals 1)) in
  let s1 := fst (init_cpu_ex (s0, 1000%N)) in
  let draws := map (fun k => draw N counting k 1000%N mod 256) (seq 0 20) in
  IFF s1 = 3 /\ IFF s1 <> 0 /\
  I s1 = 0 /\ ~ In (I s1) draws /\
  R s1 = 42 /\ ~ In (R s1) draws.
Proof.
  intros s0 s1 draws.
  assert (Hd : draws =
    [232; 233; 234; 235; 236; 237; 238; 239; 240; 241;
     242; 243; 244; 245; 246; 247; 248; 249; 250; 251]) by reflexivity.
  assert (HI : I s1 = 0) by reflexivity.
  assert (HR : R s1 = 42) by reflexivity.
  assert (HF : IFF s1 = 3) by reflexivity.
  rewrite HI, HR, HF, Hd.
  repeat split; try lia;
    intros Hin; repeat (destruct Hin as [Hin|Hin]; [discriminate Hin|]);
    exact Hin.
Qed.

(** ** Worked examples for the further properties

    More constants: FP_SW_CENTER = 0; CPU_WO = 2, CPU_M1 = 32,
    CPU_MEMR = 128, CPU_HLTA = 8; RESET = 4; MEM_RW = 0, MEM_RO = 1,
    MEM_WPROT = 2; SBSIZE = 4.  The memory is [ram], whose cell [a] holds
    the low byte of [a] at the start. *)

Local Open Scope string_scope.

Lemma ram_stores_writes : stores_writes ram ram_read ram_write.
Proof.
  intros mem a d Ha Hd. unfold ram_read, ram_write.
  rewrite Z.eqb_refl. unfold to_BYTE. apply Z.mod_small. exact Hd.
Qed.

Lemma ram_keeps_others : keeps_others ram ram_read ram_write.
Proof.
  intros mem a d b Hne. unfold ram_read, ram_write.
  destruct (Z.eqb_spec b a) as [Heq|_]; [|reflexivity].
  exfalso. apply Hne. symmetry. exact Heq.
Qed.

Lemma ram_reads_bytes : reads_bytes ram ram_read.
Proof.
  intros mem a. unfold ram_read, to_BYTE. apply Z.mod_pos_bound. lia.
Qed.

Lemma to_WORD_keeps_mod : keeps_mod 65536 to_WORD.
Proof. intros z. unfold to_WORD. apply Z.mod_mod. lia. Qed.

Lemma to_BYTE_keeps_mod : keeps_mod 256 to_BYTE.
Proof. intros z. unfold to_BYTE. apply Z.mod_mod. lia. Qed.

Lemma parity_table_correct_witness :
  0 <= 7 <= 255 /\
  ((tbl parity 7 = 1 <-> Nat.Odd (popcount 7)) /\
   (tbl parity 7 = 0 <-> Nat.Even (popcount 7))).
Proof. split; [lia | apply (parity_table_correct 7); lia]. Defined.

Lemma sz_flags_correct_witness :
  0 <= 128 <= 255 /\
  ((flag_set Z_FLAG (tbl sz_flags 128) = true <-> 128 = 0) /\
   (flag_set S_FLAG (tbl sz_flags 128) = true <->
      Z.testbit 128 7 = true) /\
   Z.land (tbl sz_flags 128) (Z.lnot (Z.lor S_FLAG Z_FLAG)) = 0).
Proof. split; [lia | apply (sz_flags_correct 128); lia]. Defined.

Lemma flag_tables_compose_witness :
  0 <= 170 <= 255 /\
  tbl szyxp_flags 170 = Z.lor (tbl szp_flags 170) (tbl szyx_flags 170).
Proof.
  split; [lia|].
  destruct (flag_tables_compose 170 ltac:(lia)) as (_ & _ & _ & _ & H).
  exact H.
Defined.

Lemma exatoi_no_overflow_witness :
  (List.length (xdigits_prefix "1aF,2") <= 7)%nat /\
  exists v,
    exatoi "1aF,2" = Some v /\
    v = hex_value (xdigits_prefix "1aF,2") /\
    0 <= v < 16 ^ Z.of_nat (List.length (xdigits_prefix "1aF,2")).
Proof.
  split; [cbn; lia | apply (exatoi_no_overflow "1aF,2"); cbn; lia].
Defined.

(** A stopped Z80 machine, with the power off and on; the address switches
    at 1234h. *)
Local Abbreviation panel_ex :=
  (fun (s : State) (pwr : Z) => mkPanel s 0 0 0 0 0 0 0 0 pwr []).
Local Abbreviation machine_ex :=
  (fun (s : State) (pwr attr : Z) =>
     mkMachine ram (panel_ex s pwr) 4660 (fun a => a) (repeat attr 256)
       0 0 [] 0).
Local Abbreviation run_clicked_altair_ex := (run_clicked_altair 0 1 1 2).
Local Abbreviation step_clicked_altair_ex := (step_clicked_altair 1 1 2).
Local Abbreviation examine_clicked_altair_ex :=
  (examine_clicked_altair 1 1 2 8 1 2 ram ram_read).
Local Abbreviation examine_clicked_cromemco_ex :=
  (examine_clicked_cromemco 1 1 2 8 ram ram_read).
Local Abbreviation deposit_clicked_altair_ex :=
  (deposit_clicked_altair 1 1 2 8 1 2 ram ram_write).
Local Abbreviation protect_clicked_altair_ex :=
  (protect_clicked_altair 1 1 2 0 2 ram).
Local Abbreviation int_clicked_altair_ex :=
  (int_clicked_altair 1 2 ram ram_read).
Local Abbreviation reset_clicked_cromemco_ex :=
  (reset_clicked_cromemco 2 32 128 1 2 false 0 4 false ram ram_read
     (fun m => m)).

Lemma switches_dead_without_power_witness :
  let m := machine_ex (initial_globals 1) 0 0 in
  power (panel ram m) = 0 /\
  run_clicked_altair_ex 2 0 (panel ram m) = panel ram m /\
  deposit_clicked_altair_ex 2 0 m = m.
Proof.
  intros m.
  destruct (switches_dead_without_power 0 1 2 32 128 1 2 false 0 8 4 0 1 2
              false ram ram_read ram_write (fun m => m) m 2 0 eq_refl)
    as (Hrun & _ & _ & _ & _ & _ & Hdep & _).
  split; [reflexivity|]. split; [exact Hrun | exact Hdep].
Defined.


Lemma busy_cpu_blocks_switches_witness :
  let m := machine_ex (set_cpu_state 1 (initial_globals 1)) 1 0 in
  let h := machine_ex (set_cpu_bus 8 (initial_globals 1)) 1 0 in
  cpu_state (cpu_of ram m) = 1 /\
  step_clicked_altair_ex 2 0 (panel ram m) = panel ram m /\
  deposit_clicked_altair_ex 1 0 m = m /\
  Z.land (cpu_bus (cpu_of ram h)) 8 <> 0 /\
  examine_clicked_altair_ex 1 0 h = h.
Proof.
  intros m h.
  destruct (busy_cpu_blocks_switches 1 1 2 8 0 1 2 ram ram_read ram_write
              m 2 0) as (Hrun & _).
  destruct (busy_cpu_blocks_switches 1 1 2 8 0 1 2 ram ram_read ram_write
              m 1 0) as (Hrun' & _).
  destruct (busy_cpu_blocks_switches 1 1 2 8 0 1 2 ram ram_read ram_write
              h 1 0) as (_ & Hhalt).
  assert (Hh : Z.land (cpu_bus (cpu_of ram h)) 8 <> 0) by (cbn; lia).
  split; [reflexivity|].
  split; [apply (Hrun eq_refl)|].
  split; [apply (Hrun' eq_refl)|].
  split; [exact Hh|]. apply (Hhalt Hh).
Defined.

Lemma deposit_altair_protection_witness :
  let m := machine_ex (initial_globals 1) 1 0 in
  let w := machine_ex (initial_globals 1) 1 2 in
  (powered ram m = true /\ running_or_halted 1 8 ram m = false /\ 1 <> 2) /\
  (page_protected 1 2 ram w = true /\
   deposit_clicked_altair_ex 1 0 w = set_mem_wp ram 1 w) /\
  (page_protected 1 2 ram m = false /\
   memory ram (deposit_clicked_altair_ex 1 0 m) =
     write_byte ram ram_write 0 52 (memory ram m)).
Proof.
  intros m w.
  assert (Hne : 1 <> 2) by lia.
  destruct (deposit_altair_protection 1 1 2 8 1 2 ram ram_write w 0
              eq_refl eq_refl Hne) as (Hprot & _).
  destruct (deposit_altair_protection 1 1 2 8 1 2 ram ram_write m 0
              eq_refl eq_refl Hne) as (_ & Hfree).
  split; [repeat split; exact Hne|].
  split; [split; [reflexivity | apply (Hprot eq_refl)]|].
  split; [reflexivity|].
  destruct (Hfree eq_refl) as ((Hmem & _) & _). exact Hmem.
Defined.

Lemma leds_follow_pc_witness :
  let m := machine_ex (set_PC 256 (initial_globals 1)) 1 0 in
  (powered ram m = true /\ 1 <> 2 /\ 0 <> 1 /\ (1 = 1 \/ 1 = 2)) /\
  (running_or_halted 1 8 ram m = false /\
   0 <= address_switch ram m < 65536) /\
  leds_show_pc ram ram_read (examine_clicked_altair_ex 1 0 m) /\
  leds_show_pc ram ram_read (int_clicked_altair_ex 2 0 m).
Proof.
  intros m.
  assert (H12 : 1 <> 2) by lia.
  assert (H01 : 0 <> 1) by lia.
  assert (Hsw : 0 <= address_switch ram m < 65536) by (cbn; lia).
  destruct (leds_follow_pc 1 2 32 128 1 2 false 0 8 4 1 2 false ram
              ram_read ram_write (fun m => m) m 1 0 eq_refl H12 H01
              (or_introl eq_refl)) as (Hex & Hint & _).
  split; [repeat split; try assumption; left; reflexivity|].
  split; [split; [reflexivity | exact Hsw]|].
  split; [apply (Hex eq_refl Hsw) | exact Hint].
Defined.

Lemma protect_unprotect_round_trip_witness :
  let m := machine_ex (initial_globals 1) 1 0 in
  let m1 := protect_clicked_altair_ex 1 0 m in
  (powered ram m = true /\ running 1 (panel ram m) = false /\
   1 <> 2 /\ 0 <> 2 /\
   (Z.to_nat (page_of_PC ram m) < List.length (p_tab ram m))%nat /\
   tbl (p_tab ram m) (page_of_PC ram m) = 0) /\
  tbl (p_tab ram m1) (page_of_PC ram m) = 2 /\
  mem_wp ram m1 = 1 /\
  protect_clicked_altair_ex 2 0 m1 = set_mem_wp ram 0 m.
Proof.
  intros m m1.
  assert (H12 : 1 <> 2) by lia.
  assert (H02 : 0 <> 2) by lia.
  assert (Hlen : (Z.to_nat (page_of_PC ram m)
                  < List.length (p_tab ram m))%nat) by (cbn; lia).
  pose proof (protect_unprotect_round_trip 1 1 2 0 2 ram m 0 eq_refl
                eq_refl H12 H02 Hlen eq_refl) as Hrt.
  cbv zeta in Hrt. destruct Hrt as (Htab & Hwp & _ & _ & _ & Hback).
  split; [repeat split; assumption|].
  split; [exact Htab|]. split; [exact Hwp | exact Hback].
Defined.

Lemma protect_leaves_rom_witness :
  let m := machine_ex (initial_globals 1) 1 1 in
  (1 <> 0 /\ 1 <> 2 /\ tbl (p_tab ram m) (page_of_PC ram m) = 1) /\
  protect_clicked_altair_ex 1 0 m = m /\
  protect_clicked_altair_ex 2 0 m = m.
Proof.
  intros m.
  assert (H10 : 1 <> 0) by lia.
  assert (H12 : 1 <> 2) by lia.
  split; [repeat split; assumption|].
  split; apply (protect_leaves_rom 1 1 2 0 1 2 ram m _ 0 H10 H12 eq_refl).
Defined.

Lemma reset_hold_and_release_witness :
  let m := machine_ex (set_IFF 3 (set_PC 256 (set_cpu_state 1
             (initial_globals 1)))) 1 0 in
  let m1 := reset_clicked_cromemco_ex 1 0 m in
  let m2 := reset_clicked_cromemco_ex 0 0 m1 in
  (powered ram m = true /\ 0 <> 1 /\
   0 <= cpu_state (cpu_of ram m) < 256 /\ 0 <= 4 < 256 /\
   Z.land (cpu_state (cpu_of ram m)) 4 = 0) /\
  (reset (panel ram m1) = 1 /\
   Z.land (cpu_state (cpu_of ram m1)) 4 = 4 /\
   IFF (cpu_of ram m1) = 0 /\ PC (cpu_of ram m1) = PC (cpu_of ram m)) /\
  reset (panel ram m2) = 0 /\
  cpu_state (cpu_of ram m2) = cpu_state (cpu_of ram m) /\
  PC (cpu_of ram m2) = 0.
Proof.
  intros m m1 m2.
  assert (H01 : 0 <> 1) by lia.
  assert (Hst : 0 <= cpu_state (cpu_of ram m) < 256) by (cbn; lia).
  assert (Hrs : 0 <= 4 < 256) by lia.
  pose proof (reset_hold_and_release 2 32 128 1 2 false 0 4 false ram
                ram_read (fun m => m) m 0 eq_refl H01 Hst Hrs eq_refl)
    as Hrt.
  cbv zeta in Hrt.
  destruct Hrt as (Hhold & (Hreset & Hstate & _ & Hpc & _) & _).
  split; [repeat split; try assumption; lia|].
  split; [exact Hhold|].
  split; [exact Hreset|]. split; [exact Hstate | exact Hpc].
Defined.

Lemma examine_next_counts_witness :
  let m := machine_ex (initial_globals 1) 1 0 in
  let m3 := Nat.iter 3 (examine_clicked_cromemco_ex 2 0)
              (examine_clicked_cromemco_ex 1 0 m) in
  (powered ram m = true /\ running_or_halted 1 8 ram m = false /\
   1 <> 2 /\ 0 <= address_switch ram m < 65536) /\
  PC (cpu_of ram m3) = to_WORD (address_switch ram m + Z.of_nat 3) /\
  fp_led_address (panel ram m3) = PC (cpu_of ram m3) /\
  memory ram m3 = memory ram m.
Proof.
  intros m m3.
  assert (H12 : 1 <> 2) by lia.
  assert (Hsw : 0 <= address_switch ram m < 65536) by (cbn; lia).
  destruct (examine_next_counts 1 1 2 8 1 2 ram ram_read m 0 3 eq_refl
              eq_refl H12 Hsw) as (Hcro & _).
  split; [repeat split; try assumption; lia|].
  exact Hcro.
Defined.

(** The debugger with an empty breakpoint table of four slots, a given
    CPU and given lines to read. *)
Local Abbreviation ice_ex :=
  (fun (s : State) (lines : list string) =>
     mkIce ram s (fun a => a) (repeat no_break 4) 0 lines []).
Local Abbreviation do_fill_ex := (do_fill ram ram_write).
Local Abbreviation do_move_ex := (do_move ram ram_read ram_write).
Local Abbreviation do_break_ex :=
  (do_break ram ram_read ram_write (Some 4) to_WORD to_BYTE).
Local Abbreviation do_reg_ex := (do_reg 1 2 false false ram).
Local Abbreviation find_reg_ex := (find_reg 1 false).

(** [f 100,3,ff] *)
Lemma do_fill_fills_witness :
  let ice := ice_ex (initial_globals 1) [] in
  (exatoi (skip_spaces "100,3,ff") = Some 256 /\
   after_comma (skip_spaces "100,3,ff") = Some "3,ff" /\
   exatoi "3,ff" = Some 3 /\ after_comma "3,ff" = Some "ff" /\
   exatoi "ff" = Some 255) /\
  exists ice',
    do_fill_ex "100,3,ff" ice = Some ice' /\
    ram_read (ice_mem ram ice') 258 = 255 /\
    ram_read (ice_mem ram ice') 259 = ram_read (ice_mem ram ice) 259.
Proof.
  intros ice.
  split; [repeat split|].
  destruct (do_fill_fills ram ram_read ram_write "100,3,ff" "3,ff" "ff"
              256 3 255 ice ram_stores_writes ram_keeps_others
              eq_refl eq_refl eq_refl eq_refl eq_refl)
    as (ice' & Hrun & _ & Hmem).
  exists ice'. split; [exact Hrun|].
  split; [apply (Hmem 258); lia | apply (Hmem 259); lia].
Defined.

(** [f 100,3]: the value is missing. *)
Lemma fill_move_need_two_commas_witness :
  let ice := ice_ex (initial_globals 1) [] in
  let ice' := ice_puts ram "value missing" ice in
  ((commas "100,3" < 2)%nat /\ do_fill_ex "100,3" ice = Some ice') /\
  ice_mem ram ice' = ice_mem ram ice /\
  exists line, ice_out ram ice' = Printed line :: ice_out ram ice.
Proof.
  intros ice ice'.
  assert (Hc : (commas "100,3" < 2)%nat) by (cbn; lia).
  assert (Hrun : do_fill_ex "100,3" ice = Some ice') by reflexivity.
  split; [split; assumption|].
  apply (fill_move_need_two_commas ram ram_read ram_write "100,3" ice ice'
           Hc (or_introl Hrun)).
Defined.


(** [v 100,101,10]: the byte at 100h is repeated. *)
Lemma do_move_replicates_witness :
  let ice := ice_ex (initial_globals 1) [] in
  (exatoi (skip_spaces "100,101,10") = Some 256 /\
   after_comma (skip_spaces "100,101,10") = Some "101,10" /\
   exatoi "101,10" = Some 257 /\ after_comma "101,10" = Some "10" /\
   exatoi "10" = Some 16 /\ 16 <= 65536 /\
   0 < to_WORD (257 - 256) < 16) /\
  exists ice',
    do_move_ex "100,101,10" ice = Some ice' /\
    ram_read (ice_mem ram ice') (to_WORD (257 + 9)) =
      ram_read (ice_mem ram ice) (to_WORD (256 + 9 mod to_WORD (257 - 256))).
Proof.
  intros ice.
  assert (Hmax : 16 <= 65536) by lia.
  assert (Hd : 0 < to_WORD (257 - 256) < 16) by (cbn; lia).
  split; [repeat split; try assumption; apply Hd|].
  destruct (do_move_replicates ram ram_read ram_write "100,101,10"
              "101,10" "10" 256 257 16 ice ram_stores_writes
              ram_keeps_others ram_reads_bytes eq_refl eq_refl eq_refl
              eq_refl eq_refl Hmax Hd)
    as (ice' & Hrun & Hmem).
  exists ice'. split; [exact Hrun|]. apply (Hmem 9). lia.
Defined.

(** [b 100] takes slot 0; [b0 c] clears it. *)
Lemma break_set_clear_round_trip_witness :
  let ice := ice_ex (initial_globals 1) [] in
  exists ice1,
    (soft_ok ram 4 ice /\ sb_next ram ice <= 9 /\
     sb_pass (soft_at ram ice (sb_next ram ice)) = 0 /\
     isxdigit (head_char " 100") = false /\
     char_code (head_char " 100") <> 10 /\
     char_code (head_char (skip_spaces " 100")) <> 99 /\
     do_break_ex " 100" ice = Some ice1) /\
    ram_read (ice_mem ram ice1) 256 = 118 /\
    exists ice2,
      do_break_ex "0 c" ice1 = Some ice2 /\
      (forall b, ram_read (ice_mem ram ice2) b = ram_read (ice_mem ram ice) b)
      /\ soft_at ram ice2 0 = no_break.
Proof.
  intros ice.
  destruct (do_break_ex " 100" ice) as [ice1|] eqn:Hset;
    [|discriminate Hset].
  exists ice1.
  assert (Hok : soft_ok ram 4 ice) by (split; cbn; lia).
  assert (Hmax : sb_next ram ice <= 9) by (cbn; lia).
  assert (Hnl : char_code (head_char " 100") <> 10) by (cbn; lia).
  assert (Hc : char_code (head_char (skip_spaces " 100")) <> 99)
    by (cbn; lia).
  split; [repeat split; try assumption; apply Hok|].
  split; [inversion Hset; reflexivity|].
  apply (break_set_clear_round_trip ram ram_read ram_write (Some 4) to_WORD
           to_BYTE 4 " 100" ice ice1 eq_refl Hok Hmax ram_stores_writes
           ram_keeps_others ram_reads_bytes to_WORD_keeps_mod
           to_BYTE_keeps_mod eq_refl eq_refl Hnl Hc Hset).
Defined.

(** [b2 c] with nothing in slot 2. *)
Lemma clear_unset_break_writes_address_0_witness :
  let ice := mkIce ram (initial_globals 1) (fun _ => 195)
               (repeat no_break 4) 0 [] [] in
  (0 <= 2 <= 9 /\ 2 < 4 /\ soft_at ram ice 2 = no_break /\
   ram_read (ice_mem ram ice) 0 = 195) /\
  exists ice',
    do_break_ex "2 c" ice = Some ice' /\
    ice_mem ram ice' = write_byte ram ram_write 0 0 (ice_mem ram ice) /\
    ram_read (ice_mem ram ice') 0 = 0.
Proof.
  intros ice.
  assert (Hi : 0 <= 2 <= 9) by lia.
  assert (Hlt : 2 < 4) by lia.
  split; [repeat split; try lia|].
  apply (clear_unset_break_writes_address_0 ram ram_read ram_write (Some 4)
           to_WORD to_BYTE 4 2 ice eq_refl ram_stores_writes Hi Hlt
           eq_refl).
Defined.

(** Four times [b 100]: [sb_next] is at slot 0 again. *)
Lemma do_break_keeps_table_witness :
  let ice := set_sb_next ram 3 (ice_ex (initial_globals 1) []) in
  exists ice',
    (soft_ok ram 4 ice /\ do_break_ex " 100" ice = Some ice') /\
    soft_ok ram 4 ice' /\
    (sb_next ram ice' = sb_next ram ice \/
     sb_next ram ice' = (sb_next ram ice + 1) mod 4).
Proof.
  intros ice.
  destruct (do_break_ex " 100" ice) as [ice'|] eqn:Hset;
    [|discriminate Hset].
  exists ice'.
  assert (Hok : soft_ok ram 4 ice) by (split; cbn; lia).
  split; [split; [exact Hok | reflexivity]|].
  apply (do_break_keeps_table ram ram_read ram_write (Some 4) to_WORD
           to_BYTE 4 " 100" ice ice' eq_refl Hok Hset).
Defined.

(** On the Z80, [x bc'] is the pair BC', not BC or B; [x q] is no
    register. *)
Lemma find_reg_longest_name_witness :
  let p := mkReg "bc'" 3 "BC'" true (R_88 B_ set_B_ C_ set_C_) in
  let q := mkReg "bc" 2 "BC" false (R_88 B set_B C set_C) in
  (find_reg_ex 1 "bc'" (regs false) = Some p /\ In q (regs false) /\
   reg_allowed 1 false 1 q = true /\
   strncmp_eq "bc'" (name q) (len q) = true /\
   find_reg_ex 1 "q" (regs false) = None) /\
  (In p (regs false) /\ reg_allowed 1 false 1 p = true /\
   strncmp_eq "bc'" (name p) (len p) = true) /\
  (q = p \/ (String.length (name q) < String.length (name p))%nat) /\
  strncmp_eq "q" (name q) (len q) = false.
Proof.
  intros p q.
  assert (Hin : In q (regs false)).
  { unfold regs. cbn [app In]. do 4 right. left. reflexivity. }
  destruct (find_reg_longest_name 1 false 1 "bc'") as (Hsome & _).
  destruct (find_reg_longest_name 1 false 1 "q") as (_ & Hnone).
  destruct (Hsome p eq_refl) as (Hp & Hal & Hm & Hlong).
  split; [repeat split; exact Hin|].
  split; [split; [exact Hp|split; [exact Hal | exact Hm]]|].
  split; [exact (Hlong q Hin eq_refl eq_refl)|].
  exact (Hnone eq_refl q Hin eq_refl).
Defined.

(** [x fs] with the answer 0 on an 8080 with S and N set. *)
Lemma do_reg_keeps_8080_flags_witness :
  let ice := ice_ex (set_F 130 (initial_globals 2)) ["0"] in
  exists ice',
    (cpu (ice_cpu ram ice) <> 1 /\
     (forall p, find_reg_ex (cpu (ice_cpu ram ice)) (skip_spaces "fs")
                  (regs false) = Some p -> name p <> "f") /\
     do_reg_ex "fs" ice = Some ice') /\
    F (ice_cpu ram ice') = 2 /\
    flags_8080_forced (F (ice_cpu ram ice'))
      = flags_8080_forced (F (ice_cpu ram ice)).
Proof.
  intros ice.
  destruct (do_reg_ex "fs" ice) as [ice'|] eqn:Hrun; [|discriminate Hrun].
  exists ice'.
  assert (Hc : cpu (ice_cpu ram ice) <> 1) by (cbn; lia).
  assert (Hname : forall p,
             find_reg_ex (cpu (ice_cpu ram ice)) (skip_spaces "fs")
               (regs false) = Some p -> name p <> "f").
  { intros p Hp.
    assert (Hf : find_reg_ex (cpu (ice_cpu ram ice)) (skip_spaces "fs")
                   (regs false) = Some (mkReg "fs" 2 "S" false (R_M S_FLAG)))
      by reflexivity.
    rewrite Hf in Hp. inversion Hp. cbn. discriminate. }
  split; [repeat split; assumption|].
  split; [inversion Hrun; reflexivity|].
  apply (do_reg_keeps_8080_flags 1 2 false false ram "fs" ice ice' Hc Hname
           Hrun).
Defined.

(** [x f] with the answer 0 on an 8080. *)
Lemma do_reg_f_stores_low_byte_witness :
  let ice := ice_ex (set_F 130 (initial_globals 2)) ["0"] in
  let p := mkReg "f" 1 "F" false (R_F F set_F) in
  (find_reg_ex (cpu (ice_cpu ram ice)) (skip_spaces "f") (regs false)
     = Some p /\
   name p = "f" /\ ice_in ram ice = ["0"] /\
   char_code (head_char "0") <> 10 /\ exatoi "0" = Some 0 /\
   Z.testbit 0 1 = false) /\
  exists ice',
    do_reg_ex "f" ice = Some ice' /\
    F (ice_cpu ram ice') = Z.land (to_WORD 0) 255 /\
    flags_8080_forced (F (ice_cpu ram ice')) = false.
Proof.
  intros ice p.
  assert (Hnl : char_code (head_char "0") <> 10) by (cbn; lia).
  split; [repeat split; exact Hnl|].
  destruct (do_reg_f_stores_low_byte 1 2 false false ram "f" "0" [] 0 p ice
              eq_refl eq_refl eq_refl Hnl eq_refl)
    as (ice' & Hrun & HF & Hlost).
  exists ice'. split; [exact Hrun|]. split; [exact HF|].
  apply Hlost. reflexivity.
Defined.

(** [x bc] with the answer 1234 on a Z80. *)
Lemma do_reg_round_trip_witness :
  let ice := ice_ex (initial_globals 1) ["1234"; "next"] in
  let p := mkReg "bc" 2 "BC" false (R_88 B set_B C set_C) in
  (find_reg_ex (cpu (ice_cpu ram ice)) (skip_spaces " bc") (regs false)
     = Some p /\
   ice_in ram ice = ["1234"; "next"] /\
   char_code (head_char "1234") <> 10 /\ exatoi "1234" = Some 4660) /\
  exists ice',
    do_reg_ex " bc" ice = Some ice' /\
    reg_value p (ice_cpu ram ice') = reg_keeps p (to_WORD 4660) /\
    ice_in ram ice' = ["next"].
Proof.
  intros ice p.
  assert (Hnl : char_code (head_char "1234") <> 10) by (cbn; lia).
  split; [repeat split; exact Hnl|].
  apply (do_reg_round_trip 1 2 false false ram " bc" "1234" ["next"] 4660
           p ice eq_refl eq_refl Hnl eq_refl).
Defined.

(** Power-on with the 8080 selected, then the line [x f] answered with
    the line [0]. *)
Lemma i8080_flags_invariant_witness :
  let s0 := fst (init_cpu_ex (initial_globals 2, 1000%N)) in
  let ice := ice_ex s0 ["0" ++ nl] in
  (false = false /\ 1 <> 2) /\
  (cpu (initial_globals 2) = 2 /\ F s0 = 210 /\
   flags_8080_forced (F s0) = true) /\
  (cpu (set_F 255 (initial_globals 1)) <> 2 /\
   flags_8080_forced
     (F (switch_cpu_ex 2 (set_F 255 (initial_globals 1)))) = true) /\
  (cpu (ice_cpu ram ice) = 2 /\ ice_in ram ice = ["0" ++ nl] /\
   char_code (head_char ("0" ++ nl)) <> 10 /\
   exatoi ("0" ++ nl) = Some 0 /\
   Z.testbit 0 1 = false) /\
  exists ice',
    do_reg_ex (" f" ++ nl) ice = Some ice' /\
    cpu (ice_cpu ram ice') = 2 /\
    F (ice_cpu ram ice') = 0 /\
    flags_8080_forced (F (ice_cpu ram ice')) = false /\
    switch_cpu_ex 2 (ice_cpu ram ice') = ice_cpu ram ice'.
Proof.
  intros s0 ice.
  assert (H0 : false = false /\ 1 <> 2) by (split; [reflexivity | lia]).
  destruct (i8080_flags_invariant 1 2 8 false false true N counting ram
              (proj1 H0) (proj2 H0)) as (Hinit & Hsw & Hreg).
  assert (Hnl : char_code (head_char ("0" ++ nl)) <> 10) by (cbn; lia).
  split; [exact H0|].
  split; [split; [reflexivity|split; [reflexivity|apply Hinit; reflexivity]]|].
  split; [split; [cbn; lia | apply Hsw; cbn; lia]|].
  split; [repeat split; exact Hnl|].
  destruct (Hreg ice ("0" ++ nl) [] 0 eq_refl eq_refl Hnl eq_refl eq_refl)
    as (ice' & Hrun & Hc & HF & Hforced & Hswitch & _).
  exists ice'. split; [exact Hrun|]. split; [exact Hc|].
  split; [exact HF|]. split; [exact Hforced | exact Hswitch].
Defined.
